(** * refract.trade: the trading-system pipeline, embedded and verified

    A shallow embedding of the Python sources under [trading-system/]:
    the domain model ([domain/models.py], [domain/simple_events.py]), the
    Alpaca adapter's status normalisation ([adapters/brokers/alpaca.py]),
    the risk engine ([engines/risk/engine.py]), the execution engine
    ([engines/execution/engine.py]) and the moving-average crossover
    strategy ([engines/strategy/ma_crossover.py]).

    Conventions of the embedding.
    - Python [int] is [Z]; [str] is [string], read as ASCII text:
      [Py.lower] and [Py.upper] are [str.lower] and [str.upper] on
      strings of ASCII characters, the case mapping of any other
      character is not modelled and its bytes are left alone.
    - Where the program computes with a [float] or a [Decimal] the number
      is idealised as an exact rational [Q]: no rounding.  Comparisons
      are the boolean ones of [Q]; equalities between computed numbers
      are [Qeq].  The checks of [TradeSignal.__post_init__] are modelled
      on every value of the two types: [Py.float] and [Py.Decimal] add
      the infinities and NaN.
    - [datetime] is a number of microseconds ([Z]); [timedelta] likewise.
    - A [dict] is a [gmap]; a Python list is a [list] whose head is the
      oldest element, as [list.append] builds it.
    - Reads of the outside world ([datetime.utcnow], [datetime.now],
      [uuid.uuid4], the broker) are parameters of the function that makes
      them; an exception is a value of a sum type. *)

From Stdlib Require Import ZArith QArith Qabs Qround String Ascii List Lia Lqa.
From stdpp Require Import base option list gmap strings pretty.

Open Scope Z_scope.

(** ** Python helpers *)

Module Py.

(** The outcome of a call that may raise: the value, or the exception. *)
Inductive result (E A : Type) : Type :=
| Ok (a : A)
| Raise (e : E).
Arguments Ok {E A} a.
Arguments Raise {E A} e.

(** [l[k:]] for any integer [k]: a negative [k] counts from the end,
    and both ends clamp.  Note [l[-0:]] is [l[0:]], the whole list. *)
Definition slice_from {A : Type} (k : Z) (l : list A) : list A :=
  if k <? 0
  then drop (Z.to_nat (Z.max (Z.of_nat (length l) + k) 0)) l
  else drop (Z.to_nat k) l.

(** [l[:k]] for any integer [k]. *)
Definition slice_to {A : Type} (k : Z) (l : list A) : list A :=
  if k <? 0
  then take (Z.to_nat (Z.max (Z.of_nat (length l) + k) 0)) l
  else take (Z.to_nat k) l.

(** [len(l)] as a Python integer. *)
Definition len {A : Type} (l : list A) : Z := Z.of_nat (length l).

(** [a // b] for [b > 0] is the floor division of [Z]. *)
Definition floordiv (a b : Z) : Z := a / b.

(** [str.lower] on one character of ASCII text: only [A]..[Z] change. *)
Definition lower_ascii (c : ascii) : ascii :=
  let n := nat_of_ascii c in
  if ((65 <=? n)%nat && (n <=? 90)%nat)%bool then ascii_of_nat (n + 32) else c.

Fixpoint lower (s : string) : string :=
  match s with
  | EmptyString => EmptyString
  | String c s' => String (lower_ascii c) (lower s')
  end.

(** [str.upper] on ASCII text: only [a]..[z] change. *)
Fixpoint upper (s : string) : string :=
  match s with
  | EmptyString => EmptyString
  | String c s' =>
      let n := nat_of_ascii c in
      String (if ((97 <=? n)%nat && (n <=? 122)%nat)%bool
              then ascii_of_nat (n - 32) else c)
             (upper s')
  end.

(** [str(x)] / [f"{x}"] of an optional string: [None] prints as "None". *)
Definition str_opt (o : option string) : string :=
  match o with
  | Some s => s
  | None => "None"
  end.

(** [s.startswith(p)]. *)
Fixpoint startswith (p s : string) : bool :=
  match p, s with
  | EmptyString, _ => true
  | String a p', String b s' => if Ascii.eqb a b then startswith p' s' else false
  | String _ _, EmptyString => false
  end.

(** Boolean comparisons on the idealised floats. *)
Definition Qleb (x y : Q) : bool := Qle_bool x y.
Definition Qltb (x y : Q) : bool := negb (Qle_bool y x).

(** A [float] as a caller can pass it: a number, an infinity or NaN. *)
Inductive float :=
| Num (q : Q)
| Infinity (negative : bool)
| NaN.

(** [a <= b] on floats: false as soon as one side is NaN. *)
Definition float_le (a b : float) : bool :=
  match a, b with
  | NaN, _ | _, NaN => false
  | Num x, Num y => Qleb x y
  | Infinity true, _ => true
  | _, Infinity false => true
  | Infinity false, _ => false
  | Num _, Infinity true => false
  end.

(** [a < b] on floats, likewise. *)
Definition float_lt (a b : float) : bool :=
  match a, b with
  | NaN, _ | _, NaN => false
  | Num x, Num y => Qltb x y
  | Infinity true, Infinity true => false
  | Infinity true, _ => true
  | Infinity false, _ => false
  | Num _, Infinity negative => negb negative
  end.

(** A [Decimal]: a number, an infinity or NaN. *)
Inductive Decimal :=
| DNum (q : Q)
| DInfinity (negative : bool)
| DNaN.

(** [d <= 0] for a [Decimal]: an ordering comparison with NaN signals
    [InvalidOperation], which the default context raises. *)
Definition decimal_le_zero (d : Decimal) : result string bool :=
  match d with
  | DNum q => Ok (Qleb q 0)
  | DInfinity negative => Ok negative
  | DNaN => Raise "[<class 'decimal.InvalidOperation'>]"
  end.

(** [min(a, b)] of Python returns [a] unless [b < a]. *)
Definition min (a b : Q) : Q := if Qltb b a then b else a.

(** Round to the nearest integer, ties to even: what [format] does with
    the digit after the last one it prints. *)
Definition round_half_even (x : Q) : Z :=
  let f := Qfloor x in
  let r := (x - inject_Z f)%Q in
  if Qltb r (1 # 2) then f
  else if Qltb (1 # 2) r then f + 1
  else if Z.even f then f else f + 1.

(** Decimal digits of a natural number, padded on the left to [w]. *)
Definition digits (w : nat) (n : Z) : string :=
  let s := pretty (Z.to_N n) in
  String.string_of_list_ascii (replicate (w - String.length s) "0"%char) +:+ s.

(** [f"{x:.{d}f}"]: fixed notation with [d] decimals. *)
Definition format_fixed (d : nat) (x : Q) : string :=
  let scale := 10 ^ Z.of_nat d in
  let n := round_half_even (x * inject_Z scale)%Q in
  let a := Z.abs n in
  (if Qltb x 0 then "-" else "")
    +:+ pretty (Z.to_N (a / scale))
    +:+ (match d with
         | O => ""
         | _ => "." +:+ digits d (a mod scale)
         end).

(** [f"{x:.1%}"]: the value times 100, one decimal, a percent sign. *)
Definition format_pct1 (x : Q) : string :=
  format_fixed 1 (x * 100)%Q +:+ "%".

(** The call raised. *)
Definition raises {E A : Type} (r : result E A) : Prop :=
  exists e, r = Raise e.

End Py.

Export Py (result, Ok, Raise).

(** ** domain/models.py *)

Module Models.

Inductive Side := BUY | SELL.
Inductive OrderType := MARKET | LIMIT | STOP | STOP_LIMIT.
Inductive SignalSource := STRATEGY | AI.
Inductive OrderStatus :=
  PENDING | SUBMITTED | FILLED | PARTIALLY_FILLED | CANCELLED | REJECTED.
Inductive MarketEventType := TICK | BAR | VOLATILITY | OPTION_CHAIN.

#[export] Instance Side_eq_dec : EqDecision Side.
Proof. solve_decision. Defined.
#[export] Instance OrderType_eq_dec : EqDecision OrderType.
Proof. solve_decision. Defined.
#[export] Instance OrderStatus_eq_dec : EqDecision OrderStatus.
Proof. solve_decision. Defined.
#[export] Instance MarketEventType_eq_dec : EqDecision MarketEventType.
Proof. solve_decision. Defined.

(** [Side.value]. *)
Definition side_value (s : Side) : string :=
  match s with BUY => "buy" | SELL => "sell" end.

(** [OrderStatus.value]. *)
Definition status_value (s : OrderStatus) : string :=
  match s with
  | PENDING => "pending" | SUBMITTED => "submitted" | FILLED => "filled"
  | PARTIALLY_FILLED => "partially_filled" | CANCELLED => "cancelled"
  | REJECTED => "rejected"
  end.

(** The values a [Dict[str, Any]] of this program holds. *)
Inductive PyVal :=
| VStr (s : string)
| VFloat (q : Q)
| VInt (z : Z)
| VBool (b : bool)
| VNone.

(** [datetime] and [timedelta], in microseconds. *)
Definition datetime := Z.
Definition timedelta := Z.
Definition timedelta_minutes (m : Z) : timedelta := m * 60 * 1000000.
Definition timedelta_seconds (s : Z) : timedelta := s * 1000000.

Record TradeSignal := {
  id : string;
  symbol : string;
  side : Side;
  qty : Z;
  order_type : OrderType;
  confidence : Q;
  source : SignalSource;
  created_at : datetime;
  strategy_name : option string;
  price : option Q;
  stop_price : option Q;
  metadata : gmap string PyVal
}.

(** [TradeSignal.__post_init__], as a function of the three fields it
    reads: the three checks, in order; the first one that fails raises
    its [ValueError].  [confidence] is any float and [price] any Decimal:
    [0.0 <= confidence <= 1.0] is false of NaN, and comparing a NaN price
    with zero raises [decimal.InvalidOperation]. *)
Definition __post_init__
    (confidence : Py.float) (qty : Z) (price : option Py.Decimal)
    : result string unit :=
  if negb (Py.float_le (Py.Num 0) confidence
           && Py.float_le confidence (Py.Num 1)) then
    Raise "Confidence must be between 0.0 and 1.0"
  else if qty <=? 0 then
    Raise "Quantity must be positive"
  else
    match price with
    | None => Ok tt
    | Some p =>
        match Py.decimal_le_zero p with
        | Raise e => Raise e
        | Ok true => Raise "Price must be positive"
        | Ok false => Ok tt
        end
    end.

(** The condition under which the specification says that construction
    raises: confidence < 0 or confidence > 1, or qty <= 0, or a price
    that is present and <= 0. *)
Definition spec_raise_condition
    (confidence : Py.float) (qty : Z) (price : option Py.Decimal) : Prop :=
  Py.float_lt confidence (Py.Num 0) = true \/
  Py.float_lt (Py.Num 1) confidence = true \/
  qty <= 0 \/
  exists p, price = Some p /\ Py.decimal_le_zero p = Ok true.

(** The claim of the specification: construction raises exactly then. *)
Definition construction_claim : Prop :=
  forall confidence qty price,
    Py.raises (__post_init__ confidence qty price) <->
    spec_raise_condition confidence qty price.

(** Construction of a [TradeSignal] from numbers: the dataclass stores the
    fields and then runs [__post_init__]. *)
Definition new_TradeSignal
    (id : string) (symbol : string) (side : Side) (qty : Z)
    (order_type : OrderType) (confidence : Q) (source : SignalSource)
    (created_at : datetime) (strategy_name : option string)
    (price stop_price : option Q) (metadata : gmap string PyVal)
    : result string TradeSignal :=
  let self := {| id := id; symbol := symbol; side := side; qty := qty;
                 order_type := order_type; confidence := confidence;
                 source := source; created_at := created_at;
                 strategy_name := strategy_name; price := price;
                 stop_price := stop_price; metadata := metadata |} in
  match __post_init__ (Py.Num confidence) qty (Py.DNum <$> price) with
  | Ok _ => Ok self
  | Raise e => Raise e
  end.

Record PositionSnapshot := {
  pos_symbol : string;
  pos_qty : Z;
  avg_price : Q;
  unrealized_pl : Q;
  exposure_pct : Q;
  pos_timestamp : datetime
}.

Record AccountSnapshot := {
  equity : Q;
  buying_power : Q;
  cash : Q;
  day_trades_remaining : Z;
  acct_timestamp : datetime
}.

Record MarketEvent := {
  type : MarketEventType;
  ev_symbol : string;
  ev_timestamp : datetime;
  payload : gmap string Q
}.

(** One entry of [risk_check_metadata]. *)
Inductive RiskCheck :=
| RuleOutcome (passed : bool) (reason : option string)
| Flag (b : bool)
| ErrorText (s : string).

Record ApprovedTrade := {
  approved_signal : TradeSignal;
  approved_at : datetime;
  approved_metadata : gmap string RiskCheck
}.

Record RejectedTrade := {
  rejected_signal : TradeSignal;
  rejected_at : datetime;
  rejection_reason : string;
  rejected_metadata : gmap string RiskCheck
}.

Record OrderEvent := {
  order_id : string;
  signal_id : string;
  status : OrderStatus;
  timestamp : datetime;
  broker_order_id : option string;
  filled_qty : Z;
  filled_price : option Q;
  order_rejection_reason : option string;
  order_metadata : gmap string string
}.

(** [create_trade_signal]: the id comes from [uuid.uuid4], the creation
    time from [datetime.utcnow]; the symbol is upper-cased. *)
Definition create_trade_signal
    (uuid4 : string) (utcnow : datetime)
    (symbol : string) (side : Side) (qty : Z) (source : SignalSource)
    (confidence : Q) (strategy_name : option string)
    (order_type : OrderType) (price stop_price : option Q)
    (metadata : option (gmap string PyVal)) : result string TradeSignal :=
  new_TradeSignal uuid4 (Py.upper symbol) side qty order_type
    confidence source utcnow strategy_name price stop_price
    (default ∅ metadata).

End Models.

Export Models.

(** ** domain/simple_events.py *)

Module Events.

Inductive EventType :=
| SIGNAL_GENERATED | SIGNAL_APPROVED | SIGNAL_REJECTED
| ORDER_SUBMITTED | ORDER_FILLED | ORDER_REJECTED.

(** What an event carries in its [metadata] dictionary. *)
Inductive EventData :=
| SignalData (signal : TradeSignal) (strategy_name : string)
| ApprovedData (approved_trade : ApprovedTrade)
| RejectedData (rejected_trade : RejectedTrade).

Record DomainEvent := {
  event_type : EventType;
  event_id : string;
  event_timestamp : datetime;
  event_metadata : EventData
}.

Definition create_signal_generated_event
    (uuid4 : string) (utcnow : datetime)
    (signal : TradeSignal) (strategy_name : string) : DomainEvent :=
  {| event_type := SIGNAL_GENERATED; event_id := uuid4;
     event_timestamp := utcnow;
     event_metadata := SignalData signal strategy_name |}.

Definition create_signal_approved_event
    (uuid4 : string) (utcnow : datetime)
    (approved_trade : ApprovedTrade) : DomainEvent :=
  {| event_type := SIGNAL_APPROVED; event_id := uuid4;
     event_timestamp := utcnow;
     event_metadata := ApprovedData approved_trade |}.

Definition create_signal_rejected_event
    (uuid4 : string) (utcnow : datetime)
    (rejected_trade : RejectedTrade) : DomainEvent :=
  {| event_type := SIGNAL_REJECTED; event_id := uuid4;
     event_timestamp := utcnow;
     event_metadata := RejectedData rejected_trade |}.

End Events.

Export Events.

(** ** adapters/brokers/alpaca.py *)

Module Alpaca.

(** The exception classes of [adapters/brokers/base.py]. *)
Inductive BrokerError :=
| ConnectionError (msg : string)
| OrderError (msg : string)
| MarketDataError (msg : string).

(** The order object the vendor SDK hands back.  [vo_filled_qty] and
    [vo_filled_avg_price] are [None] where the SDK's field is falsy. *)
Record VendorOrder := {
  vo_id : string;
  vo_status : string;
  vo_filled_qty : option Z;
  vo_filled_avg_price : option Q;
  vo_raw : string
}.

(** The [mapping] literal of [_convert_order_status], in source order. *)
Definition mapping_items : list (string * OrderStatus) :=
  [ ("new", SUBMITTED);
    ("partially_filled", PARTIALLY_FILLED);
    ("filled", FILLED);
    ("done_for_day", CANCELLED);
    ("canceled", CANCELLED);
    ("expired", CANCELLED);
    ("replaced", CANCELLED);
    ("pending_cancel", PENDING);
    ("pending_replace", PENDING);
    ("accepted", SUBMITTED);
    ("pending_new", PENDING);
    ("accepted_for_bidding", SUBMITTED);
    ("stopped", CANCELLED);
    ("rejected", REJECTED);
    ("suspended", CANCELLED);
    ("calculated", SUBMITTED) ].

Definition mapping : gmap string OrderStatus := list_to_map mapping_items.

(** [mapping.get(alpaca_status.lower(), OrderStatus.PENDING)]. *)
Definition _convert_order_status (alpaca_status : string) : OrderStatus :=
  default PENDING (mapping !! Py.lower alpaca_status).

(** [get_order_status]: [connected] is [is_connected()], [get_order] is
    the SDK call [api_client.get_order], which returns the order or
    raises. *)
Definition get_order_status
    (connected : bool) (get_order : string -> result string VendorOrder)
    (uuid4 : string) (utcnow : datetime) (order_id : string)
    : result BrokerError OrderEvent :=
  if negb connected then Raise (ConnectionError "Not connected to Alpaca")
  else
    match get_order order_id with
    | Ok order =>
        Ok {| Models.order_id := uuid4;
              signal_id := "";
              status := _convert_order_status (vo_status order);
              timestamp := utcnow;
              broker_order_id := Some (vo_id order);
              filled_qty := default 0 (vo_filled_qty order);
              filled_price := vo_filled_avg_price order;
              order_rejection_reason := None;
              order_metadata := {[ "alpaca_order" := vo_raw order ]} |}
    | Raise e => Raise (OrderError ("Failed to get order status: " +:+ e))
    end.

(** The normalisation table as the specification words it. *)
Definition spec_status_table : list (string * OrderStatus) :=
  [ ("new", SUBMITTED); ("accepted", SUBMITTED);
    ("accepted_for_bidding", SUBMITTED); ("calculated", SUBMITTED);
    ("pending_new", SUBMITTED);
    ("partially_filled", PARTIALLY_FILLED);
    ("filled", FILLED);
    ("canceled", CANCELLED); ("expired", CANCELLED); ("replaced", CANCELLED);
    ("stopped", CANCELLED); ("done_for_day", CANCELLED);
    ("suspended", CANCELLED);
    ("rejected", REJECTED);
    ("pending_cancel", PENDING); ("pending_replace", PENDING) ].

(** The same table with the one entry the code has differently:
    [pending_new] is PENDING. *)
Definition amended_status_table : list (string * OrderStatus) :=
  [ ("new", SUBMITTED); ("accepted", SUBMITTED);
    ("accepted_for_bidding", SUBMITTED); ("calculated", SUBMITTED);
    ("partially_filled", PARTIALLY_FILLED);
    ("filled", FILLED);
    ("canceled", CANCELLED); ("expired", CANCELLED); ("replaced", CANCELLED);
    ("stopped", CANCELLED); ("done_for_day", CANCELLED);
    ("suspended", CANCELLED);
    ("rejected", REJECTED);
    ("pending_cancel", PENDING); ("pending_replace", PENDING);
    ("pending_new", PENDING) ].

(** The sixteen vendor statuses the table knows. *)
Definition known_statuses : list string := mapping_items.*1.

(** [_convert_order_type]: the dictionary has an entry for each of the
    four members, so the default 'market' is never used. *)
Definition _convert_order_type (order_type : OrderType) : string :=
  match order_type with
  | MARKET => "market"
  | LIMIT => "limit"
  | STOP => "stop"
  | STOP_LIMIT => "stop_limit"
  end.

(** The truth value of an optional [Decimal]: [None] and zero are false. *)
Definition truthy (x : option Q) : bool :=
  match x with
  | Some q => negb (Qeq_bool q 0)
  | None => false
  end.

(** The [order_request] dictionary [place_order] builds.  The two price
    entries hold [str(price)]; the number stands for its text. *)
Definition order_request (signal : TradeSignal) : gmap string PyVal :=
  let request : gmap string PyVal :=
    <[ "symbol" := VStr (symbol signal) ]>
    (<[ "qty" := VInt (qty signal) ]>
     (<[ "side" := VStr (side_value (side signal)) ]>
      (<[ "type" := VStr (_convert_order_type (order_type signal)) ]>
       {[ "time_in_force" := VStr "day" ]}))) in
  let request :=
    if bool_decide (order_type signal ∈ [LIMIT; STOP_LIMIT]) && truthy (price signal)
    then <[ "limit_price" := VFloat (default 0%Q (price signal)) ]> request
    else request in
  if bool_decide (order_type signal ∈ [STOP; STOP_LIMIT]) && truthy (stop_price signal)
  then <[ "stop_price" := VFloat (default 0%Q (stop_price signal)) ]> request
  else request.

(** [place_order]: [submit_order] is the SDK call
    [api_client.submit_order] on the entries of [order_request]. *)
Definition place_order
    (connected : bool)
    (submit_order : gmap string PyVal -> result string VendorOrder)
    (uuid4 : string) (utcnow : datetime) (signal : TradeSignal)
    : result BrokerError OrderEvent :=
  if negb connected then Raise (ConnectionError "Not connected to Alpaca")
  else
    match submit_order (order_request signal) with
    | Ok order =>
        Ok {| Models.order_id := uuid4;
              signal_id := id signal;
              status := SUBMITTED;
              timestamp := utcnow;
              broker_order_id := Some (vo_id order);
              filled_qty := 0;
              filled_price := None;
              order_rejection_reason := None;
              order_metadata := {[ "alpaca_order" := vo_raw order ]} |}
    | Raise e =>
        Ok {| Models.order_id := uuid4;
              signal_id := id signal;
              status := REJECTED;
              timestamp := utcnow;
              broker_order_id := None;
              filled_qty := 0;
              filled_price := None;
              order_rejection_reason := Some e;
              order_metadata := {[ "error" := e ]} |}
    end.

(** [cancel_order]: [sdk_cancel] is [api_client.cancel_order]. *)
Definition cancel_order
    (connected : bool) (sdk_cancel : string -> result string unit)
    (uuid4 : string) (utcnow : datetime) (order_id : string)
    : result BrokerError OrderEvent :=
  if negb connected then Raise (ConnectionError "Not connected to Alpaca")
  else
    match sdk_cancel order_id with
    | Ok _ =>
        Ok {| Models.order_id := uuid4;
              signal_id := "";
              status := CANCELLED;
              timestamp := utcnow;
              broker_order_id := Some order_id;
              filled_qty := 0;
              filled_price := None;
              order_rejection_reason := None;
              order_metadata := ∅ |}
    | Raise e => Raise (OrderError ("Failed to cancel order: " +:+ e))
    end.

(** [str(e)] of a broker exception: its message. *)
Definition error_text (e : BrokerError) : string :=
  match e with
  | ConnectionError msg | OrderError msg | MarketDataError msg => msg
  end.

(** The adapter's [place_order] as the execution engine sees it: an
    exception reaches the engine as its text. *)
Definition broker_place_order
    (connected : bool)
    (submit_order : gmap string PyVal -> result string VendorOrder)
    (uuid4 : string) (utcnow : datetime) (signal : TradeSignal)
    : result string OrderEvent :=
  match place_order connected submit_order uuid4 utcnow signal with
  | Ok order_event => Ok order_event
  | Raise e => Raise (error_text e)
  end.

(** The adapter's [cancel_order] as the execution engine sees it. *)
Definition broker_cancel_order
    (connected : bool) (sdk_cancel : string -> result string unit)
    (uuid4 : string) (utcnow : datetime) (order_id : string)
    : result string OrderEvent :=
  match cancel_order connected sdk_cancel uuid4 utcnow order_id with
  | Ok order_event => Ok order_event
  | Raise e => Raise (error_text e)
  end.

End Alpaca.

(** ** engines/risk/engine.py *)

Module Risk.

(** What [datetime.now()] reads off the local clock: [weekday()] (Monday
    is 0) and [hour]. *)
Record LocalTime := { weekday : Z; hour : Z }.

(** What one call of a rule's [validate] did: it returned its pair
    [(is_valid, rejection_reason)], or it raised. *)
Inductive Verdict :=
| Returned (is_valid : bool) (rejection_reason : option string)
| Raised (e : string).

(** [class RiskRule]: a name and a [validate] method. *)
Record RiskRule := {
  name : string;
  validate : TradeSignal -> AccountSnapshot -> list PositionSnapshot ->
             list TradeSignal -> LocalTime -> Verdict
}.

Definition MaxPositionSizeRule (max_position_pct : Q) : RiskRule :=
  {| name := "max_position_size";
     validate signal account positions recent_signals now :=
       let estimated_price := 100 in
       let position_value := (inject_Z (qty signal) * inject_Z estimated_price)%Q in
       if Qeq_bool (equity account) 0 then
         Raised "[<class 'decimal.DivisionByZero'>]"
       else
         let position_pct := (position_value / equity account)%Q in
         if Py.Qltb max_position_pct position_pct then
           Returned false
             (Some ("Position size " +:+ Py.format_pct1 position_pct
                    +:+ " exceeds maximum " +:+ Py.format_pct1 max_position_pct
                    +:+ " of account equity"))
         else Returned true None |}.

Definition MaxPositionsPerSymbolRule (max_positions : Z) : RiskRule :=
  {| name := "max_positions_per_symbol";
     validate signal account positions recent_signals now :=
       let symbol_positions :=
         List.filter
           (fun p => String.eqb (pos_symbol p) (symbol signal)
                     && negb (pos_qty p =? 0))
           positions in
       if Py.len symbol_positions >=? max_positions then
         Returned false
           (Some ("Symbol " +:+ symbol signal +:+ " already has "
                  +:+ pretty (Py.len symbol_positions)
                  +:+ " positions (max: " +:+ pretty max_positions +:+ ")"))
       else Returned true None |}.

Definition MinConfidenceRule (min_confidence : Q) : RiskRule :=
  {| name := "min_confidence";
     validate signal account positions recent_signals now :=
       if Py.Qltb (confidence signal) min_confidence then
         Returned false
           (Some ("Signal confidence " +:+ Py.format_fixed 2 (confidence signal)
                  +:+ " below minimum " +:+ Py.format_fixed 2 min_confidence))
       else Returned true None |}.

(** The [for recent_signal in recent_signals] loop of
    [DuplicateSignalRule.validate]: [true] as soon as one entry has the
    same symbol and side and was created after the cutoff. *)
Fixpoint duplicate_in_window
    (signal : TradeSignal) (cutoff_time : datetime)
    (recent_signals : list TradeSignal) : bool :=
  match recent_signals with
  | [] => false
  | recent_signal :: rest =>
      if String.eqb (symbol recent_signal) (symbol signal)
         && bool_decide (side recent_signal = side signal)
         && (created_at recent_signal >? cutoff_time)
      then true
      else duplicate_in_window signal cutoff_time rest
  end.

Definition DuplicateSignalRule (time_window_minutes : Z) : RiskRule :=
  let time_window := timedelta_minutes time_window_minutes in
  {| name := "duplicate_signal";
     validate signal account positions recent_signals now :=
       let cutoff_time := created_at signal - time_window in
       if duplicate_in_window signal cutoff_time recent_signals then
         Returned false
           (Some ("Duplicate signal for " +:+ symbol signal +:+ " "
                  +:+ side_value (side signal) +:+ " within "
                  +:+ Py.format_fixed 0 (time_window # 60000000)
                  +:+ " minutes"))
       else Returned true None |}.

Definition MarketHoursRule : RiskRule :=
  {| name := "market_hours";
     validate signal account positions recent_signals current_time :=
       let is_weekend := weekday current_time >=? 5 in
       if is_weekend then Returned false (Some "Market is closed (weekend)")
       else
         let hour := hour current_time in
         if (hour <? 9) || (hour >=? 16) then
           Returned false (Some "Market is closed (outside trading hours)")
         else Returned true None |}.

(** The state of a [RiskEngine] object. *)
Record RiskEngine := {
  rules : list RiskRule;
  is_active : bool;
  recent_signals : list TradeSignal;
  max_recent_signals : Z
}.

Definition add_rule (self : RiskEngine) (rule : RiskRule) : RiskEngine :=
  {| rules := rules self ++ [rule];
     is_active := is_active self;
     recent_signals := recent_signals self;
     max_recent_signals := max_recent_signals self |}.

Definition remove_rule (self : RiskEngine) (rule_name : string) : RiskEngine :=
  {| rules := List.filter (fun rule => negb (String.eqb (name rule) rule_name))
                          (rules self);
     is_active := is_active self;
     recent_signals := recent_signals self;
     max_recent_signals := max_recent_signals self |}.

Definition list_rules (self : RiskEngine) : list string :=
  map name (rules self).

Definition _setup_default_rules (self : RiskEngine) : RiskEngine :=
  let self := add_rule self (MaxPositionSizeRule (5 # 100)) in
  let self := add_rule self (MaxPositionsPerSymbolRule 2) in
  let self := add_rule self (MinConfidenceRule (6 # 10)) in
  let self := add_rule self (DuplicateSignalRule 1) in
  add_rule self MarketHoursRule.

(** [RiskEngine.__init__]. *)
Definition new_RiskEngine : RiskEngine :=
  _setup_default_rules
    {| rules := []; is_active := true; recent_signals := [];
       max_recent_signals := 1000 |}.

Definition activate (self : RiskEngine) : RiskEngine :=
  {| rules := rules self; is_active := true;
     recent_signals := recent_signals self;
     max_recent_signals := max_recent_signals self |}.

Definition deactivate (self : RiskEngine) : RiskEngine :=
  {| rules := rules self; is_active := false;
     recent_signals := recent_signals self;
     max_recent_signals := max_recent_signals self |}.

(** [_add_recent_signal]: append, then keep [recent[-max//2:]] when the
    list has grown past [max_recent_signals].  The unary minus binds
    tighter than [//]. *)
Definition _add_recent_signal (self : RiskEngine) (signal : TradeSignal)
    : RiskEngine :=
  let appended := recent_signals self ++ [signal] in
  {| rules := rules self;
     is_active := is_active self;
     recent_signals :=
       if Py.len appended >? max_recent_signals self
       then Py.slice_from (Py.floordiv (- max_recent_signals self) 2) appended
       else appended;
     max_recent_signals := max_recent_signals self |}.

(** How the [for rule in self.rules] loop of [validate_signal] ends.
    [evaluated] lists, in call order, the names of the rules whose
    [validate] was called. *)
Inductive LoopExit :=
| AllPassed (risk_metadata : gmap string RiskCheck) (evaluated : list string)
| RuleFailed (rule : RiskRule) (rejection_reason : option string)
             (risk_metadata : gmap string RiskCheck) (evaluated : list string)
| RuleRaised (rule : RiskRule) (e : string) (evaluated : list string).

Fixpoint run_rules
    (todo : list RiskRule) (signal : TradeSignal) (account : AccountSnapshot)
    (positions : list PositionSnapshot) (recent : list TradeSignal)
    (now : LocalTime) (risk_metadata : gmap string RiskCheck)
    (evaluated : list string) : LoopExit :=
  match todo with
  | [] => AllPassed risk_metadata evaluated
  | rule :: rest =>
      let evaluated := evaluated ++ [name rule] in
      match validate rule signal account positions recent now with
      | Returned is_valid rejection_reason =>
          let risk_metadata :=
            <[ "rule_" +:+ name rule := RuleOutcome is_valid rejection_reason ]>
              risk_metadata in
          if negb is_valid
          then RuleFailed rule rejection_reason risk_metadata evaluated
          else run_rules rest signal account positions recent now
                         risk_metadata evaluated
      | Raised e => RuleRaised rule e evaluated
      end
  end.

(** The outside world one call of [validate_signal] reads. *)
Record Env := {
  now : LocalTime;          (* datetime.now(), read by MarketHoursRule *)
  utcnow : datetime;        (* datetime.utcnow() for the trade record *)
  event_uuid4 : string;     (* uuid.uuid4() for the published event *)
  event_utcnow : datetime   (* datetime.utcnow() for the published event *)
}.

(** What one call of [validate_signal] leaves behind: the returned pair
    (as a sum), the engine afterwards, the events handed to
    [event_publisher] in order, and the rules whose [validate] ran. *)
Record Outcome := {
  returned : ApprovedTrade + RejectedTrade;
  engine : RiskEngine;
  published : list DomainEvent;
  evaluated_rules : list string
}.

Definition validate_signal
    (self : RiskEngine) (env : Env) (signal : TradeSignal)
    (account : AccountSnapshot) (positions : list PositionSnapshot)
    : Outcome :=
  if negb (is_active self) then
    let rejected_trade :=
      {| rejected_signal := signal;
         rejected_at := utcnow env;
         rejection_reason := "Risk engine is disabled";
         rejected_metadata := {[ "engine_disabled" := Flag true ]} |} in
    {| returned := inr rejected_trade; engine := self;
       published := []; evaluated_rules := [] |}
  else
    match run_rules (rules self) signal account positions
                    (recent_signals self) (now env) ∅ [] with
    | RuleFailed rule rejection_reason risk_metadata evaluated =>
        let rejected_trade :=
          {| rejected_signal := signal;
             rejected_at := utcnow env;
             rejection_reason :=
               name rule +:+ ": " +:+ Py.str_opt rejection_reason;
             rejected_metadata := risk_metadata |} in
        let rejection_event :=
          create_signal_rejected_event (event_uuid4 env) (event_utcnow env)
                                       rejected_trade in
        {| returned := inr rejected_trade; engine := self;
           published := [rejection_event]; evaluated_rules := evaluated |}
    | RuleRaised rule e evaluated =>
        let rejected_trade :=
          {| rejected_signal := signal;
             rejected_at := utcnow env;
             rejection_reason := "Risk validation error: " +:+ e;
             rejected_metadata := {[ "error" := ErrorText e ]} |} in
        {| returned := inr rejected_trade; engine := self;
           published := []; evaluated_rules := evaluated |}
    | AllPassed risk_metadata evaluated =>
        let approved_trade :=
          {| approved_signal := signal;
             approved_at := utcnow env;
             approved_metadata := risk_metadata |} in
        let self := _add_recent_signal self signal in
        let approval_event :=
          create_signal_approved_event (event_uuid4 env) (event_utcnow env)
                                       approved_trade in
        {| returned := inl approved_trade; engine := self;
           published := [approval_event]; evaluated_rules := evaluated |}
    end.

(** [handle_signal_generated_event]: validate the signal the event
    carries, if it carries one; the returned pair is dropped. *)
Definition handle_signal_generated_event
    (self : RiskEngine) (env : Env) (event : DomainEvent)
    (account : AccountSnapshot) (positions : list PositionSnapshot)
    : RiskEngine * list DomainEvent :=
  match event_metadata event with
  | SignalData signal _ =>
      let o := validate_signal self env signal account positions in
      (engine o, published o)
  | _ => (self, [])
  end.

(** The [rejection_reason] of the returned trade, when it is a rejection. *)
Definition rejection_reason_of (o : Outcome) : option string :=
  match returned o with
  | inr rejected_trade => Some (rejection_reason rejected_trade)
  | inl _ => None
  end.

(** The call came back with an [ApprovedTrade]. *)
Definition approves (o : Outcome) : Prop :=
  exists approved_trade, returned o = inl approved_trade.

(** The rule was called on these arguments and returned a pass. *)
Definition passes
    (rule : RiskRule) (signal : TradeSignal) (account : AccountSnapshot)
    (positions : list PositionSnapshot) (recent : list TradeSignal)
    (now : LocalTime) : Prop :=
  exists why, validate rule signal account positions recent now = Returned true why.

(** The operations a client can apply to a risk engine. *)
Inductive Op :=
| OpValidate (env : Env) (signal : TradeSignal) (account : AccountSnapshot)
             (positions : list PositionSnapshot)
| OpAddRule (rule : RiskRule)
| OpRemoveRule (rule_name : string)
| OpActivate
| OpDeactivate.

Definition apply_op (self : RiskEngine) (op : Op) : RiskEngine :=
  match op with
  | OpValidate env signal account positions =>
      engine (validate_signal self env signal account positions)
  | OpAddRule rule => add_rule self rule
  | OpRemoveRule rule_name => remove_rule self rule_name
  | OpActivate => activate self
  | OpDeactivate => deactivate self
  end.

(** The engine after a sequence of operations, oldest first. *)
Definition run_ops (self : RiskEngine) (ops : list Op) : RiskEngine :=
  fold_left apply_op ops self.

(** The duplicate-suppression claim with the window read inclusively: a
    second signal created at most one minute away from an approved one,
    same symbol and side, passing the first three default rules, is
    rejected with a reason that begins "duplicate_signal". *)
Definition duplicate_claim_inclusive : Prop :=
  forall eng env1 s1 a1 p1 env2 s2 a2 p2,
    rules eng = rules new_RiskEngine ->
    max_recent_signals eng = 1000 ->
    approves (validate_signal eng env1 s1 a1 p1) ->
    let eng1 := engine (validate_signal eng env1 s1 a1 p1) in
    symbol s2 = symbol s1 ->
    side s2 = side s1 ->
    Z.abs (created_at s2 - created_at s1) <= timedelta_minutes 1 ->
    passes (MaxPositionSizeRule (5 # 100)) s2 a2 p2 (recent_signals eng1) (now env2) ->
    passes (MaxPositionsPerSymbolRule 2) s2 a2 p2 (recent_signals eng1) (now env2) ->
    passes (MinConfidenceRule (6 # 10)) s2 a2 p2 (recent_signals eng1) (now env2) ->
    exists rt,
      returned (validate_signal eng1 env2 s2 a2 p2) = inr rt /\
      Py.startswith "duplicate_signal" (rejection_reason rt) = true.

(** The bound the recent-signals buffer is kept under. *)
Definition buffer_bounded (self : RiskEngine) : Prop :=
  max_recent_signals self = 1000 /\ Py.len (recent_signals self) <= 1000.

(** Some entry of [recent] has the symbol and side of [signal] and was
    created after [cutoff_time]. *)
Definition has_duplicate
    (signal : TradeSignal) (cutoff_time : datetime) (recent : list TradeSignal)
    : Prop :=
  exists earlier,
    earlier ∈ recent /\ symbol earlier = symbol signal /\
    side earlier = side signal /\ cutoff_time < created_at earlier.

(** The number of open positions in [symbol]: entries for the symbol
    with a quantity other than zero. *)
Definition open_positions (symbol : string) (positions : list PositionSnapshot)
    : Z :=
  Py.len (List.filter
            (fun p => String.eqb (pos_symbol p) symbol && negb (pos_qty p =? 0))
            positions).

End Risk.

(** ** engines/execution/engine.py *)

Module Execution.

Inductive ExecutionStatus := IDLE | PROCESSING | ERROR.

#[export] Instance ExecutionStatus_eq_dec : EqDecision ExecutionStatus.
Proof. solve_decision. Defined.

(** One value of the [active_orders] dictionary. *)
Record ActiveOrder := {
  ao_broker_order_id : option string;
  ao_signal_id : string;
  ao_symbol : string;
  ao_side : Side;
  ao_qty : Z;
  ao_submitted_at : datetime;
  ao_approved_trade : ApprovedTrade
}.

(** The [stats] dictionary: its five keys. *)
Record Stats := {
  orders_submitted : Z;
  orders_filled : Z;
  orders_rejected : Z;
  orders_cancelled : Z;
  total_execution_time : Q
}.

(** The state of an [ExecutionEngine] object.  [monitors] lists the
    orders for which [asyncio.create_task(self._monitor_order(..))] was
    called, oldest first. *)
Record ExecutionEngine := {
  status : ExecutionStatus;
  active_orders : gmap string ActiveOrder;
  order_history : gmap string OrderEvent;
  stats : Stats;
  monitors : list OrderEvent
}.

Definition new_ExecutionEngine : ExecutionEngine :=
  {| status := IDLE; active_orders := ∅; order_history := ∅;
     stats := {| orders_submitted := 0; orders_filled := 0;
                 orders_rejected := 0; orders_cancelled := 0;
                 total_execution_time := 0 |};
     monitors := [] |}.

Definition set_status (self : ExecutionEngine) (st : ExecutionStatus)
    : ExecutionEngine :=
  {| status := st; active_orders := active_orders self;
     order_history := order_history self; stats := stats self;
     monitors := monitors self |}.

Definition set_stats (self : ExecutionEngine) (st : Stats) : ExecutionEngine :=
  {| status := status self; active_orders := active_orders self;
     order_history := order_history self; stats := st;
     monitors := monitors self |}.

(** [self.stats["orders_submitted"] += 1]. *)
Definition incr_orders_submitted (self : ExecutionEngine) : ExecutionEngine :=
  let st := stats self in
  set_stats self
    {| orders_submitted := orders_submitted st + 1;
       orders_filled := orders_filled st;
       orders_rejected := orders_rejected st;
       orders_cancelled := orders_cancelled st;
       total_execution_time := total_execution_time st |}.

(** [self.stats["orders_rejected"] += 1]. *)
Definition incr_orders_rejected (self : ExecutionEngine) : ExecutionEngine :=
  let st := stats self in
  set_stats self
    {| orders_submitted := orders_submitted st;
       orders_filled := orders_filled st;
       orders_rejected := orders_rejected st + 1;
       orders_cancelled := orders_cancelled st;
       total_execution_time := total_execution_time st |}.

(** [self.stats["total_execution_time"] += execution_time]. *)
Definition add_execution_time (self : ExecutionEngine) (execution_time : Q)
    : ExecutionEngine :=
  let st := stats self in
  set_stats self
    {| orders_submitted := orders_submitted st;
       orders_filled := orders_filled st;
       orders_rejected := orders_rejected st;
       orders_cancelled := orders_cancelled st;
       total_execution_time := (total_execution_time st + execution_time)%Q |}.

Definition _track_order
    (self : ExecutionEngine) (order_event : OrderEvent)
    (approved_trade : ApprovedTrade) : ExecutionEngine :=
  let info :=
    {| ao_broker_order_id := broker_order_id order_event;
       ao_signal_id := id (approved_signal approved_trade);
       ao_symbol := symbol (approved_signal approved_trade);
       ao_side := side (approved_signal approved_trade);
       ao_qty := qty (approved_signal approved_trade);
       ao_submitted_at := timestamp order_event;
       ao_approved_trade := approved_trade |} in
  {| status := status self;
     active_orders := <[ order_id order_event := info ]> (active_orders self);
     order_history := order_history self; stats := stats self;
     monitors := monitors self |}.

Definition _untrack_order (self : ExecutionEngine) (order_id : string)
    : ExecutionEngine :=
  {| status := status self;
     active_orders := delete order_id (active_orders self);
     order_history := order_history self; stats := stats self;
     monitors := monitors self |}.

(** [asyncio.create_task(self._monitor_order(order_event))]. *)
Definition create_monitor_task (self : ExecutionEngine) (order_event : OrderEvent)
    : ExecutionEngine :=
  {| status := status self; active_orders := active_orders self;
     order_history := order_history self; stats := stats self;
     monitors := monitors self ++ [order_event] |}.

(** [self.order_history[order_event.order_id] = order_event]. *)
Definition store_in_history (self : ExecutionEngine) (order_event : OrderEvent)
    : ExecutionEngine :=
  {| status := status self; active_orders := active_orders self;
     order_history := <[ order_id order_event := order_event ]> (order_history self);
     stats := stats self; monitors := monitors self |}.

(** The clock readings of one call of [execute_approved_trade]. *)
Record Env := {
  start_time : datetime;   (* utcnow() before place_order *)
  end_time : datetime;     (* utcnow() after place_order *)
  error_time : datetime    (* utcnow() in the except branch *)
}.

(** The [OrderEvent] the [except] branch of [execute_approved_trade]
    builds for the exception text [e]. *)
Definition error_order_for (signal : TradeSignal) (now : datetime) (e : string)
    : OrderEvent :=
  {| order_id := "error_" +:+ id signal;
     signal_id := id signal;
     Models.status := REJECTED;
     timestamp := now;
     broker_order_id := None;
     filled_qty := 0;
     filled_price := None;
     order_rejection_reason := Some ("Execution error: " +:+ e);
     order_metadata := ∅ |}.

(** [execute_approved_trade].  [place_order] is [self.broker.place_order]:
    it returns an [OrderEvent] or raises, [Raise e] carrying [str(e)].
    The second component lists the signals the broker was called with. *)
Definition execute_approved_trade
    (self : ExecutionEngine)
    (place_order : TradeSignal -> result string OrderEvent)
    (env : Env) (approved_trade : ApprovedTrade)
    : ExecutionEngine * list TradeSignal :=
  if negb (bool_decide (status self = IDLE)) then (self, [])
  else
    let self := set_status self PROCESSING in
    let signal := approved_signal approved_trade in
    let self :=
      match place_order signal with
      | Ok order_event =>
          let execution_time := ((end_time env - start_time env) # 1000000)%Q in
          let self := add_execution_time self execution_time in
          let self :=
            if bool_decide (Models.status order_event = SUBMITTED) then
              let self := _track_order self order_event approved_trade in
              let self := incr_orders_submitted self in
              create_monitor_task self order_event
            else
              incr_orders_rejected self in
          store_in_history self order_event
      | Raise e =>
          let self := incr_orders_rejected self in
          let error_order := error_order_for signal (error_time env) e in
          self
      end in
    (set_status self IDLE, [signal]).

(** [self.stats["orders_filled"] += 1]. *)
Definition incr_orders_filled (self : ExecutionEngine) : ExecutionEngine :=
  let st := stats self in
  set_stats self
    {| orders_submitted := orders_submitted st;
       orders_filled := orders_filled st + 1;
       orders_rejected := orders_rejected st;
       orders_cancelled := orders_cancelled st;
       total_execution_time := total_execution_time st |}.

(** [self.stats["orders_cancelled"] += 1]. *)
Definition incr_orders_cancelled (self : ExecutionEngine) : ExecutionEngine :=
  let st := stats self in
  set_stats self
    {| orders_submitted := orders_submitted st;
       orders_filled := orders_filled st;
       orders_rejected := orders_rejected st;
       orders_cancelled := orders_cancelled st + 1;
       total_execution_time := total_execution_time st |}.

(** [initialize]: [connect] is what [self.broker.connect()] did.  A
    [False] answer raises inside the [try] and is caught like any other
    exception. *)
Definition initialize (self : ExecutionEngine) (connect : result string bool)
    : ExecutionEngine * bool :=
  match connect with
  | Ok true => (self, true)
  | Ok false => (set_status self ERROR, false)
  | Raise e => (set_status self ERROR, false)
  end.

(** [cancel_order]: [broker_cancel] is [self.broker.cancel_order].  The
    result is the engine, the returned flag, and the broker order ids the
    broker was called with. *)
Definition cancel_order
    (self : ExecutionEngine)
    (broker_cancel : option string -> result string OrderEvent)
    (order_id : string)
    : ExecutionEngine * bool * list (option string) :=
  match active_orders self !! order_id with
  | None => (self, false, [])
  | Some order_info =>
      let broker_order_id := ao_broker_order_id order_info in
      match broker_cancel broker_order_id with
      | Ok cancel_event =>
          if bool_decide (Models.status cancel_event = CANCELLED) then
            let self := _untrack_order self order_id in
            let self := incr_orders_cancelled self in
            (self, true, [broker_order_id])
          else (self, false, [broker_order_id])
      | Raise e => (self, false, [broker_order_id])
      end
  end.

(** The search loop of [_handle_order_fill] and
    [_handle_order_cancellation]: the key of the first entry of
    [active_orders] whose broker order id is the event's.  Python visits
    the entries in insertion order, [map_to_list] in the order of the map;
    the two can differ only in which of several entries with the same
    broker order id is found. *)
Definition find_order_id
    (active : gmap string ActiveOrder) (broker_id : option string)
    : option string :=
  fst <$> List.find
            (fun entry => bool_decide (ao_broker_order_id entry.2 = broker_id))
            (map_to_list active).

(** [if order_id: self._untrack_order(order_id)]: [None] and the empty
    string are false. *)
Definition untrack_if_found (self : ExecutionEngine) (found : option string)
    : ExecutionEngine :=
  match found with
  | Some order_id =>
      if String.eqb order_id "" then self else _untrack_order self order_id
  | None => self
  end.

Definition _handle_order_fill (self : ExecutionEngine) (order_event : OrderEvent)
    : ExecutionEngine :=
  let self := incr_orders_filled self in
  if bool_decide (Models.status order_event = FILLED) then
    untrack_if_found self
      (find_order_id (active_orders self) (broker_order_id order_event))
  else self.

Definition _handle_order_cancellation
    (self : ExecutionEngine) (order_event : OrderEvent) : ExecutionEngine :=
  let self :=
    untrack_if_found self
      (find_order_id (active_orders self) (broker_order_id order_event)) in
  if bool_decide (Models.status order_event = CANCELLED)
  then incr_orders_cancelled self
  else incr_orders_rejected self.

(** How the polling loop of [_monitor_order] ends; [polls] is
    [check_count], the number of [get_order_status] calls made. *)
Inductive MonitorExit :=
| GaveUp (polls : Z)
| PollRaised (polls : Z) (e : string)
| SawFill (polls : Z) (current_status : OrderEvent)
| SawCancellation (polls : Z) (current_status : OrderEvent)
| OutOfFuel.

Definition max_checks : Z := 300.

(** The [while check_count < max_checks] loop.  [get_order_status n] is
    the answer of the broker to the [n]-th poll. *)
Fixpoint poll_loop
    (get_order_status : Z -> result string OrderEvent)
    (fuel : nat) (check_count : Z) : MonitorExit :=
  match fuel with
  | O => OutOfFuel
  | S fuel =>
      if check_count <? max_checks then
        let check_count := check_count + 1 in
        match get_order_status check_count with
        | Ok current_status =>
            if bool_decide (Models.status current_status ∈ [FILLED; PARTIALLY_FILLED])
            then SawFill check_count current_status
            else if bool_decide (Models.status current_status ∈ [CANCELLED; REJECTED])
            then SawCancellation check_count current_status
            else poll_loop get_order_status fuel check_count
        | Raise e => PollRaised check_count e
        end
      else GaveUp check_count
  end.

(** [_monitor_order].  The task only reads the broker until the poll that
    decides; [self] is the engine at that moment, on which the handler
    then runs without interruption.  The second component is the number
    of polls made. *)
Definition _monitor_order
    (self : ExecutionEngine)
    (get_order_status : string -> Z -> result string OrderEvent)
    (initial_order_event : OrderEvent) : ExecutionEngine * Z :=
  match broker_order_id initial_order_event with
  | None => (self, 0)
  | Some broker_order_id =>
      if String.eqb broker_order_id "" then (self, 0)
      else
        match poll_loop (get_order_status broker_order_id)
                        (S (Z.to_nat max_checks)) 0 with
        | SawFill n current_status => (_handle_order_fill self current_status, n)
        | SawCancellation n current_status =>
            (_handle_order_cancellation self current_status, n)
        | GaveUp n => (self, n)
        | PollRaised n e => (self, n)
        | OutOfFuel => (self, 0)
        end
  end.

(** The operations that change an execution engine. *)
Inductive Op :=
| OpExecute (place_order : TradeSignal -> result string OrderEvent)
            (env : Env) (approved_trade : ApprovedTrade)
| OpCancel (broker_cancel : option string -> result string OrderEvent)
           (order_id : string)
| OpMonitor (get_order_status : string -> Z -> result string OrderEvent)
            (initial_order_event : OrderEvent).

Definition apply_op (self : ExecutionEngine) (op : Op) : ExecutionEngine :=
  match op with
  | OpExecute place_order env approved_trade =>
      (execute_approved_trade self place_order env approved_trade).1
  | OpCancel broker_cancel order_id =>
      (cancel_order self broker_cancel order_id).1.1
  | OpMonitor get_order_status initial_order_event =>
      (_monitor_order self get_order_status initial_order_event).1
  end.

(** The engine after a sequence of operations, oldest first. *)
Definition run_ops (self : ExecutionEngine) (ops : list Op) : ExecutionEngine :=
  fold_left apply_op ops self.

(** The number of [place_order] calls a sequence of operations makes. *)
Fixpoint broker_calls (self : ExecutionEngine) (ops : list Op) : Z :=
  match ops with
  | [] => 0
  | op :: rest =>
      (match op with
       | OpExecute place_order env approved_trade =>
           Py.len (execute_approved_trade self place_order env approved_trade).2
       | _ => 0
       end) + broker_calls (apply_op self op) rest
  end.

(** The poll ends the monitor: it raised, or it reports one of the four
    statuses the loop breaks on. *)
Definition decisive (answer : result string OrderEvent) : bool :=
  match answer with
  | Ok current_status =>
      bool_decide (Models.status current_status
                   ∈ [FILLED; PARTIALLY_FILLED; CANCELLED; REJECTED])
  | Raise _ => true
  end.

(** The exit a decisive answer to poll [n] produces. *)
Definition exit_at (n : Z) (answer : result string OrderEvent) : MonitorExit :=
  match answer with
  | Ok current_status =>
      if bool_decide (Models.status current_status ∈ [FILLED; PARTIALLY_FILLED])
      then SawFill n current_status
      else SawCancellation n current_status
  | Raise e => PollRaised n e
  end.

(** The bookkeeping a fresh engine keeps through every operation;
    [calls] is the number of [place_order] calls made so far. *)
Definition consistent (self : ExecutionEngine) (calls : Z) : Prop :=
  status self = IDLE /\
  (forall order_id, is_Some (active_orders self !! order_id) ->
                    is_Some (order_history self !! order_id)) /\
  Z.of_nat (size (active_orders self)) <= orders_submitted (stats self) /\
  orders_submitted (stats self) <= calls /\
  calls <= orders_submitted (stats self) + orders_rejected (stats self) /\
  0 <= orders_filled (stats self) /\
  0 <= orders_cancelled (stats self) /\
  0 <= orders_rejected (stats self).

(** [after] differs from [before] at most by orders that left
    [active_orders] and by fills, cancellations and rejections counted:
    what a cancellation or a monitor can do. *)
Definition settles (before after : ExecutionEngine) : Prop :=
  status after = status before /\
  order_history after = order_history before /\
  monitors after = monitors before /\
  active_orders after ⊆ active_orders before /\
  orders_submitted (stats after) = orders_submitted (stats before) /\
  orders_filled (stats before) <= orders_filled (stats after) /\
  orders_cancelled (stats before) <= orders_cancelled (stats after) /\
  orders_rejected (stats before) <= orders_rejected (stats after).

(** [check_count] when the loop ended. *)
Definition polls_made (exit : MonitorExit) : Z :=
  match exit with
  | GaveUp n | PollRaised n _ | SawFill n _ | SawCancellation n _ => n
  | OutOfFuel => 0
  end.

(** [order_id] is the one order in [active] with broker order id
    [broker_id]. *)
Definition only_order_with
    (active : gmap string ActiveOrder) (broker_id : option string)
    (order_id : string) : Prop :=
  (exists info, active !! order_id = Some info /\
                ao_broker_order_id info = broker_id) /\
  forall other info,
    active !! other = Some info -> ao_broker_order_id info = broker_id ->
    other = order_id.

End Execution.

(** ** simple_test.py: the driver that chains the engines *)

Module Pipeline.

(** Step 5 of [test_trading_system]: validate the signal, and hand it to
    the execution engine only when it came back approved.  The last
    component lists the signals [broker.place_order] was called with. *)
Definition validate_then_execute
    (risk : Risk.RiskEngine) (exec : Execution.ExecutionEngine)
    (place_order : TradeSignal -> result string OrderEvent)
    (renv : Risk.Env) (xenv : Execution.Env)
    (signal : TradeSignal) (account : AccountSnapshot)
    (positions : list PositionSnapshot)
    : Risk.Outcome * Execution.ExecutionEngine * list TradeSignal :=
  let o := Risk.validate_signal risk renv signal account positions in
  match Risk.returned o with
  | inl approved_trade =>
      let '(exec, calls) :=
        Execution.execute_approved_trade exec place_order xenv approved_trade in
      (o, exec, calls)
  | inr rejected_trade => (o, exec, [])
  end.

End Pipeline.

(** ** engines/strategy/ma_crossover.py *)

Module MACrossover.

(** One entry of a price history: [{'price': .., 'timestamp': ..}]. *)
Record PriceData := { pd_price : Q; pd_timestamp : datetime }.

(** The state of a [MovingAverageCrossoverStrategy] object. *)
Record Strategy := {
  name : string;
  symbols : gset string;
  is_active : bool;
  short_period : Z;
  long_period : Z;
  min_confidence : Q;
  price_history : gmap string (list PriceData);
  last_signal_time : gmap string datetime
}.

(** [MovingAverageCrossoverStrategy.__init__]. *)
Definition new_Strategy
    (symbols : list string) (short_period long_period : Z) (min_confidence : Q)
    : Strategy :=
  {| name := "MA_Crossover"; symbols := list_to_set symbols; is_active := true;
     short_period := short_period; long_period := long_period;
     min_confidence := min_confidence;
     price_history := ∅; last_signal_time := ∅ |}.

Definition set_price_history
    (self : Strategy) (h : gmap string (list PriceData)) : Strategy :=
  {| name := name self; symbols := symbols self; is_active := is_active self;
     short_period := short_period self; long_period := long_period self;
     min_confidence := min_confidence self;
     price_history := h; last_signal_time := last_signal_time self |}.

Definition set_last_signal_time
    (self : Strategy) (t : gmap string datetime) : Strategy :=
  {| name := name self; symbols := symbols self; is_active := is_active self;
     short_period := short_period self; long_period := long_period self;
     min_confidence := min_confidence self;
     price_history := price_history self; last_signal_time := t |}.

Definition is_symbol_relevant (self : Strategy) (symbol : string) : bool :=
  bool_decide (symbol ∈ symbols self).

(** The [for field in ['price', 'close', 'last', 'mid']] loop. *)
Fixpoint first_present (fields : list string) (payload : gmap string Q)
    : option Q :=
  match fields with
  | [] => None
  | field :: rest =>
      match payload !! field with
      | Some v => Some v
      | None => first_present rest payload
      end
  end.

Definition _extract_price (payload : gmap string Q) : option Q :=
  match first_present ["price"; "close"; "last"; "mid"] payload with
  | Some v => Some v
  | None =>
      match payload !! "bid", payload !! "ask" with
      | Some bid, Some ask =>
          if Py.Qltb 0 bid && Py.Qltb 0 ask then Some ((bid + ask) / 2)%Q
          else None
      | _, _ => None
      end
  end.

Definition _update_price_history
    (self : Strategy) (symbol : string) (price : Q) (timestamp : datetime)
    : Strategy :=
  let history := default [] (price_history self !! symbol) in
  let price_data := {| pd_price := price; pd_timestamp := timestamp |} in
  let history := history ++ [price_data] in
  let max_history := long_period self + 10 in
  let history :=
    if Py.len history >? max_history
    then Py.slice_from (- max_history) history
    else history in
  set_price_history self (<[ symbol := history ]> (price_history self)).

(** [sum(xs)]. *)
Definition sum (xs : list Q) : Q := fold_left Qplus xs 0%Q.

(** [sum(xs) / n]: dividing by zero raises [ZeroDivisionError]. *)
Definition mean_over (xs : list Q) (n : Z) : result string Q :=
  if n =? 0 then Raise "float division by zero"
  else Ok (sum xs / inject_Z n)%Q.

(** The two averages over the newest [short_period] and [long_period]
    entries of [prices]. *)
Definition averages (self : Strategy) (prices : list Q)
    : result string (option (Q * Q)) :=
  match mean_over (Py.slice_from (- short_period self) prices) (short_period self) with
  | Raise e => Raise e
  | Ok short_ma =>
      match mean_over (Py.slice_from (- long_period self) prices) (long_period self) with
      | Raise e => Raise e
      | Ok long_ma => Ok (Some (short_ma, long_ma))
      end
  end.

Definition _calculate_moving_averages (self : Strategy) (symbol : string)
    : result string (option (Q * Q)) :=
  match price_history self !! symbol with
  | None => Ok None
  | Some history =>
      let prices := map pd_price history in
      if Py.len prices <? long_period self then Ok None
      else averages self prices
  end.

Definition _get_previous_moving_averages (self : Strategy) (symbol : string)
    : result string (option (Q * Q)) :=
  match price_history self !! symbol with
  | None => Ok None
  | Some history =>
      let prices := map pd_price history in
      if Py.len prices <? long_period self + 1 then Ok None
      else
        let prev_prices := Py.slice_to (-1) prices in
        if Py.len prev_prices <? long_period self then Ok None
        else averages self prev_prices
  end.

(** [_calculate_signal_confidence]; [long_ma = 0] raises. *)
Definition _calculate_signal_confidence
    (price short_ma long_ma : Q) (crossover_type : string) : result string Q :=
  if Qeq_bool long_ma 0 then Raise "float division by zero"
  else
    let base_confidence := (5 # 10)%Q in
    let ma_gap := (Qabs (short_ma - long_ma) / long_ma)%Q in
    let gap_factor := Py.min (ma_gap * 10) (3 # 10) in
    let price_factor :=
      if String.eqb crossover_type "bullish" then
        if Py.Qltb long_ma price
        then Py.min ((price - long_ma) / long_ma * 5) (2 # 10) else 0%Q
      else
        if Py.Qltb price long_ma
        then Py.min ((long_ma - price) / long_ma * 5) (2 # 10) else 0%Q in
    let confidence := (base_confidence + gap_factor + price_factor)%Q in
    Ok (Py.min confidence 1).

(** [int(x)] of a float: truncation towards zero. *)
Definition int_of (x : Q) : Z := Z.quot (Qnum x) (Z.pos (Qden x)).

Definition _calculate_position_size (confidence : Q) : Z :=
  let base_size := 100 in
  let size_multiplier := ((5 # 10) + confidence * (5 # 10))%Q in
  Z.max 1 (int_of (inject_Z base_size * size_multiplier)).

(** The outside world one call of [process_market_event] reads, for the
    signal it may create. *)
Record Env := { uuid4 : string; utcnow : datetime }.

(** The body shared by the two branches of [_detect_crossover]. *)
Definition emit_signal
    (self : Strategy) (env : Env) (symbol : string) (side : Side)
    (price short_ma long_ma : Q) (crossover_type : string)
    : result string (option TradeSignal) :=
  match _calculate_signal_confidence price short_ma long_ma crossover_type with
  | Raise e => Raise e
  | Ok confidence =>
      if Py.Qleb (min_confidence self) confidence then
        match create_trade_signal (uuid4 env) (utcnow env) symbol side
                (_calculate_position_size confidence) STRATEGY confidence
                (Some (name self)) MARKET None None
                (Some (<[ "short_ma" := VFloat short_ma ]>
                       (<[ "long_ma" := VFloat long_ma ]>
                        (<[ "price" := VFloat price ]>
                         {[ "crossover_type" := VStr crossover_type ]}))))
        with
        | Ok signal => Ok (Some signal)
        | Raise e => Raise e
        end
      else Ok None
  end.

Definition _detect_crossover
    (self : Strategy) (env : Env) (symbol : string) (price : Q)
    (short_ma long_ma prev_short_ma prev_long_ma : Q) (timestamp : datetime)
    : result string (option TradeSignal) * Strategy :=
  let in_cooldown :=
    match last_signal_time self !! symbol with
    | Some last =>
        let time_since_last := timestamp - last in
        time_since_last <? timedelta_minutes 5
    | None => false
    end in
  if in_cooldown then (Ok None, self)
  else
    let signal :=
      if Py.Qleb prev_short_ma prev_long_ma && Py.Qltb long_ma short_ma then
        emit_signal self env symbol BUY price short_ma long_ma "bullish"
      else if Py.Qleb prev_long_ma prev_short_ma && Py.Qltb short_ma long_ma then
        emit_signal self env symbol SELL price short_ma long_ma "bearish"
      else Ok None in
    match signal with
    | Ok (Some sig) =>
        (Ok (Some sig),
         set_last_signal_time self (<[ symbol := timestamp ]> (last_signal_time self)))
    | other => (other, self)
    end.

(** [process_market_event]: the signals returned (or the exception that
    escapes) and the strategy afterwards. *)
Definition process_market_event (self : Strategy) (env : Env) (event : MarketEvent)
    : result string (list TradeSignal) * Strategy :=
  if negb (is_active self) || negb (bool_decide (type event = TICK)) then (Ok [], self)
  else
    let symbol := ev_symbol event in
    if negb (is_symbol_relevant self symbol) then (Ok [], self)
    else
      match _extract_price (payload event) with
      | None => (Ok [], self)
      | Some price =>
          let self := _update_price_history self symbol price (ev_timestamp event) in
          match _calculate_moving_averages self symbol with
          | Raise e => (Raise e, self)
          | Ok None => (Ok [], self)
          | Ok (Some (short_ma, long_ma)) =>
              match _get_previous_moving_averages self symbol with
              | Raise e => (Raise e, self)
              | Ok None => (Ok [], self)
              | Ok (Some (prev_short_ma, prev_long_ma)) =>
                  match _detect_crossover self env symbol price short_ma long_ma
                          prev_short_ma prev_long_ma (ev_timestamp event) with
                  | (Ok (Some signal), self) => (Ok [signal], self)
                  | (Ok None, self) => (Ok [], self)
                  | (Raise e, self) => (Raise e, self)
                  end
              end
          end
      end.

(** The strategy after a sequence of market events, oldest first; an
    exception of one event is caught by the caller and the next event is
    processed on the state the failed call left. *)
Definition process_all (self : Strategy) (events : list (Env * MarketEvent))
    : Strategy :=
  fold_left (fun st ee => (process_market_event st ee.1 ee.2).2) events self.

(** The size of the history kept for [symbol]; 0 when there is none. *)
Definition history_len (self : Strategy) (symbol : string) : Z :=
  Py.len (default [] (price_history self !! symbol)).

(** Every per-symbol history is within [long_period + 10] entries. *)
Definition histories_bounded (self : Strategy) : Prop :=
  forall symbol, history_len self symbol <= long_period self + 10.

(** The bound as the specification states it, for every strategy and
    every sequence of market events. *)
Definition history_bound_claim : Prop :=
  forall (symbols : list string) (short_period long_period : Z)
         (min_confidence : Q) (events : list (Env * MarketEvent))
         (symbol : string),
    history_len
      (process_all (new_Strategy symbols short_period long_period min_confidence)
                   events)
      symbol
    <= long_period + 10.

(** The tick gets as far as [_update_price_history] with this price. *)
Definition processed_with (self : Strategy) (event : MarketEvent) (price : Q)
    : Prop :=
  is_active self = true /\ type event = TICK /\
  ev_symbol event ∈ symbols self /\
  _extract_price (payload event) = Some price.

(** The confidence as the specification words it: the capped sum of the
    base, the gap term and the directional price term. *)
Definition spec_price_factor (bullish : bool) (price long_ma : Q) : Q :=
  if bullish then
    if Py.Qltb long_ma price
    then Py.min ((price - long_ma) / long_ma * 5) (2 # 10) else 0%Q
  else
    if Py.Qltb price long_ma
    then Py.min ((long_ma - price) / long_ma * 5) (2 # 10) else 0%Q.

Definition spec_confidence (bullish : bool) (price short_ma long_ma : Q) : Q :=
  Py.min ((5 # 10)
            + Py.min (Qabs (short_ma - long_ma) / long_ma * 10) (3 # 10)
            + spec_price_factor bullish price long_ma)%Q
         1.

End MACrossover.

(** ** engines/strategy/base.py *)

Module StrategyEngine.

(** The state of a [StrategyEngine] object.  [strategies] is the
    dictionary name -> strategy, as the list of its items in insertion
    order; the strategies are those of [MACrossover]. *)
Record StrategyEngine := {
  strategies : list (string * MACrossover.Strategy);
  is_running : bool
}.

(** [StrategyEngine.__init__]. *)
Definition new_StrategyEngine : StrategyEngine :=
  {| strategies := []; is_running := false |}.

(** [name in d]. *)
Definition contains (d : list (string * MACrossover.Strategy)) (name : string)
    : bool :=
  existsb (fun item => String.eqb item.1 name) d.

(** [del d[name]]: the item with that key goes, the others keep their
    order. *)
Fixpoint del (d : list (string * MACrossover.Strategy)) (name : string)
    : list (string * MACrossover.Strategy) :=
  match d with
  | [] => []
  | item :: rest =>
      if String.eqb item.1 name then rest else item :: del rest name
  end.

(** [d.get(name)]. *)
Fixpoint get (d : list (string * MACrossover.Strategy)) (name : string)
    : option MACrossover.Strategy :=
  match d with
  | [] => None
  | item :: rest =>
      if String.eqb item.1 name then Some item.2 else get rest name
  end.

(** [register_strategy]: a name already registered raises [ValueError]. *)
Definition register_strategy
    (self : StrategyEngine) (strategy : MACrossover.Strategy)
    : result string StrategyEngine :=
  if contains (strategies self) (MACrossover.name strategy) then
    Raise ("Strategy " +:+ MACrossover.name strategy +:+ " already registered")
  else
    Ok {| strategies :=
            strategies self ++ [(MACrossover.name strategy, strategy)];
          is_running := is_running self |}.

Definition unregister_strategy (self : StrategyEngine) (strategy_name : string)
    : StrategyEngine :=
  if contains (strategies self) strategy_name then
    {| strategies := del (strategies self) strategy_name;
       is_running := is_running self |}
  else self.

Definition get_strategy (self : StrategyEngine) (name : string)
    : option MACrossover.Strategy :=
  get (strategies self) name.

Definition list_strategies (self : StrategyEngine) : list string :=
  (strategies self).*1.

(** [get_required_symbols]: the union of the symbols of the active
    strategies. *)
Definition get_required_symbols (self : StrategyEngine) : gset string :=
  foldl (fun symbols item =>
           if MACrossover.is_active item.2
           then symbols ∪ MACrossover.symbols item.2
           else symbols)
        ∅ (strategies self).

Definition start (self : StrategyEngine) : StrategyEngine :=
  {| strategies := strategies self; is_running := true |}.

Definition stop (self : StrategyEngine) : StrategyEngine :=
  {| strategies := strategies self; is_running := false |}.

(** The outside world one strategy reads while an event is processed:
    what its own call reads, and the id and time of the event published
    for a signal it returns. *)
Record Env := {
  strategy_env : MACrossover.Env;
  event_uuid4 : string;
  event_utcnow : datetime
}.

(** One turn of the [for strategy in self.strategies.values()] loop: the
    strategy afterwards and the events published for it.  An exception of
    the strategy is caught and publishes nothing. *)
Definition process_one
    (env : string -> Env) (event : MarketEvent)
    (item : string * MACrossover.Strategy)
    : (string * MACrossover.Strategy) * list DomainEvent :=
  let strategy := item.2 in
  if negb (MACrossover.is_active strategy) then (item, [])
  else if negb (MACrossover.is_symbol_relevant strategy (ev_symbol event))
  then (item, [])
  else
    let e := env item.1 in
    match MACrossover.process_market_event strategy (strategy_env e) event with
    | (Ok signals, strategy') =>
        ((item.1, strategy'),
         map (fun signal =>
                create_signal_generated_event (event_uuid4 e) (event_utcnow e)
                  signal (MACrossover.name strategy))
             signals)
    | (Raise _, strategy') => ((item.1, strategy'), [])
    end.

(** The loop over the registry, in insertion order. *)
Fixpoint process_each
    (env : string -> Env) (event : MarketEvent)
    (todo : list (string * MACrossover.Strategy))
    : list (string * MACrossover.Strategy) * list DomainEvent :=
  match todo with
  | [] => ([], [])
  | item :: rest =>
      let '(item', published) := process_one env event item in
      let '(rest', published_rest) := process_each env event rest in
      (item' :: rest', published ++ published_rest)
  end.

(** [process_market_event]: the engine afterwards and the events handed
    to [event_publisher], in order. *)
Definition process_market_event
    (self : StrategyEngine) (env : string -> Env) (event : MarketEvent)
    : StrategyEngine * list DomainEvent :=
  if negb (is_running self) then (self, [])
  else
    let '(strategies', published) := process_each env event (strategies self) in
    ({| strategies := strategies'; is_running := is_running self |}, published).

(** The keys of the registry are distinct, as those of a dictionary. *)
Definition well_formed (self : StrategyEngine) : Prop :=
  NoDup (strategies self).*1 /\
  Forall (fun item => MACrossover.name item.2 = item.1) (strategies self).

(** What one turn of the loop leaves of a registration: the key, and the
    name, the activity and the symbols of the strategy. *)
Definition same_registration (a b : string * MACrossover.Strategy) : Prop :=
  a.1 = b.1 /\
  MACrossover.name a.2 = MACrossover.name b.2 /\
  MACrossover.is_active a.2 = MACrossover.is_active b.2 /\
  MACrossover.symbols a.2 = MACrossover.symbols b.2.

(** The event [ev] is a SIGNAL_GENERATED event of the registered strategy
    [item] for the tick [event]. *)
Definition published_by
    (event : MarketEvent) (item : string * MACrossover.Strategy)
    (ev : DomainEvent) : Prop :=
  event_type ev = SIGNAL_GENERATED /\
  type event = TICK /\
  MACrossover.is_active item.2 = true /\
  ev_symbol event ∈ MACrossover.symbols item.2 /\
  exists sig,
    event_metadata ev = SignalData sig (MACrossover.name item.2) /\
    symbol sig = Py.upper (ev_symbol event) /\
    strategy_name sig = Some (MACrossover.name item.2) /\
    50 <= qty sig <= 100.

End StrategyEngine.

(** ** Sample data: the scenarios of section 8 of the specification *)

Module Scenario.

(** A BUY of AAPL with confidence 0.8, created at [t] microseconds. *)
Definition signal_at (ident : string) (t : datetime) (q : Z) : TradeSignal :=
  {| id := ident; symbol := "AAPL"; side := BUY; qty := q;
     order_type := MARKET; confidence := 8 # 10; source := STRATEGY;
     created_at := t; strategy_name := Some "MA_Crossover"; price := None;
     stop_price := None; metadata := ∅ |}.

(** A BUY of one AAPL share with confidence 0.5, below the default
    minimum of 0.6. *)
Definition weak_signal : TradeSignal :=
  {| id := "weak"; symbol := "AAPL"; side := BUY; qty := 1;
     order_type := MARKET; confidence := 5 # 10; source := STRATEGY;
     created_at := 0; strategy_name := Some "MA_Crossover"; price := None;
     stop_price := None; metadata := ∅ |}.

(** An account with $10,000 of equity. *)
Definition account : AccountSnapshot :=
  {| equity := 10000; buying_power := 20000; cash := 10000;
     day_trades_remaining := 3; acct_timestamp := 0 |}.

(** A Monday, ten in the morning on the local clock. *)
Definition monday_10am : Risk.Env :=
  {| Risk.now := {| Risk.weekday := 0; Risk.hour := 10 |};
     Risk.utcnow := 0; Risk.event_uuid4 := "evt"; Risk.event_utcnow := 0 |}.

(** The same Monday, three in the morning. *)
Definition monday_3am : Risk.Env :=
  {| Risk.now := {| Risk.weekday := 0; Risk.hour := 3 |};
     Risk.utcnow := 0; Risk.event_uuid4 := "evt"; Risk.event_utcnow := 0 |}.

(** A fresh engine whose buffer already holds 1000 old MSFT signals. *)
Definition full_engine : Risk.RiskEngine :=
  {| Risk.rules := Risk.rules Risk.new_RiskEngine;
     Risk.is_active := true;
     Risk.recent_signals :=
       replicate 1000
         {| id := "old"; symbol := "MSFT"; side := SELL; qty := 1;
            order_type := MARKET; confidence := 9 # 10; source := STRATEGY;
            created_at := 0; strategy_name := None; price := None;
            stop_price := None; metadata := ∅ |};
     Risk.max_recent_signals := 1000 |}.

(** The engine after approving a first signal created at time 0. *)
Definition after_first_approval : Risk.RiskEngine :=
  Risk.engine (Risk.validate_signal Risk.new_RiskEngine monday_10am
                 (signal_at "s1" 0 1) account []).

(** A broker whose [place_order] raises. *)
Definition failing_broker (signal : TradeSignal) : result string OrderEvent :=
  Raise "Not connected to Alpaca".

Definition approved_s1 : ApprovedTrade :=
  {| approved_signal := signal_at "s1" 0 1; approved_at := 0;
     approved_metadata := ∅ |}.

(** A TICK for SPY at second [t] carrying [price] under 'price'. *)
Definition spy_tick (t : Z) (price : Q) : MACrossover.Env * MarketEvent :=
  ({| MACrossover.uuid4 := "sig"; MACrossover.utcnow := timedelta_seconds t |},
   {| type := TICK; ev_symbol := "SPY"; ev_timestamp := timedelta_seconds t;
      payload := {[ "price" := price ]} |}).

(** Ticks at 100, 101, .., 100 + n - 1, one per second. *)
Definition rising_ticks (n : nat) : list (MACrossover.Env * MarketEvent) :=
  map (fun i => spy_tick (Z.of_nat i) (inject_Z (100 + Z.of_nat i))) (seq 0 n).

(** A strategy on SPY with periods 2 and 3, and four falling ticks. *)
Definition short_strategy : MACrossover.Strategy :=
  MACrossover.new_Strategy ["SPY"] 2 3 (6 # 10).

Definition falling_ticks : list (MACrossover.Env * MarketEvent) :=
  [spy_tick 0 10; spy_tick 1 9; spy_tick 2 8; spy_tick 3 7].

(** The strategy of [simple_test.py]: SPY, periods 5 and 10. *)
Definition spy_strategy : MACrossover.Strategy :=
  MACrossover.new_Strategy ["SPY"] 5 10 (6 # 10).

Definition exec_clock : Execution.Env :=
  {| Execution.start_time := 0; Execution.end_time := 1000;
     Execution.error_time := 1000 |}.

(** An order event with the given order id and status, broker id "b1". *)
Definition order_with (ident : string) (st : OrderStatus) : OrderEvent :=
  {| order_id := ident; signal_id := "s1"; status := st; timestamp := 0;
     broker_order_id := Some "b1"; filled_qty := 0; filled_price := None;
     order_rejection_reason := None; order_metadata := ∅ |}.

(** A broker that reports the order as FILLED at once. *)
Definition filling_broker (signal : TradeSignal) : result string OrderEvent :=
  Ok (order_with "o1" FILLED).

(** A broker that accepts the order. *)
Definition accepting_broker (signal : TradeSignal) : result string OrderEvent :=
  Ok (order_with "o1" SUBMITTED).

(** The engine after one accepted order. *)
Definition one_active_order : Execution.ExecutionEngine :=
  (Execution.execute_approved_trade Execution.new_ExecutionEngine
     accepting_broker exec_clock approved_s1).1.

(** The broker reports the order still SUBMITTED twice, then with the
    status [final]. *)
Definition status_after_two (final : OrderStatus) (broker_id : string) (n : Z)
    : result string OrderEvent :=
  Ok (order_with "poll" (if n <? 3 then SUBMITTED else final)).

(** An SDK that accepts every order under the broker id "b1". *)
Definition accepting_sdk (request : gmap string PyVal)
    : result string Alpaca.VendorOrder :=
  Ok {| Alpaca.vo_id := "b1"; Alpaca.vo_status := "new";
        Alpaca.vo_filled_qty := None; Alpaca.vo_filled_avg_price := None;
        Alpaca.vo_raw := "{}" |}.

(** A limit order to buy 10 AAPL at 150, with a stop price of zero. *)
Definition limit_signal : TradeSignal :=
  {| id := "s3"; symbol := "AAPL"; side := BUY; qty := 10;
     order_type := STOP_LIMIT; confidence := 8 # 10; source := AI;
     created_at := 0; strategy_name := None; price := Some (150 # 1)%Q;
     stop_price := Some 0%Q; metadata := ∅ |}.

(** The short strategy after the four falling ticks, the tick at 12 that
    makes the short average cross over the long one, what the strategy
    returns for it and the strategy afterwards. *)
Definition after_falling : MACrossover.Strategy :=
  MACrossover.process_all short_strategy falling_ticks.

Definition bullish_tick : MACrossover.Env * MarketEvent := spy_tick 4 12.

Definition bullish_signals : list TradeSignal :=
  match (MACrossover.process_market_event after_falling
           bullish_tick.1 bullish_tick.2).1 with
  | Ok signals => signals
  | Raise _ => []
  end.

Definition after_bullish : MACrossover.Strategy :=
  (MACrossover.process_market_event after_falling
     bullish_tick.1 bullish_tick.2).2.

(** What the strategy engine reads for every strategy while it handles a
    tick at second [t]. *)
Definition engine_env (t : Z) (strategy_name : string) : StrategyEngine.Env :=
  {| StrategyEngine.strategy_env := (spy_tick t 0).1;
     StrategyEngine.event_uuid4 := "event";
     StrategyEngine.event_utcnow := timedelta_seconds t |}.

End Scenario.

(** * Properties *)

(** Settle a closed decidable proposition by running its decision
    procedure. *)
Ltac by_decision := apply (bool_decide_unpack _); vm_compute; exact I.

(** ** The Python helpers *)

Lemma Qleb_le (x y : Q) : Py.Qleb x y = true <-> (x <= y)%Q.
Proof. unfold Py.Qleb. apply Qle_bool_iff. Qed.

Lemma Qleb_gt (x y : Q) : Py.Qleb x y = false <-> (y < x)%Q.
Proof.
  unfold Py.Qleb. split.
  - intros H. apply Qnot_le_lt. intros Hle. apply Qle_bool_iff in Hle. congruence.
  - intros H. destruct (Qle_bool x y) eqn:E; [|done].
    apply Qle_bool_iff in E. exfalso. apply (Qlt_not_le _ _ H E).
Qed.

Lemma Qltb_lt (x y : Q) : Py.Qltb x y = true <-> (x < y)%Q.
Proof.
  unfold Py.Qltb. rewrite negb_true_iff. apply (Qleb_gt y x).
Qed.

Lemma Qltb_ge (x y : Q) : Py.Qltb x y = false <-> (y <= x)%Q.
Proof.
  unfold Py.Qltb. rewrite negb_false_iff. apply (Qleb_le y x).
Qed.


Lemma startswith_app (p s : string) : Py.startswith p (p +:+ s) = true.
Proof.
  induction p as [|c p IH]; [done|].
  change (Py.startswith (String c p) (String c (p +:+ s)) = true).
  unfold Py.startswith; fold Py.startswith.
  by rewrite Ascii.eqb_refl.
Qed.

Lemma slice_from_neg_drop {A : Type} (k : Z) (l : list A) :
  0 < k -> Py.slice_from (- k) l = drop (length l - Z.to_nat k) l.
Proof.
  intros Hk. unfold Py.slice_from.
  destruct (- k <? 0) eqn:E; [|lia].
  f_equal. lia.
Qed.

(** ** Vendor status normalisation (adapters/brokers/alpaca.py) *)

Lemma known_statuses_NoDup : NoDup Alpaca.known_statuses.
Proof. by_decision. Qed.

(** The dictionary literal answers with the status written next to the
    key. *)
Lemma mapping_lookup_item (s : string) (st : OrderStatus) :
  (s, st) ∈ Alpaca.mapping_items -> Alpaca.mapping !! s = Some st.
Proof.
  intros H. unfold Alpaca.mapping.
  apply elem_of_list_to_map_1; [exact known_statuses_NoDup | exact H].
Qed.

Lemma mapping_lookup_unknown (s : string) :
  s ∉ Alpaca.known_statuses -> Alpaca.mapping !! s = None.
Proof.
  intros H. unfold Alpaca.mapping.
  by apply not_elem_of_list_to_map_1.
Qed.

(** The keys of the table are already lower case. *)
Lemma known_statuses_lower :
  Forall (fun s => Py.lower s = s) Alpaca.known_statuses.
Proof. by_decision. Qed.

Lemma amended_table_in_mapping :
  Forall (fun p => p ∈ Alpaca.mapping_items) Alpaca.amended_status_table.
Proof. by_decision. Qed.

Lemma amended_table_lower :
  Forall (fun p : string * OrderStatus => Py.lower p.1 = p.1)
         Alpaca.amended_status_table.
Proof. by_decision. Qed.

(** [get_order_status] on a connected adapter whose SDK call returns an
    order: the event carries the converted status. *)
Lemma get_order_status_converts
    (get_order : string -> result string Alpaca.VendorOrder)
    (uuid4 : string) (utcnow : datetime) (order_id : string)
    (order : Alpaca.VendorOrder) :
  get_order order_id = Ok order ->
  exists ev,
    Alpaca.get_order_status true get_order uuid4 utcnow order_id = Ok ev /\
    status ev = Alpaca._convert_order_status (Alpaca.vo_status order).
Proof.
  intros H. unfold Alpaca.get_order_status. cbn. rewrite H.
  eexists. split; [reflexivity|]. reflexivity.
Qed.

(** C1, as the specification has it, fails: the code sends [pending_new]
    to PENDING, the specification's table to SUBMITTED. *)
Lemma spec_status_table_fails_on_pending_new :
  ~ (forall s st, (s, st) ∈ Alpaca.spec_status_table ->
                  Alpaca._convert_order_status s = st).
Proof.
  intros H.
  assert (Hin : ("pending_new", SUBMITTED) ∈ Alpaca.spec_status_table).
  { by_decision. }
  specialize (H _ _ Hin).
  assert (Hc : Alpaca._convert_order_status "pending_new" = PENDING).
  { vm_compute. reflexivity. }
  congruence.
Qed.

(** C1 (amended): every vendor status of the table is normalised to the
    status the table gives it, with [pending_new] among the statuses that
    become PENDING: new, accepted, accepted_for_bidding and calculated
    become SUBMITTED, partially_filled PARTIALLY_FILLED, filled FILLED,
    canceled, expired, replaced, stopped, done_for_day and suspended
    CANCELLED, rejected REJECTED, and pending_cancel, pending_replace and
    pending_new PENDING.  [get_order_status] hands out that status for an
    order the vendor reports in it. *)
Theorem order_status_normalised_by_table (s : string) (st : OrderStatus) :
  (s, st) ∈ Alpaca.amended_status_table ->
  Alpaca._convert_order_status s = st /\
  forall get_order uuid4 utcnow order_id order,
    get_order order_id = Ok order ->
    Alpaca.vo_status order = s ->
    exists ev,
      Alpaca.get_order_status true get_order uuid4 utcnow order_id = Ok ev /\
      status ev = st.
Proof.
  intros Hin.
  assert (Hc : Alpaca._convert_order_status s = st).
  { pose proof amended_table_in_mapping as Hm.
    pose proof amended_table_lower as Hl.
    rewrite Forall_forall in Hm, Hl.
    specialize (Hl _ Hin). specialize (Hm _ Hin). cbn in Hl.
    unfold Alpaca._convert_order_status.
    rewrite Hl.
    by rewrite (mapping_lookup_item s st Hm). }
  split; [exact Hc|].
  intros get_order uuid4 utcnow order_id order Hget Hst.
  destruct (get_order_status_converts get_order uuid4 utcnow order_id order Hget)
    as (ev & Hev & Hs).
  exists ev. split; [exact Hev|]. by rewrite Hs, Hst.
Qed.

Lemma order_status_normalised_by_table_witness :
  Alpaca._convert_order_status "pending_new" = PENDING /\
  Alpaca._convert_order_status "done_for_day" = CANCELLED.
Proof.
  split.
  - apply (order_status_normalised_by_table "pending_new" PENDING).
    by_decision.
  - apply (order_status_normalised_by_table "done_for_day" CANCELLED).
    by_decision.
Defined.

(** C10: the conversion is a total function of the vendor string, and a
    string whose lower-case form is not one of the sixteen keys of the
    table is normalised to PENDING. *)
Theorem unknown_vendor_status_is_pending :
  length Alpaca.known_statuses = 16%nat /\
  forall s : string,
    Py.lower s ∉ Alpaca.known_statuses ->
    Alpaca._convert_order_status s = PENDING.
Proof.
  split; [reflexivity|].
  intros s H. unfold Alpaca._convert_order_status.
  by rewrite (mapping_lookup_unknown _ H).
Qed.

Lemma unknown_vendor_status_is_pending_witness :
  Alpaca._convert_order_status "HELD" = PENDING.
Proof.
  apply (proj2 unknown_vendor_status_is_pending "HELD").
  by_decision.
Defined.

(** ** Construction of a TradeSignal (domain/models.py) *)

(** [__post_init__] raises exactly on a confidence outside [0, 1], a
    quantity that is not positive, or a price that is present and not
    positive. *)
Lemma post_init_raises_iff (confidence : Q) (qty : Z) (price : option Q) :
  Py.raises (__post_init__ (Py.Num confidence) qty (Py.DNum <$> price)) <->
  ((confidence < 0)%Q \/ (1 < confidence)%Q \/ qty <= 0 \/
   exists p, price = Some p /\ (p <= 0)%Q).
Proof.
  unfold __post_init__, Py.raises. cbn [Py.float_le].
  destruct (Py.Qleb 0 confidence) eqn:E0; cbn [andb negb].
  2:{ apply Qleb_gt in E0. split; [intros _; by left | intros _; eauto]. }
  apply Qleb_le in E0.
  destruct (Py.Qleb confidence 1) eqn:E1; cbn [andb negb].
  2:{ apply Qleb_gt in E1. split; [intros _; right; by left | intros _; eauto]. }
  apply Qleb_le in E1.
  destruct (qty <=? 0) eqn:Eq.
  { apply Z.leb_le in Eq. split; [intros _; right; right; by left | intros _; eauto]. }
  apply Z.leb_gt in Eq.
  destruct price as [p|]; cbn [fmap option_fmap option_map Py.decimal_le_zero].
  - destruct (Py.Qleb p 0) eqn:Ep.
    + apply Qleb_le in Ep.
      split; [intros _; right; right; right; eauto | intros _; eauto].
    + apply Qleb_gt in Ep. split.
      * intros [e He]. discriminate.
      * intros [H|[H|[H|(p' & Hp & Hle)]]]; try lra; try lia.
        injection Hp as <-. lra.
  - split.
    + intros [e He]. discriminate.
    + intros [H|[H|[H|(p' & Hp & Hle)]]]; try lra; try lia. discriminate.
Qed.

(** The constructor raises when [__post_init__] does, and otherwise
    returns the record of its arguments. *)
Lemma new_TradeSignal_cases
    (id symbol : string) (side : Side) (qty : Z) (order_type : OrderType)
    (confidence : Q) (source : SignalSource) (created_at : datetime)
    (strategy_name : option string) (price stop_price : option Q)
    (metadata : gmap string PyVal) :
  let self := {| Models.id := id; Models.symbol := symbol; Models.side := side;
                 Models.qty := qty; Models.order_type := order_type;
                 Models.confidence := confidence; Models.source := source;
                 Models.created_at := created_at;
                 Models.strategy_name := strategy_name; Models.price := price;
                 Models.stop_price := stop_price; Models.metadata := metadata |} in
  let r := new_TradeSignal id symbol side qty order_type confidence source
             created_at strategy_name price stop_price metadata in
  (Py.raises r <->
   Py.raises (__post_init__ (Py.Num confidence) qty (Py.DNum <$> price))) /\
  (~ Py.raises r -> r = Ok self).
Proof.
  intros self r. subst r. unfold new_TradeSignal. fold self.
  destruct (__post_init__ _ _ _) as [[]|e]; unfold Py.raises.
  - split; [split; intros [e He]; discriminate | done].
  - split; [split; eauto | intros H; exfalso; eauto].
Qed.

(** On every float and every Decimal, [__post_init__] raises exactly
    when the confidence is not within [0, 1] (below 0, above 1, or NaN),
    the quantity is not positive, or a price is present that is not
    above zero or is NaN. *)
Lemma post_init_raises_on_floats
    (confidence : Py.float) (qty : Z) (price : option Py.Decimal) :
  Py.raises (__post_init__ confidence qty price) <->
  (spec_raise_condition confidence qty price \/
   confidence = Py.NaN \/ price = Some Py.DNaN).
Proof.
  unfold __post_init__, spec_raise_condition, Py.raises.
  assert (Hconf :
    Py.float_le (Py.Num 0) confidence && Py.float_le confidence (Py.Num 1)
      = false <->
    (Py.float_lt confidence (Py.Num 0) = true \/
     Py.float_lt (Py.Num 1) confidence = true \/ confidence = Py.NaN)).
  { destruct confidence as [c|[]|]; cbn.
    - unfold Py.Qltb, Py.Qleb.
      destruct (Qle_bool 0 c) eqn:E0, (Qle_bool c 1) eqn:E1; cbn;
        split; try done; try (intros _; by left); try (intros _; right; by left).
      intros [H|[H|H]]; discriminate.
    - split; [intros _; by left | done].
    - split; [intros _; right; by left | done].
    - split; [intros _; right; by right | done]. }
  destruct (Py.float_le (Py.Num 0) confidence
            && Py.float_le confidence (Py.Num 1)) eqn:Ec; cbn [negb].
  2:{ destruct Hconf as [Hc _]. specialize (Hc eq_refl).
      split; [intros _ | eauto].
      destruct Hc as [H|[H|H]]; [left; by left | left; right; by left
                                | right; by left]. }
  assert (Hin : ~ (Py.float_lt confidence (Py.Num 0) = true \/
                   Py.float_lt (Py.Num 1) confidence = true \/
                   confidence = Py.NaN)).
  { intros H. apply Hconf in H. discriminate. }
  destruct (qty <=? 0) eqn:Eq.
  { apply Z.leb_le in Eq.
    split; [intros _; left; right; right; by left | eauto]. }
  apply Z.leb_gt in Eq.
  destruct price as [[p|negative|]|]; cbn [Py.decimal_le_zero].
  - destruct (Py.Qleb p 0) eqn:Ep.
    + split; [intros _ | eauto].
      left. do 3 right. exists (Py.DNum p). split; [reflexivity|].
      cbn. by rewrite Ep.
    + split; [intros [e He]; discriminate|].
      intros [[H|[H|[H|(d & Hd & Hle)]]]|[H|H]];
        [tauto | tauto | lia | | tauto | discriminate].
      injection Hd as <-. cbn in Hle. congruence.
  - destruct negative.
    + split; [intros _ | eauto].
      left. do 3 right. exists (Py.DInfinity true). by split.
    + split; [intros [e He]; discriminate|].
      intros [[H|[H|[H|(d & Hd & Hle)]]]|[H|H]];
        [tauto | tauto | lia | | tauto | discriminate].
      injection Hd as <-. discriminate.
  - split; [intros _; right; by right | eauto].
  - split; [intros [e He]; discriminate|].
    intros [[H|[H|[H|(d & Hd & _)]]]|[H|H]];
      [tauto | tauto | lia | discriminate | tauto | discriminate].
Qed.

(** C9, as the specification has it, fails: a NaN confidence is neither
    below 0 nor above 1, and [0.0 <= confidence <= 1.0] is false of it,
    so construction raises on it. *)
Lemma nan_confidence_raises_outside_the_claim :
  ~ construction_claim.
Proof.
  intros H.
  destruct (H Py.NaN 1 None) as [Hraise _].
  destruct Hraise as [Hlt|[Hgt|[Hq|(p & Hp & _)]]].
  - eexists. reflexivity.
  - discriminate.
  - discriminate.
  - lia.
  - discriminate.
Qed.

(** C9: constructing a TradeSignal succeeds for confidence 0.0, for
    confidence 1.0 and for qty 1 (the other checked fields being valid).
    On every float and Decimal, it raises exactly when the confidence is
    not within [0, 1] (below 0, above 1, or NaN), or qty <= 0 (so qty = 0
    raises), or a price is present with price <= 0 or NaN.  On numbers it
    raises exactly when confidence < 0 or confidence > 1, or qty <= 0, or
    a price is present with price <= 0, and when it does not raise it
    returns the signal with the fields given. *)
Theorem trade_signal_construction
    (id symbol : string) (side : Side) (order_type : OrderType)
    (source : SignalSource) (created_at : datetime)
    (strategy_name : option string) (stop_price : option Q)
    (metadata : gmap string PyVal) :
  let construct qty confidence price :=
    new_TradeSignal id symbol side qty order_type confidence source created_at
                    strategy_name price stop_price metadata in
  (exists s, construct 1 0%Q None = Ok s) /\
  (exists s, construct 1 1%Q None = Ok s) /\
  Py.raises (construct 0 1%Q None) /\
  (forall confidence qty price,
     Py.raises (__post_init__ confidence qty price) <->
     (spec_raise_condition confidence qty price \/
      confidence = Py.NaN \/ price = Some Py.DNaN)) /\
  (forall qty confidence price,
     Py.raises (construct qty confidence price) <->
     ((confidence < 0)%Q \/ (1 < confidence)%Q \/ qty <= 0 \/
      exists p, price = Some p /\ (p <= 0)%Q)) /\
  (forall qty confidence price,
     ~ Py.raises (construct qty confidence price) ->
     exists s, construct qty confidence price = Ok s /\
               Models.qty s = qty /\ Models.confidence s = confidence /\
               Models.price s = price).
Proof.
  intros construct.
  split; [eexists; reflexivity|].
  split; [eexists; reflexivity|].
  split; [eexists; reflexivity|].
  split; [apply post_init_raises_on_floats|].
  split.
  - intros qty confidence price. subst construct. cbv beta.
    destruct (new_TradeSignal_cases id symbol side qty order_type confidence
                source created_at strategy_name price stop_price metadata)
      as [Hiff _].
    rewrite Hiff. apply post_init_raises_iff.
  - intros qty confidence price Hn. subst construct. cbv beta in *.
    destruct (new_TradeSignal_cases id symbol side qty order_type confidence
                source created_at strategy_name price stop_price metadata)
      as [_ Hok].
    rewrite (Hok Hn). eexists. split; [reflexivity|]. by cbn.
Qed.

Lemma trade_signal_construction_witness :
  exists s,
    new_TradeSignal "sig-1" "AAPL" BUY 10 MARKET (8 # 10) STRATEGY 0 None
                    (Some (150 # 1)%Q) None ∅ = Ok s /\
    qty s = 10.
Proof.
  destruct (trade_signal_construction "sig-1" "AAPL" BUY MARKET STRATEGY 0
              None None ∅) as (_ & _ & _ & _ & _ & H).
  destruct (H 10 (8 # 10)%Q (Some (150 # 1)%Q)) as (s & Hs & Hq & _).
  - intros [e He]. vm_compute in He. discriminate.
  - exists s. split; [exact Hs | exact Hq].
Defined.

(** ** The rule pipeline (engines/risk/engine.py) *)

Section RunRules.

Variables (signal : TradeSignal) (account : AccountSnapshot).
Variables (positions : list PositionSnapshot) (recent : list TradeSignal).
Variable now : Risk.LocalTime.

Local Abbreviation run todo md ev :=
  (Risk.run_rules todo signal account positions recent now md ev).
Local Abbreviation passes rule :=
  (Risk.passes rule signal account positions recent now).
Local Abbreviation call rule :=
  (Risk.validate rule signal account positions recent now).

(** The loop stops at the first rule that does not pass; the rules before
    it passed, and the rules called are that prefix, in order. *)
Lemma run_rules_spec (todo : list Risk.RiskRule) :
  forall (md : gmap string RiskCheck) (ev : list string),
    match run todo md ev with
    | Risk.AllPassed _ ev' =>
        Forall (fun q => passes q) todo /\ ev' = ev ++ map Risk.name todo
    | Risk.RuleFailed r reason _ ev' =>
        exists pre post,
          todo = pre ++ r :: post /\ Forall (fun q => passes q) pre /\
          call r = Risk.Returned false reason /\
          ev' = ev ++ map Risk.name (pre ++ [r])
    | Risk.RuleRaised r e ev' =>
        exists pre post,
          todo = pre ++ r :: post /\ Forall (fun q => passes q) pre /\
          call r = Risk.Raised e /\
          ev' = ev ++ map Risk.name (pre ++ [r])
    end.
Proof using Type.
  induction todo as [|rule rest IH]; intros md ev.
  - cbn. split; [constructor | by rewrite app_nil_r].
  - cbn [Risk.run_rules].
    destruct (call rule) as [[|] why|e] eqn:Hcall; cbn [negb].
    + specialize (IH (<["rule_" +:+ Risk.name rule := RuleOutcome true why]> md)
                     (ev ++ [Risk.name rule])).
      destruct (run rest _ _) as [md' ev'|r reason md' ev'|r e ev'].
      * destruct IH as [Hall ->]. split.
        -- constructor; [by exists why | exact Hall].
        -- cbn. by rewrite <- app_assoc.
      * destruct IH as (pre & post & -> & Hpre & Hr & ->).
        exists (rule :: pre), post. repeat split; try done.
        -- constructor; [by exists why | exact Hpre].
        -- cbn. by rewrite <- app_assoc.
      * destruct IH as (pre & post & -> & Hpre & Hr & ->).
        exists (rule :: pre), post. repeat split; try done.
        -- constructor; [by exists why | exact Hpre].
        -- cbn. by rewrite <- app_assoc.
    + exists [], rest. by repeat split.
    + exists [], rest. by repeat split.
Qed.

End RunRules.

(** A rule that passed did not return a failure. *)
Lemma passes_not_failed
    (rule : Risk.RiskRule) (signal : TradeSignal) (account : AccountSnapshot)
    (positions : list PositionSnapshot) (recent : list TradeSignal)
    (now : Risk.LocalTime) (reason : option string) :
  Risk.passes rule signal account positions recent now ->
  Risk.validate rule signal account positions recent now
    <> Risk.Returned false reason.
Proof. intros [why Hw] H. congruence. Qed.

(** The element at position [length pre] of [pre ++ r :: post] is [r]. *)
Lemma lookup_middle_eq {A : Type} (pre post : list A) (r x : A) (i : nat) :
  (pre ++ r :: post) !! i = Some x ->
  ((i < length pre)%nat /\ pre !! i = Some x) \/ (i = length pre /\ x = r) \/
  (length pre < i)%nat.
Proof.
  intros H. destruct (Nat.lt_trichotomy i (length pre)) as [Hlt|[->|Hgt]].
  - left. split; [exact Hlt|]. by rewrite lookup_app_l in H.
  - right; left. split; [done|].
    rewrite list_lookup_middle in H; [congruence | done].
  - right; right. exact Hgt.
Qed.

(** The rules whose [validate] ran are always a prefix of the registered
    rules, in their registered order. *)
Lemma evaluated_rules_prefix
    (eng : Risk.RiskEngine) (env : Risk.Env) (signal : TradeSignal)
    (account : AccountSnapshot) (positions : list PositionSnapshot) :
  exists n,
    Risk.evaluated_rules (Risk.validate_signal eng env signal account positions)
    = map Risk.name (take n (Risk.rules eng)).
Proof.
  unfold Risk.validate_signal.
  destruct (Risk.is_active eng); cbn [negb].
  2:{ exists 0%nat. reflexivity. }
  pose proof (run_rules_spec signal account positions (Risk.recent_signals eng)
                (Risk.now env) (Risk.rules eng) ∅ []) as Hspec.
  destruct (Risk.run_rules _ _ _ _ _ _ _ _) as [md ev|r reason md ev|r e ev];
    cbn [Risk.evaluated_rules].
  - destruct Hspec as [_ ->]. exists (length (Risk.rules eng)).
    by rewrite firstn_all.
  - destruct Hspec as (pre & post & Hrules & _ & _ & ->).
    exists (S (length pre)). rewrite Hrules. cbn [app]. f_equal.
    rewrite (cons_middle r pre post), app_assoc.
    rewrite take_app_length'; [done|]. rewrite length_app. cbn. lia.
  - destruct Hspec as (pre & post & Hrules & _ & _ & ->).
    exists (S (length pre)). rewrite Hrules. cbn [app]. f_equal.
    rewrite (cons_middle r pre post), app_assoc.
    rewrite take_app_length'; [done|]. rewrite length_app. cbn. lia.
Qed.

(** C3 (the code's behaviour; the publication the claim asks for is
    missing): on a deactivated engine, [validate_signal] evaluates no rule,
    leaves the engine as it was, returns a RejectedTrade for the signal
    whose rejection_reason is exactly "Risk engine is disabled", and the
    driver makes no broker call; but it hands no event to the publisher,
    so that [handle_signal_generated_event], which drops the returned
    pair, leaves no trace of the rejection. *)
Theorem disabled_engine_rejects_without_publishing
    (eng : Risk.RiskEngine) (env : Risk.Env) (signal : TradeSignal)
    (account : AccountSnapshot) (positions : list PositionSnapshot) :
  Risk.is_active eng = false ->
  let o := Risk.validate_signal eng env signal account positions in
  Risk.evaluated_rules o = [] /\
  Risk.engine o = eng /\
  (exists rt, Risk.returned o = inr rt /\
              rejected_signal rt = signal /\
              rejection_reason rt = "Risk engine is disabled") /\
  (forall exec place_order xenv,
     (Pipeline.validate_then_execute eng exec place_order env xenv
        signal account positions).2 = []) /\
  Risk.published o = [] /\
  (forall event strategy_name,
     event_metadata event = SignalData signal strategy_name ->
     Risk.handle_signal_generated_event eng env event account positions
     = (eng, [])).
Proof.
  intros Hoff o. subst o.
  unfold Pipeline.validate_then_execute, Risk.handle_signal_generated_event,
    Risk.validate_signal.
  rewrite Hoff. cbn.
  split; [done|]. split; [done|].
  split; [eexists; repeat split|].
  split; [intros; reflexivity|].
  split; [reflexivity|].
  intros event strategy_name ->. reflexivity.
Qed.

Lemma disabled_engine_rejects_without_publishing_witness :
  Risk.published
    (Risk.validate_signal (Risk.deactivate Risk.new_RiskEngine)
       Scenario.monday_10am (Scenario.signal_at "s1" 0 1) Scenario.account [])
  = [].
Proof.
  apply (disabled_engine_rejects_without_publishing
           (Risk.deactivate Risk.new_RiskEngine) Scenario.monday_10am
           (Scenario.signal_at "s1" 0 1) Scenario.account []).
  reflexivity.
Defined.

(** A rule that was called and returned a failure is the last rule
    called: every rule registered before it was called and passed, the
    call returns a RejectedTrade whose rejection_reason is
    "{rule_name}: {reason}" for that rule, and that rejection is the one
    event published. *)
Lemma called_failing_rule_decides_rejection
    (eng : Risk.RiskEngine) (env : Risk.Env) (signal : TradeSignal)
    (account : AccountSnapshot) (positions : list PositionSnapshot) :
  Risk.is_active eng = true ->
  let o := Risk.validate_signal eng env signal account positions in
  (exists n, Risk.evaluated_rules o = map Risk.name (take n (Risk.rules eng))) /\
  forall (i : nat) (rule : Risk.RiskRule) (reason : option string),
    Risk.rules eng !! i = Some rule ->
    (i < length (Risk.evaluated_rules o))%nat ->
    Risk.validate rule signal account positions (Risk.recent_signals eng)
                  (Risk.now env) = Risk.Returned false reason ->
    Risk.evaluated_rules o = map Risk.name (take (S i) (Risk.rules eng)) /\
    (forall (j : nat) (earlier : Risk.RiskRule),
       (j < i)%nat -> Risk.rules eng !! j = Some earlier ->
       Risk.passes earlier signal account positions (Risk.recent_signals eng)
                   (Risk.now env)) /\
    exists rt,
      Risk.returned o = inr rt /\
      rejected_signal rt = signal /\
      rejection_reason rt = Risk.name rule +:+ ": " +:+ Py.str_opt reason /\
      Py.startswith (Risk.name rule) (rejection_reason rt) = true /\
      Risk.published o =
        [create_signal_rejected_event (Risk.event_uuid4 env)
                                      (Risk.event_utcnow env) rt] /\
      Risk.engine o = eng.
Proof.
  intros Hact o. split; [apply evaluated_rules_prefix|].
  intros i rule reason Hi Hev Hfail. subst o. revert Hev.
  unfold Risk.validate_signal. rewrite Hact. cbn [negb].
  pose proof (run_rules_spec signal account positions (Risk.recent_signals eng)
                (Risk.now env) (Risk.rules eng) ∅ []) as Hspec.
  destruct (Risk.run_rules _ _ _ _ _ _ _ _) as [md ev|r reason' md ev|r e ev];
    cbn [Risk.evaluated_rules Risk.returned Risk.published Risk.engine].
  - (* every rule passed: the rule at [i] did not fail *)
    destruct Hspec as [Hall _]. intros _. exfalso.
    rewrite Forall_lookup in Hall.
    exact (passes_not_failed _ _ _ _ _ _ _ (Hall _ _ Hi) Hfail).
  - destruct Hspec as (pre & post & Hrules & Hpre & Hr & ->).
    cbn [app]. rewrite length_map, length_app. cbn [length]. intros Hlt.
    rewrite Hrules in Hi.
    destruct (lookup_middle_eq _ _ _ _ _ Hi) as [[Hlt' Hin]|[[-> ->]|Hgt]]; [| |lia].
    { exfalso. rewrite Forall_lookup in Hpre.
      exact (passes_not_failed _ _ _ _ _ _ _ (Hpre _ _ Hin) Hfail). }
    assert (reason' = reason) as -> by congruence.
    split.
    { rewrite Hrules, (cons_middle r pre post), app_assoc.
      rewrite take_app_length'; [done|]. rewrite length_app. cbn. lia. }
    split.
    { intros j earlier Hj Hlook. rewrite Hrules in Hlook.
      rewrite lookup_app_l in Hlook by exact Hj.
      rewrite Forall_lookup in Hpre. exact (Hpre _ _ Hlook). }
    eexists. split; [reflexivity|]. cbn.
    repeat split. apply startswith_app.
  - destruct Hspec as (pre & post & Hrules & Hpre & Hr & ->).
    cbn [app]. rewrite length_map, length_app. cbn [length]. intros Hlt.
    exfalso. rewrite Hrules in Hi.
    destruct (lookup_middle_eq _ _ _ _ _ Hi) as [[Hlt' Hin]|[[-> ->]|Hgt]]; [| |lia].
    + rewrite Forall_lookup in Hpre.
      exact (passes_not_failed _ _ _ _ _ _ _ (Hpre _ _ Hin) Hfail).
    + congruence.
Qed.

(** Read off the rule list: when the rules before [rule] all pass and
    [rule] returns a failure, the rules after it are not called and the
    rejection carries the name and reason of [rule]. *)
Lemma rejection_after_passing_prefix
    (eng : Risk.RiskEngine) (env : Risk.Env) (signal : TradeSignal)
    (account : AccountSnapshot) (positions : list PositionSnapshot)
    (pre post : list Risk.RiskRule) (rule : Risk.RiskRule)
    (reason : option string) :
  Risk.is_active eng = true ->
  Risk.rules eng = pre ++ rule :: post ->
  Forall (fun q => Risk.passes q signal account positions
                     (Risk.recent_signals eng) (Risk.now env)) pre ->
  Risk.validate rule signal account positions (Risk.recent_signals eng)
                (Risk.now env) = Risk.Returned false reason ->
  let o := Risk.validate_signal eng env signal account positions in
  Risk.evaluated_rules o = map Risk.name (pre ++ [rule]) /\
  Risk.rejection_reason_of o
    = Some (Risk.name rule +:+ ": " +:+ Py.str_opt reason).
Proof.
  intros Hact Hrules Hpre Hfail o. subst o.
  unfold Risk.rejection_reason_of, Risk.validate_signal.
  rewrite Hact. cbn [negb].
  pose proof (run_rules_spec signal account positions (Risk.recent_signals eng)
                (Risk.now env) (Risk.rules eng) ∅ []) as Hspec.
  assert (Hstop : forall pre' post' r',
    pre ++ rule :: post = pre' ++ r' :: post' ->
    Forall (fun q => Risk.passes q signal account positions
                       (Risk.recent_signals eng) (Risk.now env)) pre' ->
    ~ Risk.passes r' signal account positions
        (Risk.recent_signals eng) (Risk.now env) ->
    pre' = pre /\ r' = rule).
  { intros pre' post' r' Heq Hpre' Hr'.
    assert (Hlen : length pre' = length pre).
    { destruct (Nat.lt_trichotomy (length pre') (length pre)) as [Hlt|[Heq'|Hgt]];
        [exfalso | exact Heq' | exfalso].
      - apply Hr'. rewrite Forall_lookup in Hpre.
        apply (Hpre (length pre')).
        rewrite <- (lookup_app_l pre (rule :: post)) by exact Hlt.
        rewrite Heq. by rewrite list_lookup_middle.
      - rewrite Forall_lookup in Hpre'.
        apply (passes_not_failed _ _ _ _ _ _ reason
                 (Hpre' (length pre) rule ltac:(
                    rewrite <- (lookup_app_l pre' (r' :: post')) by exact Hgt;
                    rewrite <- Heq; by rewrite list_lookup_middle))).
        exact Hfail. }
    apply app_inj_1 in Heq as [-> Heq]; [|by symmetry].
    split; [done|]. by injection Heq. }
  rewrite Hrules in Hspec |- *.
  destruct (Risk.run_rules _ _ _ _ _ _ _ _) as [md ev|r reason' md ev|r e ev];
    cbn [Risk.evaluated_rules Risk.returned].
  - exfalso. destruct Hspec as [Hall _].
    apply Forall_app in Hall as [_ Hall]. apply Forall_cons in Hall as [Hr _].
    exact (passes_not_failed _ _ _ _ _ _ _ Hr Hfail).
  - destruct Hspec as (pre' & post' & Heq & Hpre' & Hr & ->).
    assert (Hnot : ~ Risk.passes r signal account positions
                     (Risk.recent_signals eng) (Risk.now env))
      by (intros [why Hw]; congruence).
    destruct (Hstop pre' post' r Heq Hpre' Hnot) as [-> ->].
    split; [reflexivity|]. cbn. repeat f_equal. congruence.
  - destruct Hspec as (pre' & post' & Heq & Hpre' & Hr & ->).
    assert (Hnot : ~ Risk.passes r signal account positions
                     (Risk.recent_signals eng) (Risk.now env))
      by (intros [why Hw]; congruence).
    destruct (Hstop pre' post' r Heq Hpre' Hnot) as [-> ->].
    congruence.
Qed.

(** C4: within a call of [validate_signal] on an active engine the rules
    are called in their registered order, and the first rule that returns
    a failure decides the call.  If the rules registered before [rule] all
    pass and [rule] returns (False, reason), then exactly the rules up to
    and including [rule] are called, in order, and no later one; the call
    returns a RejectedTrade whose rejection_reason is exactly
    "{rule_name}: {reason}" for that rule, which therefore begins with the
    rule's name; that rejection is the one event published and the engine
    is unchanged.  Conversely every RejectedTrade an active engine returns
    comes from the first rule that did not pass, the rules before it
    having passed: its reason is "{rule_name}: {reason}" when that rule
    returned a failure and "Risk validation error: {e}" when it raised. *)
Theorem first_failing_rule_decides_rejection
    (eng : Risk.RiskEngine) (env : Risk.Env) (signal : TradeSignal)
    (account : AccountSnapshot) (positions : list PositionSnapshot) :
  Risk.is_active eng = true ->
  let o := Risk.validate_signal eng env signal account positions in
  let passes rule :=
    Risk.passes rule signal account positions (Risk.recent_signals eng)
                (Risk.now env) in
  let call rule :=
    Risk.validate rule signal account positions (Risk.recent_signals eng)
                  (Risk.now env) in
  (exists n, Risk.evaluated_rules o = map Risk.name (take n (Risk.rules eng))) /\
  (forall (pre post : list Risk.RiskRule) (rule : Risk.RiskRule)
          (reason : option string),
     Risk.rules eng = pre ++ rule :: post ->
     Forall passes pre ->
     call rule = Risk.Returned false reason ->
     Risk.evaluated_rules o = map Risk.name (pre ++ [rule]) /\
     exists rt,
       Risk.returned o = inr rt /\
       rejected_signal rt = signal /\
       rejection_reason rt = Risk.name rule +:+ ": " +:+ Py.str_opt reason /\
       Py.startswith (Risk.name rule) (rejection_reason rt) = true /\
       Risk.published o =
         [create_signal_rejected_event (Risk.event_uuid4 env)
                                       (Risk.event_utcnow env) rt] /\
       Risk.engine o = eng) /\
  (forall rt,
     Risk.returned o = inr rt ->
     exists (pre post : list Risk.RiskRule) (rule : Risk.RiskRule),
       Risk.rules eng = pre ++ rule :: post /\
       Forall passes pre /\
       Risk.evaluated_rules o = map Risk.name (pre ++ [rule]) /\
       ((exists reason,
           call rule = Risk.Returned false reason /\
           rejection_reason rt
             = Risk.name rule +:+ ": " +:+ Py.str_opt reason /\
           Py.startswith (Risk.name rule) (rejection_reason rt) = true) \/
        (exists e,
           call rule = Risk.Raised e /\
           rejection_reason rt = "Risk validation error: " +:+ e))).
Proof.
  intros Hact o passes call.
  split; [apply evaluated_rules_prefix|]. split.
  - intros pre post rule reason Hrules Hpre Hfail.
    destruct (rejection_after_passing_prefix eng env signal account positions
                pre post rule reason Hact Hrules Hpre Hfail) as [Hev _].
    fold o in Hev. split; [exact Hev|].
    destruct (called_failing_rule_decides_rejection eng env signal account
                positions Hact) as [_ Hcalled].
    fold o in Hcalled.
    destruct (Hcalled (length pre) rule reason) as (_ & _ & Hrt).
    + rewrite Hrules. by apply list_lookup_middle.
    + rewrite Hev, length_map, length_app. cbn [length]. lia.
    + exact Hfail.
    + exact Hrt.
  - intros rt. subst o. unfold Risk.validate_signal. rewrite Hact. cbn [negb].
    pose proof (run_rules_spec signal account positions
                  (Risk.recent_signals eng) (Risk.now env) (Risk.rules eng)
                  ∅ []) as Hspec.
    destruct (Risk.run_rules _ _ _ _ _ _ _ _) as [md ev|r reason md ev|r e ev];
      cbn [Risk.evaluated_rules Risk.returned]; [discriminate| |].
    + destruct Hspec as (pre & post & Hrules & Hpre & Hr & ->).
      intros [= <-]. exists pre, post, r.
      split; [exact Hrules|]. split; [exact Hpre|]. split; [reflexivity|].
      left. exists reason. split; [exact Hr|]. cbn [rejection_reason].
      split; [reflexivity | apply startswith_app].
    + destruct Hspec as (pre & post & Hrules & Hpre & Hr & ->).
      intros [= <-]. exists pre, post, r.
      split; [exact Hrules|]. split; [exact Hpre|]. split; [reflexivity|].
      right. exists e. split; [exact Hr | reflexivity].
Qed.

Lemma first_failing_rule_decides_rejection_witness :
  exists rt,
    Risk.returned
      (Risk.validate_signal Risk.new_RiskEngine Scenario.monday_10am
         Scenario.weak_signal Scenario.account []) = inr rt /\
    rejection_reason rt =
      "min_confidence: Signal confidence 0.50 below minimum 0.60" /\
    Risk.evaluated_rules
      (Risk.validate_signal Risk.new_RiskEngine Scenario.monday_10am
         Scenario.weak_signal Scenario.account [])
    = ["max_position_size"; "max_positions_per_symbol"; "min_confidence"].
Proof.
  destruct (first_failing_rule_decides_rejection Risk.new_RiskEngine
              Scenario.monday_10am Scenario.weak_signal Scenario.account []
              eq_refl) as (_ & H & _).
  destruct (H [Risk.MaxPositionSizeRule (5 # 100);
               Risk.MaxPositionsPerSymbolRule 2]
              [Risk.DuplicateSignalRule 1; Risk.MarketHoursRule]
              (Risk.MinConfidenceRule (6 # 10))
              (Some "Signal confidence 0.50 below minimum 0.60"))
    as (Hev & rt & Hr & _ & Hreason & _).
  - reflexivity.
  - repeat constructor; exists None; vm_compute; reflexivity.
  - vm_compute. reflexivity.
  - exists rt. split; [exact Hr|]. split; [exact Hreason | exact Hev].
Defined.

(** ** The recent-signals buffer *)

(** What [validate_signal] does to the engine: nothing when it rejects;
    when it approves, every rule passed and the signal was added. *)
Lemma validate_signal_engine
    (eng : Risk.RiskEngine) (env : Risk.Env) (signal : TradeSignal)
    (account : AccountSnapshot) (positions : list PositionSnapshot) :
  let o := Risk.validate_signal eng env signal account positions in
  match Risk.returned o with
  | inr _ => Risk.engine o = eng
  | inl approved =>
      Risk.engine o = Risk._add_recent_signal eng signal /\
      Risk.is_active eng = true /\
      approved_signal approved = signal /\
      Forall (fun rule => Risk.passes rule signal account positions
                            (Risk.recent_signals eng) (Risk.now env))
             (Risk.rules eng)
  end.
Proof.
  unfold Risk.validate_signal.
  destruct (Risk.is_active eng); cbn [negb]; [|reflexivity].
  pose proof (run_rules_spec signal account positions (Risk.recent_signals eng)
                (Risk.now env) (Risk.rules eng) ∅ []) as Hspec.
  destruct (Risk.run_rules _ _ _ _ _ _ _ _) as [md ev|r reason md ev|r e ev];
    cbn; try reflexivity.
  destruct Hspec as [Hall _]. by repeat split.
Qed.

(** With the capacity of [__init__], [_add_recent_signal] appends and,
    once the list is longer than 1000, keeps its newest 500 entries. *)
Lemma add_recent_signal_1000 (eng : Risk.RiskEngine) (signal : TradeSignal) :
  Risk.max_recent_signals eng = 1000 ->
  let appended := Risk.recent_signals eng ++ [signal] in
  Risk.recent_signals (Risk._add_recent_signal eng signal) =
    if Py.len appended >? 1000
    then drop (length appended - 500) appended
    else appended.
Proof.
  intros Hmax appended. unfold Risk._add_recent_signal. cbn.
  rewrite Hmax. fold appended.
  destruct (Py.len appended >? 1000); [|reflexivity].
  change (Py.floordiv (Z.opp 1000) 2) with (Z.opp 500).
  by rewrite slice_from_neg_drop.
Qed.

Lemma add_recent_signal_bounded (eng : Risk.RiskEngine) (signal : TradeSignal) :
  Risk.buffer_bounded eng ->
  Risk.buffer_bounded (Risk._add_recent_signal eng signal).
Proof.
  intros [Hmax Hlen]. split; [exact Hmax|].
  rewrite add_recent_signal_1000 by exact Hmax.
  destruct (Py.len (Risk.recent_signals eng ++ [signal]) >? 1000) eqn:E.
  - unfold Py.len in *. rewrite length_drop. lia.
  - rewrite Z.gtb_ltb in E. apply Z.ltb_ge in E. exact E.
Qed.

Lemma apply_op_bounded (eng : Risk.RiskEngine) (op : Risk.Op) :
  Risk.buffer_bounded eng -> Risk.buffer_bounded (Risk.apply_op eng op).
Proof.
  intros Hb. destruct op as [env signal account positions| | | |]; cbn;
    try exact Hb.
  pose proof (validate_signal_engine eng env signal account positions) as H.
  cbv zeta in H.
  destruct (Risk.returned _) as [approved|rejected].
  - destruct H as [-> _]. by apply add_recent_signal_bounded.
  - by rewrite H.
Qed.

Lemma run_ops_bounded (ops : list Risk.Op) :
  forall eng, Risk.buffer_bounded eng ->
              Risk.buffer_bounded (Risk.run_ops eng ops).
Proof.
  induction ops as [|op ops IH]; intros eng Hb; [exact Hb|].
  cbn. apply IH. by apply apply_op_bounded.
Qed.

Lemma new_RiskEngine_bounded : Risk.buffer_bounded Risk.new_RiskEngine.
Proof. split; [reflexivity | by vm_compute]. Qed.

(** C5: after every sequence of operations on a fresh risk engine
    ([validate_signal] calls, interleaved with rule changes, activation
    and deactivation) the recent-signals buffer holds at most 1000
    entries.  A call of [validate_signal] that rejects leaves the buffer
    as it was; a call that approves (every rule passed) appends the
    signal, and if that makes the length exceed 1000 the buffer is cut to
    the newest 500 entries of the appended list. *)
Theorem recent_signals_buffer_bounded (ops : list Risk.Op) :
  let eng := Risk.run_ops Risk.new_RiskEngine ops in
  Py.len (Risk.recent_signals eng) <= 1000 /\
  forall env signal account positions,
    let o := Risk.validate_signal eng env signal account positions in
    match Risk.returned o with
    | inr _ => Risk.recent_signals (Risk.engine o) = Risk.recent_signals eng
    | inl _ =>
        Forall (fun rule => Risk.passes rule signal account positions
                              (Risk.recent_signals eng) (Risk.now env))
               (Risk.rules eng) /\
        let appended := Risk.recent_signals eng ++ [signal] in
        Risk.recent_signals (Risk.engine o) =
          (if Py.len appended >? 1000
           then drop (length appended - 500) appended
           else appended) /\
        (Py.len appended > 1000 ->
         Py.len (Risk.recent_signals (Risk.engine o)) = 500)
    end.
Proof.
  intros eng.
  assert (Hb : Risk.buffer_bounded eng)
    by (apply run_ops_bounded, new_RiskEngine_bounded).
  split; [apply Hb|].
  intros env signal account positions o. subst o.
  pose proof (validate_signal_engine eng env signal account positions) as H.
  cbv zeta in H.
  destruct (Risk.returned _) as [approved|rejected].
  - destruct H as (-> & _ & _ & Hall). split; [exact Hall|].
    cbv zeta. rewrite add_recent_signal_1000 by apply Hb.
    split; [reflexivity|].
    intros Hgt. destruct Hb as [_ Hlen].
    destruct (Py.len _ >? 1000) eqn:E;
      [|rewrite Z.gtb_ltb in E; apply Z.ltb_ge in E; lia].
    unfold Py.len in *. rewrite length_drop. rewrite length_app in *. cbn in *. lia.
  - by rewrite H.
Qed.

Lemma recent_signals_buffer_bounded_witness :
  Py.len (Risk.recent_signals Scenario.after_first_approval) <= 1000.
Proof.
  apply (recent_signals_buffer_bounded
           [Risk.OpValidate Scenario.monday_10am (Scenario.signal_at "s1" 0 1)
                            Scenario.account []]).
Defined.

(** ** Duplicate suppression *)

Lemma duplicate_in_window_found
    (signal earlier : TradeSignal) (cutoff : datetime)
    (recent : list TradeSignal) :
  earlier ∈ recent ->
  symbol earlier = symbol signal ->
  side earlier = side signal ->
  cutoff < created_at earlier ->
  Risk.duplicate_in_window signal cutoff recent = true.
Proof.
  intros Hin Hsym Hside Hcut.
  induction recent as [|x rest IH]; [by apply elem_of_nil in Hin|].
  cbn [Risk.duplicate_in_window].
  apply elem_of_cons in Hin as [<-|Hin].
  - rewrite Hsym, String.eqb_refl, (bool_decide_eq_true_2 _ Hside).
    assert ((created_at earlier >? cutoff) = true) as ->
      by (rewrite Z.gtb_ltb; by apply Z.ltb_lt).
    reflexivity.
  - destruct (_ && _ && _); [reflexivity | by apply IH].
Qed.

(** The signal just added is in the buffer, truncated or not. *)
Lemma add_recent_signal_keeps_new (eng : Risk.RiskEngine) (signal : TradeSignal) :
  Risk.max_recent_signals eng = 1000 ->
  signal ∈ Risk.recent_signals (Risk._add_recent_signal eng signal).
Proof.
  intros Hmax. rewrite add_recent_signal_1000 by exact Hmax.
  destruct (_ >? 1000).
  - rewrite drop_app_le by (rewrite length_app; cbn; lia).
    apply elem_of_app. right. by apply list_elem_of_singleton.
  - apply elem_of_app. right. by apply list_elem_of_singleton.
Qed.

(** With the default rules, a signal that passes the first three and has
    a duplicate in the window is rejected by the fourth. *)
Lemma default_rules_reject_duplicate
    (eng : Risk.RiskEngine) (env : Risk.Env) (signal : TradeSignal)
    (account : AccountSnapshot) (positions : list PositionSnapshot) :
  Risk.rules eng = Risk.rules Risk.new_RiskEngine ->
  Risk.is_active eng = true ->
  Risk.passes (Risk.MaxPositionSizeRule (5 # 100)) signal account positions
              (Risk.recent_signals eng) (Risk.now env) ->
  Risk.passes (Risk.MaxPositionsPerSymbolRule 2) signal account positions
              (Risk.recent_signals eng) (Risk.now env) ->
  Risk.passes (Risk.MinConfidenceRule (6 # 10)) signal account positions
              (Risk.recent_signals eng) (Risk.now env) ->
  Risk.duplicate_in_window signal (created_at signal - timedelta_minutes 1)
                           (Risk.recent_signals eng) = true ->
  exists rt,
    Risk.returned (Risk.validate_signal eng env signal account positions)
      = inr rt /\
    rejection_reason rt =
      "duplicate_signal: Duplicate signal for " +:+ symbol signal +:+ " "
        +:+ side_value (side signal) +:+ " within 1 minutes" /\
    Risk.engine (Risk.validate_signal eng env signal account positions) = eng.
Proof.
  intros Hrules Hact [w1 H1] [w2 H2] [w3 H3] Hdup.
  unfold Risk.validate_signal. rewrite Hact, Hrules. cbn [negb].
  change (Risk.rules Risk.new_RiskEngine) with
    [Risk.MaxPositionSizeRule (5 # 100); Risk.MaxPositionsPerSymbolRule 2;
     Risk.MinConfidenceRule (6 # 10); Risk.DuplicateSignalRule 1;
     Risk.MarketHoursRule].
  cbn [Risk.run_rules]. rewrite H1. cbn [negb].
  rewrite H2. cbn [negb]. rewrite H3. cbn [negb].
  assert (Hfour :
    Risk.validate (Risk.DuplicateSignalRule 1) signal account positions
                  (Risk.recent_signals eng) (Risk.now env)
    = Risk.Returned false
        (Some ("Duplicate signal for " +:+ symbol signal +:+ " "
               +:+ side_value (side signal) +:+ " within 1 minutes"))).
  { unfold Risk.DuplicateSignalRule. cbn [Risk.validate].
    rewrite Hdup. reflexivity. }
  rewrite Hfour. cbn [negb].
  eexists. split; [reflexivity|]. split; reflexivity.
Qed.

(** C6, with the window read inclusively, fails: a second signal created
    exactly one minute after the approved one passes the duplicate rule
    (the rule compares with a strict [>]) and is approved. *)
Lemma duplicate_at_exactly_one_minute_is_approved :
  ~ Risk.duplicate_claim_inclusive.
Proof.
  intros H.
  destruct (H Risk.new_RiskEngine
              Scenario.monday_10am (Scenario.signal_at "s1" 0 1)
              Scenario.account []
              Scenario.monday_10am (Scenario.signal_at "s2" 60000000 1)
              Scenario.account [])
    as (rt & Hrt & _).
  - reflexivity.
  - reflexivity.
  - eexists. reflexivity.
  - reflexivity.
  - reflexivity.
  - vm_compute. discriminate.
  - exists None. vm_compute. reflexivity.
  - exists None. vm_compute. reflexivity.
  - exists None. vm_compute. reflexivity.
  - vm_compute in Hrt. discriminate.
Qed.

(** C6 (amended): if [validate_signal] approves s1 on an engine with the
    default rules, then a second signal s2 with the same symbol and the
    same side, created less than one minute after s1 (or not after it at
    all), that passes the max_position_size, max_positions_per_symbol and
    min_confidence rules, is rejected with the reason
    "duplicate_signal: Duplicate signal for {symbol} {side} within 1
    minutes", which begins "duplicate_signal", and is not added to the
    buffer. *)
Theorem duplicate_signal_rejected
    (eng : Risk.RiskEngine)
    (env1 : Risk.Env) (s1 : TradeSignal) (a1 : AccountSnapshot)
    (p1 : list PositionSnapshot)
    (env2 : Risk.Env) (s2 : TradeSignal) (a2 : AccountSnapshot)
    (p2 : list PositionSnapshot) :
  Risk.rules eng = Risk.rules Risk.new_RiskEngine ->
  Risk.max_recent_signals eng = 1000 ->
  Risk.approves (Risk.validate_signal eng env1 s1 a1 p1) ->
  let eng1 := Risk.engine (Risk.validate_signal eng env1 s1 a1 p1) in
  symbol s2 = symbol s1 ->
  side s2 = side s1 ->
  created_at s2 - created_at s1 < timedelta_minutes 1 ->
  Risk.passes (Risk.MaxPositionSizeRule (5 # 100)) s2 a2 p2
              (Risk.recent_signals eng1) (Risk.now env2) ->
  Risk.passes (Risk.MaxPositionsPerSymbolRule 2) s2 a2 p2
              (Risk.recent_signals eng1) (Risk.now env2) ->
  Risk.passes (Risk.MinConfidenceRule (6 # 10)) s2 a2 p2
              (Risk.recent_signals eng1) (Risk.now env2) ->
  exists rt,
    Risk.returned (Risk.validate_signal eng1 env2 s2 a2 p2) = inr rt /\
    Py.startswith "duplicate_signal" (rejection_reason rt) = true /\
    rejection_reason rt =
      "duplicate_signal: Duplicate signal for " +:+ symbol s2 +:+ " "
        +:+ side_value (side s2) +:+ " within 1 minutes" /\
    Risk.recent_signals (Risk.engine (Risk.validate_signal eng1 env2 s2 a2 p2))
      = Risk.recent_signals eng1.
Proof.
  intros Hrules Hmax [approved Happr] eng1 Hsym Hside Hwin Hp1 Hp2 Hp3.
  pose proof (validate_signal_engine eng env1 s1 a1 p1) as Hstep.
  cbv zeta in Hstep. rewrite Happr in Hstep.
  destruct Hstep as (Heng1 & Hact & _ & _).
  assert (Hin : s1 ∈ Risk.recent_signals eng1).
  { subst eng1. rewrite Heng1. by apply add_recent_signal_keeps_new. }
  assert (Hrules1 : Risk.rules eng1 = Risk.rules Risk.new_RiskEngine).
  { subst eng1. rewrite Heng1. exact Hrules. }
  assert (Hact1 : Risk.is_active eng1 = true).
  { subst eng1. rewrite Heng1. exact Hact. }
  destruct (default_rules_reject_duplicate eng1 env2 s2 a2 p2
              Hrules1 Hact1 Hp1 Hp2 Hp3) as (rt & Hrt & Hreason & Heng).
  { apply (duplicate_in_window_found s2 s1); [exact Hin|done|done|lia]. }
  exists rt. split; [exact Hrt|]. split; [|split; [exact Hreason | by rewrite Heng]].
  rewrite Hreason.
  apply (startswith_app "duplicate_signal").
Qed.

Lemma duplicate_signal_rejected_witness :
  exists rt,
    Risk.returned
      (Risk.validate_signal Scenario.after_first_approval Scenario.monday_10am
         (Scenario.signal_at "s2" 10000000 1) Scenario.account []) = inr rt /\
    Py.startswith "duplicate_signal" (rejection_reason rt) = true.
Proof.
  destruct (duplicate_signal_rejected Risk.new_RiskEngine
              Scenario.monday_10am (Scenario.signal_at "s1" 0 1)
              Scenario.account []
              Scenario.monday_10am (Scenario.signal_at "s2" 10000000 1)
              Scenario.account [])
    as (rt & Hrt & Hstart & _).
  - reflexivity.
  - reflexivity.
  - eexists. reflexivity.
  - reflexivity.
  - reflexivity.
  - vm_compute. reflexivity.
  - exists None. vm_compute. reflexivity.
  - exists None. vm_compute. reflexivity.
  - exists None. vm_compute. reflexivity.
  - exists rt. split; [exact Hrt | exact Hstart].
Defined.

(** ** Broker errors in the execution engine (engines/execution/engine.py) *)

(** C2 (the code's behaviour; the recording the claim asks for is
    missing): when [broker.place_order] raises [e] on an idle engine,
    [execute_approved_trade] calls the broker once, builds a REJECTED
    OrderEvent with rejection_reason "Execution error: {e}", increments
    orders_rejected and returns to IDLE; but [order_history] (like
    [active_orders]) is left exactly as it was, so the event it built is
    not recorded. *)
Theorem broker_error_is_counted_but_not_recorded
    (self : Execution.ExecutionEngine)
    (place_order : TradeSignal -> result string OrderEvent)
    (env : Execution.Env) (approved_trade : ApprovedTrade) (e : string) :
  Execution.status self = Execution.IDLE ->
  place_order (approved_signal approved_trade) = Raise e ->
  let after := Execution.execute_approved_trade self place_order env approved_trade in
  let error_order :=
    Execution.error_order_for (approved_signal approved_trade)
                              (Execution.error_time env) e in
  status error_order = REJECTED /\
  order_rejection_reason error_order = Some ("Execution error: " +:+ e) /\
  after.2 = [approved_signal approved_trade] /\
  Execution.orders_rejected (Execution.stats after.1)
    = Execution.orders_rejected (Execution.stats self) + 1 /\
  Execution.status after.1 = Execution.IDLE /\
  Execution.order_history after.1 = Execution.order_history self /\
  Execution.active_orders after.1 = Execution.active_orders self.
Proof.
  intros Hidle Hraise after error_order. subst after error_order.
  unfold Execution.execute_approved_trade.
  rewrite Hidle. cbn [bool_decide negb decide_rel].
  rewrite bool_decide_eq_true_2 by reflexivity. cbn [negb].
  rewrite Hraise. cbn. by repeat split.
Qed.

Lemma broker_error_is_counted_but_not_recorded_witness :
  let after :=
    Execution.execute_approved_trade Execution.new_ExecutionEngine
      Scenario.failing_broker Scenario.exec_clock Scenario.approved_s1 in
  Execution.orders_rejected (Execution.stats after.1) = 1 /\
  Execution.order_history after.1 !! "error_s1" = None.
Proof.
  destruct (broker_error_is_counted_but_not_recorded
              Execution.new_ExecutionEngine Scenario.failing_broker
              Scenario.exec_clock Scenario.approved_s1
              "Not connected to Alpaca" eq_refl eq_refl)
    as (_ & _ & _ & Hcount & _ & Hhist & _).
  split; [exact Hcount|].
  cbv zeta. rewrite Hhist. reflexivity.
Defined.

(** The sibling path: an order the broker returns, whatever its status,
    is stored in [order_history] under its id. *)
Lemma returned_order_is_recorded
    (self : Execution.ExecutionEngine)
    (place_order : TradeSignal -> result string OrderEvent)
    (env : Execution.Env) (approved_trade : ApprovedTrade)
    (order_event : OrderEvent) :
  Execution.status self = Execution.IDLE ->
  place_order (approved_signal approved_trade) = Ok order_event ->
  Execution.order_history
    (Execution.execute_approved_trade self place_order env approved_trade).1
    !! order_id order_event = Some order_event.
Proof.
  intros Hidle Hok. unfold Execution.execute_approved_trade.
  rewrite Hidle. rewrite bool_decide_eq_true_2 by reflexivity. cbn [negb].
  rewrite Hok. cbn. apply lookup_insert_eq.
Qed.

(** ** Signal confidence (engines/strategy/ma_crossover.py) *)

Lemma Qeq_bool_false_neq (x y : Q) : ~ (x == y)%Q -> Qeq_bool x y = false.
Proof.
  intros H. destruct (Qeq_bool x y) eqn:E; [|reflexivity].
  apply Qeq_bool_iff in E. contradiction.
Qed.


(** The code computes the expression the specification writes. *)
Lemma calculate_signal_confidence_eq
    (price short_ma long_ma : Q) (crossover_type : string) :
  ~ (long_ma == 0)%Q ->
  MACrossover._calculate_signal_confidence price short_ma long_ma crossover_type
  = Ok (MACrossover.spec_confidence (String.eqb crossover_type "bullish")
          price short_ma long_ma).
Proof.
  intros Hlong. unfold MACrossover._calculate_signal_confidence.
  rewrite (Qeq_bool_false_neq _ _ Hlong).
  unfold MACrossover.spec_confidence, MACrossover.spec_price_factor.
  by destruct (String.eqb crossover_type "bullish").
Qed.



(** The confidence of a signal [_detect_crossover] emits is the one
    [_calculate_signal_confidence] computed for its direction. *)
Lemma emitted_signal_confidence
    (self : MACrossover.Strategy) (env : MACrossover.Env) (symbol : string)
    (price short_ma long_ma prev_short_ma prev_long_ma : Q)
    (timestamp : datetime) (sig : TradeSignal) (self' : MACrossover.Strategy) :
  MACrossover._detect_crossover self env symbol price short_ma long_ma
    prev_short_ma prev_long_ma timestamp = (Ok (Some sig), self') ->
  ~ (long_ma == 0)%Q /\
  confidence sig =
    MACrossover.spec_confidence (bool_decide (side sig = BUY))
                                price short_ma long_ma.
Proof.
  unfold MACrossover._detect_crossover.
  destruct (match MACrossover.last_signal_time self !! symbol with
            | Some _ => _ | None => _ end); [discriminate|].
  assert (Hemit : forall sd ct,
    MACrossover.emit_signal self env symbol sd price short_ma long_ma ct
      = Ok (Some sig) ->
    ~ (long_ma == 0)%Q /\ side sig = sd /\
    confidence sig =
      MACrossover.spec_confidence (String.eqb ct "bullish") price short_ma long_ma).
  { intros sd ct. unfold MACrossover.emit_signal.
    destruct (Qeq_bool long_ma 0) eqn:E0.
    { unfold MACrossover._calculate_signal_confidence. rewrite E0. discriminate. }
    assert (Hl : ~ (long_ma == 0)%Q).
    { intros H. apply Qeq_bool_iff in H. congruence. }
    rewrite (calculate_signal_confidence_eq price short_ma long_ma ct Hl).
    destruct (Py.Qleb _ _); [|discriminate].
    unfold create_trade_signal, new_TradeSignal.
    destruct (__post_init__ _ _ _); [|discriminate].
    intros [= <-]. by cbn. }
  destruct (_ && _).
  - destruct (MACrossover.emit_signal _ _ _ BUY _ _ _ _) as [[s|]|e] eqn:E;
      intros [= <- <-].
    destruct (Hemit _ _ E) as (Hl & Hs & Hc).
    split; [exact Hl|]. rewrite Hc, Hs. reflexivity.
  - destruct (_ && _).
    + destruct (MACrossover.emit_signal _ _ _ SELL _ _ _ _) as [[s|]|e] eqn:E;
        intros [= <- <-].
      destruct (Hemit _ _ E) as (Hl & Hs & Hc).
      split; [exact Hl|]. rewrite Hc, Hs. reflexivity.
    + discriminate.
Qed.

(** ** The price-history buffer *)

(** [_update_price_history] appends the tick and keeps the newest
    [long_period + 10] entries. *)
Lemma update_price_history_lookup
    (self : MACrossover.Strategy) (symbol : string) (price : Q)
    (timestamp : datetime) :
  0 < MACrossover.long_period self + 10 ->
  let appended :=
    default [] (MACrossover.price_history self !! symbol)
      ++ [{| MACrossover.pd_price := price;
             MACrossover.pd_timestamp := timestamp |}] in
  MACrossover.price_history
    (MACrossover._update_price_history self symbol price timestamp) !! symbol
  = Some (drop (length appended
                - Z.to_nat (MACrossover.long_period self + 10)) appended).
Proof.
  intros Hpos appended. unfold MACrossover._update_price_history. cbn.
  rewrite lookup_insert_eq. f_equal. fold appended.
  destruct (Py.len appended >? MACrossover.long_period self + 10) eqn:E.
  - by rewrite slice_from_neg_drop.
  - rewrite Z.gtb_ltb in E. apply Z.ltb_ge in E. unfold Py.len in E.
    replace (length appended - Z.to_nat (MACrossover.long_period self + 10))%nat
      with 0%nat by lia.
    reflexivity.
Qed.

Lemma update_price_history_other
    (self : MACrossover.Strategy) (symbol other : string) (price : Q)
    (timestamp : datetime) :
  symbol <> other ->
  MACrossover.price_history
    (MACrossover._update_price_history self symbol price timestamp) !! other
  = MACrossover.price_history self !! other.
Proof.
  intros Hne. unfold MACrossover._update_price_history. cbn.
  by rewrite lookup_insert_ne.
Qed.

Lemma update_price_history_bounded
    (self : MACrossover.Strategy) (symbol : string) (price : Q)
    (timestamp : datetime) :
  0 < MACrossover.long_period self + 10 ->
  MACrossover.histories_bounded self ->
  MACrossover.histories_bounded
    (MACrossover._update_price_history self symbol price timestamp).
Proof.
  intros Hpos Hb other. unfold MACrossover.history_len.
  change (MACrossover.long_period
            (MACrossover._update_price_history self symbol price timestamp))
    with (MACrossover.long_period self).
  destruct (decide (symbol = other)) as [<-|Hne].
  - rewrite update_price_history_lookup by exact Hpos. cbn [from_option].
    unfold Py.len, Datatypes.id. rewrite length_drop. lia.
  - rewrite update_price_history_other by exact Hne. apply Hb.
Qed.

(** [_detect_crossover] touches only [last_signal_time]. *)
Lemma detect_crossover_keeps_history
    (self : MACrossover.Strategy) (env : MACrossover.Env) (symbol : string)
    (price short_ma long_ma prev_short_ma prev_long_ma : Q)
    (timestamp : datetime) :
  let self' := (MACrossover._detect_crossover self env symbol price short_ma
                  long_ma prev_short_ma prev_long_ma timestamp).2 in
  MACrossover.price_history self' = MACrossover.price_history self /\
  MACrossover.long_period self' = MACrossover.long_period self.
Proof.
  unfold MACrossover._detect_crossover.
  destruct (match MACrossover.last_signal_time self !! symbol with
            | Some _ => _ | None => _ end); [done|].
  destruct (if _ && _ then _ else _) as [[sig|]|e]; done.
Qed.

(** What [process_market_event] does to the histories: a tick that is
    processed goes through [_update_price_history] once, any other event
    leaves them alone; the period never changes. *)
Lemma process_market_event_history
    (self : MACrossover.Strategy) (env : MACrossover.Env) (event : MarketEvent) :
  let self' := (MACrossover.process_market_event self env event).2 in
  MACrossover.long_period self' = MACrossover.long_period self /\
  ((forall price, ~ MACrossover.processed_with self event price) /\
   MACrossover.price_history self' = MACrossover.price_history self
   \/
   exists price,
     MACrossover.processed_with self event price /\
     MACrossover.price_history self' =
       MACrossover.price_history
         (MACrossover._update_price_history self (ev_symbol event) price
            (ev_timestamp event))).
Proof.
  unfold MACrossover.process_market_event, MACrossover.processed_with.
  destruct (MACrossover.is_active self) eqn:Ha; cbn [negb orb].
  2:{ split; [done|]. left. split; [|done]. intros price (H & _). discriminate. }
  destruct (bool_decide (type event = TICK)) eqn:Ht; cbn [negb].
  2:{ split; [done|]. left. split; [|done]. intros price (_ & H & _).
      apply bool_decide_eq_false in Ht. contradiction. }
  apply bool_decide_eq_true in Ht.
  unfold MACrossover.is_symbol_relevant.
  destruct (bool_decide (ev_symbol event ∈ MACrossover.symbols self)) eqn:Hs;
    cbn [negb].
  2:{ split; [done|]. left. split; [|done]. intros price (_ & _ & H & _).
      apply bool_decide_eq_false in Hs. contradiction. }
  apply bool_decide_eq_true in Hs.
  destruct (MACrossover._extract_price (payload event)) as [price|] eqn:Hp.
  2:{ split; [done|]. left. split; [|done]. intros price (_ & _ & _ & H).
      discriminate. }
  set (st := MACrossover._update_price_history self (ev_symbol event) price
               (ev_timestamp event)).
  assert (Hgoal : forall st',
    MACrossover.price_history st' = MACrossover.price_history st ->
    MACrossover.long_period st' = MACrossover.long_period st ->
    MACrossover.long_period st' = MACrossover.long_period self /\
    ((forall price0, ~ (true = true /\ type event = TICK /\
        ev_symbol event ∈ MACrossover.symbols self /\ Some price = Some price0)) /\
     MACrossover.price_history st' = MACrossover.price_history self
     \/
     exists price0,
       (true = true /\ type event = TICK /\
        ev_symbol event ∈ MACrossover.symbols self /\ Some price = Some price0) /\
       MACrossover.price_history st' = MACrossover.price_history
         (MACrossover._update_price_history self (ev_symbol event) price0
            (ev_timestamp event)))).
  { intros st' Hh Hl. split; [by rewrite Hl|]. right. exists price. by repeat split. }
  destruct (MACrossover._calculate_moving_averages st _) as [[[short_ma long_ma]|]|e];
    try (by apply Hgoal).
  destruct (MACrossover._get_previous_moving_averages st _)
    as [[[prev_short_ma prev_long_ma]|]|e]; try (by apply Hgoal).
  pose proof (detect_crossover_keeps_history st env (ev_symbol event) price
                short_ma long_ma prev_short_ma prev_long_ma (ev_timestamp event))
    as [Hh Hl].
  destruct (MACrossover._detect_crossover _ _ _ _ _ _ _ _ _) as [[[sig|]|e] st'];
    cbn in Hh, Hl; by apply Hgoal.
Qed.

Lemma process_market_event_bounded
    (self : MACrossover.Strategy) (env : MACrossover.Env) (event : MarketEvent) :
  0 < MACrossover.long_period self + 10 ->
  MACrossover.histories_bounded self ->
  MACrossover.histories_bounded
    (MACrossover.process_market_event self env event).2.
Proof.
  intros Hpos Hb.
  destruct (process_market_event_history self env event) as [Hl [[_ Hh]|(price & _ & Hh)]];
    intros symbol; unfold MACrossover.history_len; rewrite Hl, Hh.
  - apply Hb.
  - apply (update_price_history_bounded self (ev_symbol event) price
             (ev_timestamp event) Hpos Hb symbol).
Qed.

Lemma process_all_bounded (events : list (MACrossover.Env * MarketEvent)) :
  forall self,
    0 < MACrossover.long_period self + 10 ->
    MACrossover.histories_bounded self ->
    MACrossover.histories_bounded (MACrossover.process_all self events) /\
    MACrossover.long_period (MACrossover.process_all self events)
      = MACrossover.long_period self.
Proof.
  induction events as [|[env event] events IH]; intros self Hpos Hb; [done|].
  change (MACrossover.process_all self ((env, event) :: events))
    with (MACrossover.process_all
            (MACrossover.process_market_event self env event).2 events).
  destruct (process_market_event_history self env event) as [Hl _].
  destruct (IH (MACrossover.process_market_event self env event).2) as [Hb' Hl'].
  - by rewrite Hl.
  - by apply process_market_event_bounded.
  - split; [exact Hb' | by rewrite Hl'].
Qed.

(** C8, as the specification has it, fails: with [long_period = -10] the
    bound is 0, [history[-0:]] is the whole list, and four ticks leave
    four entries. *)
Lemma price_history_grows_when_bound_is_zero :
  ~ MACrossover.history_bound_claim.
Proof.
  intros H.
  specialize (H ["SPY"] 20 (-10) (6 # 10)%Q (Scenario.rising_ticks 4) "SPY").
  vm_compute in H. by apply H.
Qed.

(** C8: for a moving-average crossover strategy whose bound
    [long_period + 10] is positive, after every sequence of market events
    and for every symbol the price history holds at most
    [long_period + 10] entries; a tick that is processed (strategy active,
    type TICK, symbol relevant, price found) appends one
    (price, timestamp) entry to the symbol's history and keeps the newest
    [long_period + 10] entries of the result. *)
Theorem price_history_bounded
    (symbols : list string) (short_period long_period : Z) (min_confidence : Q)
    (events : list (MACrossover.Env * MarketEvent)) (symbol : string) :
  0 < long_period + 10 ->
  let st :=
    MACrossover.process_all
      (MACrossover.new_Strategy symbols short_period long_period min_confidence)
      events in
  MACrossover.history_len st symbol <= long_period + 10 /\
  forall env event price,
    MACrossover.processed_with st event price ->
    let appended :=
      default [] (MACrossover.price_history st !! ev_symbol event)
        ++ [{| MACrossover.pd_price := price;
               MACrossover.pd_timestamp := ev_timestamp event |}] in
    MACrossover.price_history
      (MACrossover.process_market_event st env event).2 !! ev_symbol event
    = Some (drop (length appended - Z.to_nat (long_period + 10)) appended).
Proof.
  intros Hpos st.
  destruct (process_all_bounded events
              (MACrossover.new_Strategy symbols short_period long_period
                 min_confidence)) as [Hb Hl].
  { exact Hpos. }
  { intros sym. unfold MACrossover.history_len. cbn.
    rewrite lookup_empty. cbn. unfold Py.len. cbn. lia. }
  fold st in Hb, Hl. cbn in Hl.
  split.
  { specialize (Hb symbol). by rewrite Hl in Hb. }
  intros env event price Hproc appended.
  destruct (process_market_event_history st env event)
    as [_ [[Hno _]|(price' & Hproc' & Hh)]].
  { exfalso. exact (Hno price Hproc). }
  assert (price' = price) as ->.
  { destruct Hproc as (_ & _ & _ & H1), Hproc' as (_ & _ & _ & H2). congruence. }
  rewrite Hh, update_price_history_lookup by (by rewrite Hl).
  by rewrite Hl.
Qed.

Lemma price_history_bounded_witness :
  MACrossover.history_len
    (MACrossover.process_all Scenario.spy_strategy (Scenario.rising_ticks 25))
    "SPY" <= 20.
Proof.
  destruct (price_history_bounded ["SPY"] 5 10 (6 # 10)
              (Scenario.rising_ticks 25) "SPY") as [H _].
  - lia.
  - exact H.
Defined.

(** ** The scenarios, run on the embedding *)

(** Oversize rejection: $10,000 of equity, 100 shares at the $100
    placeholder. *)
Example scenario_oversize_rejected :
  Risk.rejection_reason_of
    (Risk.validate_signal Risk.new_RiskEngine Scenario.monday_10am
       (Scenario.signal_at "big" 0 100) Scenario.account [])
  = Some "max_position_size: Position size 100.0% exceeds maximum 5.0% of account equity".
Proof. vm_compute. reflexivity. Qed.

(** Market closed: three in the morning on a weekday. *)
Example scenario_market_closed :
  Risk.rejection_reason_of
    (Risk.validate_signal Risk.new_RiskEngine Scenario.monday_3am
       (Scenario.signal_at "s1" 0 1) Scenario.account [])
  = Some "market_hours: Market is closed (outside trading hours)".
Proof. vm_compute. reflexivity. Qed.

(** Duplicate rejection: the same signal again, ten seconds later. *)
Example scenario_duplicate_rejected :
  Risk.rejection_reason_of
    (Risk.validate_signal Scenario.after_first_approval Scenario.monday_10am
       (Scenario.signal_at "s2" (timedelta_seconds 10) 1) Scenario.account [])
  = Some "duplicate_signal: Duplicate signal for AAPL buy within 1 minutes".
Proof. vm_compute. reflexivity. Qed.

(** The same signal sixty seconds later is approved. *)
Example scenario_one_minute_later_approved :
  Risk.rejection_reason_of
    (Risk.validate_signal Scenario.after_first_approval Scenario.monday_10am
       (Scenario.signal_at "s2" (timedelta_seconds 60) 1) Scenario.account [])
  = None.
Proof. vm_compute. reflexivity. Qed.

(** The 1001st approved signal cuts the buffer to 500 entries, the new
    signal last. *)
Example scenario_buffer_truncated :
  let o := Risk.validate_signal Scenario.full_engine Scenario.monday_10am
             (Scenario.signal_at "s1" 0 1) Scenario.account [] in
  Risk.rejection_reason_of o = None /\
  length (Risk.recent_signals (Risk.engine o)) = 500%nat /\
  id <$> last (Risk.recent_signals (Risk.engine o)) = Some "s1".
Proof. vm_compute. repeat split. Qed.

(** A rule that raises: with no equity the size rule divides by zero, and
    the reason does not carry a rule name. *)
Example scenario_rule_raises :
  Risk.rejection_reason_of
    (Risk.validate_signal Risk.new_RiskEngine Scenario.monday_10am
       (Scenario.signal_at "s1" 0 1)
       {| equity := 0; buying_power := 0; cash := 0;
          day_trades_remaining := 0; acct_timestamp := 0 |} [])
  = Some "Risk validation error: [<class 'decimal.DivisionByZero'>]".
Proof. vm_compute. reflexivity. Qed.

(** Vendor statuses are matched without regard to case. *)
Example convert_upper_case :
  Alpaca._convert_order_status "FILLED" = FILLED /\
  Alpaca._convert_order_status "Pending_New" = PENDING /\
  Alpaca._convert_order_status "held" = PENDING.
Proof. vm_compute. repeat split. Qed.

(** A bullish crossover: after 10, 9, 8, 7 the tick at 12 lifts the short
    average (9.5) over the long one (9); the signal is a BUY of 100 shares
    with confidence 1. *)
Example scenario_bullish_crossover :
  let st := MACrossover.process_all Scenario.short_strategy
              Scenario.falling_ticks in
  let tick := Scenario.spy_tick 4 12 in
  match (MACrossover.process_market_event st tick.1 tick.2).1 with
  | Ok [signal] =>
      side signal = BUY /\ qty signal = 100 /\ Qeq_bool (confidence signal) 1 = true
  | _ => False
  end.
Proof. vm_compute. repeat split. Qed.

(** A steadily rising series never has the short average at or below the
    long one, so no crossover is detected. *)
Example scenario_rising_series_no_signal :
  let st := MACrossover.process_all Scenario.spy_strategy
              (Scenario.rising_ticks 12) in
  let tick := Scenario.spy_tick 12 112 in
  (MACrossover.process_market_event st tick.1 tick.2).1 = Ok [].
Proof. vm_compute. reflexivity. Qed.

(** * Further properties of the code *)

(** ** The risk engine: when a signal is approved *)

(** If every rule passes, the loop runs to its end. *)
Lemma run_rules_all_pass
    (signal : TradeSignal) (account : AccountSnapshot)
    (positions : list PositionSnapshot) (recent : list TradeSignal)
    (now : Risk.LocalTime) (todo : list Risk.RiskRule) :
  Forall (fun q => Risk.passes q signal account positions recent now) todo ->
  forall md ev,
    exists md',
      Risk.run_rules todo signal account positions recent now md ev
      = Risk.AllPassed md' (ev ++ map Risk.name todo).
Proof.
  intros Hall md ev.
  pose proof (run_rules_spec signal account positions recent now todo md ev) as H.
  destruct (Risk.run_rules _ _ _ _ _ _ _ _) as [md' ev'|r reason md' ev'|r e ev'].
  - destruct H as [_ ->]. by exists md'.
  - exfalso. destruct H as (pre & post & -> & _ & Hr & _).
    apply Forall_app in Hall as [_ Hall]. apply Forall_cons in Hall as [[w Hw] _].
    congruence.
  - exfalso. destruct H as (pre & post & -> & _ & Hr & _).
    apply Forall_app in Hall as [_ Hall]. apply Forall_cons in Hall as [[w Hw] _].
    congruence.
Qed.

(** A pass recorded under a key stays a pass to the end of the loop: only
    a later rule of the same name writes there, and it passed too. *)
Lemma run_rules_keeps_pass
    (signal : TradeSignal) (account : AccountSnapshot)
    (positions : list PositionSnapshot) (recent : list TradeSignal)
    (now : Risk.LocalTime) (todo : list Risk.RiskRule) :
  forall md ev md' ev' key v,
    Risk.run_rules todo signal account positions recent now md ev
    = Risk.AllPassed md' ev' ->
    md !! key = Some (RuleOutcome true v) ->
    exists w, md' !! key = Some (RuleOutcome true w).
Proof.
  induction todo as [|q qs IH]; intros md ev md' ev' key v Hrun Hk.
  - cbn in Hrun. injection Hrun as <- <-. eauto.
  - cbn [Risk.run_rules] in Hrun.
    destruct (Risk.validate q _ _ _ _ _) as [[|] w|e] eqn:Hc;
      cbn [negb] in Hrun; try discriminate.
    destruct (decide ("rule_" +:+ Risk.name q = key)) as [<-|Hne].
    + apply (IH _ _ _ _ _ w Hrun). apply lookup_insert_eq.
    + apply (IH _ _ _ _ _ v Hrun). by rewrite lookup_insert_ne.
Qed.

(** When the loop runs to its end, the metadata holds a pass for every
    rule it went through. *)
Lemma run_rules_metadata
    (signal : TradeSignal) (account : AccountSnapshot)
    (positions : list PositionSnapshot) (recent : list TradeSignal)
    (now : Risk.LocalTime) (todo : list Risk.RiskRule) :
  forall md ev md' ev',
    Risk.run_rules todo signal account positions recent now md ev
    = Risk.AllPassed md' ev' ->
    forall rule, rule ∈ todo ->
      exists why, md' !! ("rule_" +:+ Risk.name rule) = Some (RuleOutcome true why).
Proof.
  induction todo as [|r rest IH]; intros md ev md' ev' Hrun rule Hin.
  - by apply elem_of_nil in Hin.
  - cbn [Risk.run_rules] in Hrun.
    destruct (Risk.validate r _ _ _ _ _) as [[|] why|e] eqn:Hcall;
      cbn [negb] in Hrun; try discriminate.
    apply elem_of_cons in Hin as [->|Hin].
    + apply (run_rules_keeps_pass _ _ _ _ _ _ _ _ _ _ _ why Hrun).
      apply lookup_insert_eq.
    + exact (IH _ _ _ _ Hrun rule Hin).
Qed.

(** X1: on an active engine [validate_signal] approves exactly when every
    registered rule passes.  An approval called every rule, its metadata
    records a pass under "rule_{name}" for each of them, exactly one event
    is published, the SIGNAL_APPROVED event carrying the returned trade,
    and of the engine only the recent-signals buffer changes. *)
Theorem approval_iff_every_rule_passes
    (eng : Risk.RiskEngine) (env : Risk.Env) (signal : TradeSignal)
    (account : AccountSnapshot) (positions : list PositionSnapshot) :
  Risk.is_active eng = true ->
  let o := Risk.validate_signal eng env signal account positions in
  (Risk.approves o <->
   Forall (fun rule => Risk.passes rule signal account positions
                         (Risk.recent_signals eng) (Risk.now env))
          (Risk.rules eng)) /\
  forall approved,
    Risk.returned o = inl approved ->
    approved_signal approved = signal /\
    approved_at approved = Risk.utcnow env /\
    Risk.evaluated_rules o = Risk.list_rules eng /\
    (forall rule, rule ∈ Risk.rules eng ->
       exists why,
         approved_metadata approved !! ("rule_" +:+ Risk.name rule)
         = Some (RuleOutcome true why)) /\
    Risk.published o =
      [create_signal_approved_event (Risk.event_uuid4 env)
                                    (Risk.event_utcnow env) approved] /\
    Risk.rules (Risk.engine o) = Risk.rules eng /\
    Risk.is_active (Risk.engine o) = true /\
    Risk.max_recent_signals (Risk.engine o) = Risk.max_recent_signals eng.
Proof.
  intros Hact o. subst o. unfold Risk.approves, Risk.validate_signal, Risk.list_rules.
  rewrite Hact. cbn [negb].
  pose proof (run_rules_spec signal account positions (Risk.recent_signals eng)
                (Risk.now env) (Risk.rules eng) ∅ []) as Hspec.
  pose proof (run_rules_all_pass signal account positions
                (Risk.recent_signals eng) (Risk.now env) (Risk.rules eng)) as Hall.
  pose proof (run_rules_metadata signal account positions
                (Risk.recent_signals eng) (Risk.now env) (Risk.rules eng) ∅ [])
    as Hmd.
  destruct (Risk.run_rules _ _ _ _ _ _ _ _) as [md ev|r reason md ev|r e ev]
    eqn:Hrun;
    cbn [Risk.returned Risk.evaluated_rules Risk.published Risk.engine].
  - destruct Hspec as [Hpass ->]. split.
    + split; [intros _; exact Hpass | intros _; eauto].
    + intros approved [= <-]. cbn. repeat split; try done.
      intros rule Hin. exact (Hmd md _ eq_refl rule Hin).
  - split.
    + split; [intros [a Ha]; discriminate|].
      intros Hp. destruct (Hall Hp ∅ []) as [md' Hmd'].
      rewrite Hrun in Hmd'. discriminate.
    + intros approved [=].
  - split.
    + split; [intros [a Ha]; discriminate|].
      intros Hp. destruct (Hall Hp ∅ []) as [md' Hmd'].
      rewrite Hrun in Hmd'. discriminate.
    + intros approved [=].
Qed.

Lemma approval_iff_every_rule_passes_witness :
  Risk.approves
    (Risk.validate_signal Risk.new_RiskEngine Scenario.monday_10am
       (Scenario.signal_at "s1" 0 1) Scenario.account []).
Proof.
  apply (approval_iff_every_rule_passes Risk.new_RiskEngine Scenario.monday_10am
           (Scenario.signal_at "s1" 0 1) Scenario.account [] eq_refl).
  repeat constructor; exists None; vm_compute; reflexivity.
Defined.

(** X2: when the rules before [rule] pass and [rule] raises [e], the call
    returns a RejectedTrade with reason "Risk validation error: {e}" whose
    metadata is just the error text; the rules after it are not called,
    nothing is published and the engine is unchanged. *)
Theorem raising_rule_rejects_without_publishing
    (eng : Risk.RiskEngine) (env : Risk.Env) (signal : TradeSignal)
    (account : AccountSnapshot) (positions : list PositionSnapshot)
    (pre post : list Risk.RiskRule) (rule : Risk.RiskRule) (e : string) :
  Risk.is_active eng = true ->
  Risk.rules eng = pre ++ rule :: post ->
  Forall (fun q => Risk.passes q signal account positions
                     (Risk.recent_signals eng) (Risk.now env)) pre ->
  Risk.validate rule signal account positions (Risk.recent_signals eng)
                (Risk.now env) = Risk.Raised e ->
  let o := Risk.validate_signal eng env signal account positions in
  Risk.returned o =
    inr {| rejected_signal := signal;
           rejected_at := Risk.utcnow env;
           rejection_reason := "Risk validation error: " +:+ e;
           rejected_metadata := {[ "error" := ErrorText e ]} |} /\
  Risk.evaluated_rules o = map Risk.name (pre ++ [rule]) /\
  Risk.published o = [] /\
  Risk.engine o = eng.
Proof.
  intros Hact Hrules Hpre Hraise o. subst o.
  unfold Risk.validate_signal. rewrite Hact, Hrules. cbn [negb].
  assert (Hrun : forall md ev,
    Risk.run_rules (pre ++ rule :: post) signal account positions
      (Risk.recent_signals eng) (Risk.now env) md ev
    = Risk.RuleRaised rule e (ev ++ map Risk.name (pre ++ [rule]))).
  { clear Hrules. induction Hpre as [|q pre [w Hq] _ IH]; intros md ev.
    - cbn [app Risk.run_rules]. by rewrite Hraise.
    - cbn [app Risk.run_rules]. rewrite Hq. cbn [negb].
      rewrite IH. f_equal. cbn. by rewrite <- app_assoc. }
  rewrite Hrun. cbn. by repeat split.
Qed.

Lemma raising_rule_rejects_without_publishing_witness :
  Risk.rejection_reason_of
    (Risk.validate_signal Risk.new_RiskEngine Scenario.monday_10am
       (Scenario.signal_at "s1" 0 1)
       {| equity := 0; buying_power := 0; cash := 0;
          day_trades_remaining := 0; acct_timestamp := 0 |} [])
  = Some "Risk validation error: [<class 'decimal.DivisionByZero'>]".
Proof.
  destruct (raising_rule_rejects_without_publishing Risk.new_RiskEngine
              Scenario.monday_10am (Scenario.signal_at "s1" 0 1)
              {| equity := 0; buying_power := 0; cash := 0;
                 day_trades_remaining := 0; acct_timestamp := 0 |} []
              [] (tl (Risk.rules Risk.new_RiskEngine))
              (Risk.MaxPositionSizeRule (5 # 100))
              "[<class 'decimal.DivisionByZero'>]")
    as (Hret & _).
  - reflexivity.
  - reflexivity.
  - constructor.
  - reflexivity.
  - unfold Risk.rejection_reason_of. rewrite Hret. reflexivity.
Defined.

(** ** The default rules, one by one *)

Lemma market_hours_passes_iff
    (signal : TradeSignal) (account : AccountSnapshot)
    (positions : list PositionSnapshot) (recent : list TradeSignal)
    (now : Risk.LocalTime) :
  Risk.passes Risk.MarketHoursRule signal account positions recent now <->
  Risk.weekday now < 5 /\ 9 <= Risk.hour now < 16.
Proof.
  unfold Risk.passes, Risk.MarketHoursRule. cbn [Risk.validate].
  destruct (Risk.weekday now >=? 5) eqn:Ew.
  { rewrite Z.geb_leb in Ew. apply Z.leb_le in Ew.
    split; [intros [w Hw]; discriminate | lia]. }
  rewrite Z.geb_leb in Ew. apply Z.leb_gt in Ew.
  destruct (Risk.hour now <? 9) eqn:E9; cbn [orb].
  { apply Z.ltb_lt in E9. split; [intros [w Hw]; discriminate | lia]. }
  apply Z.ltb_ge in E9.
  destruct (Risk.hour now >=? 16) eqn:E16.
  { rewrite Z.geb_leb in E16. apply Z.leb_le in E16.
    split; [intros [w Hw]; discriminate | lia]. }
  rewrite Z.geb_leb in E16. apply Z.leb_gt in E16.
  split; [lia | intros _; by exists None].
Qed.

Lemma min_confidence_passes_iff
    (min_confidence : Q) (signal : TradeSignal) (account : AccountSnapshot)
    (positions : list PositionSnapshot) (recent : list TradeSignal)
    (now : Risk.LocalTime) :
  Risk.passes (Risk.MinConfidenceRule min_confidence) signal account positions
              recent now <->
  (min_confidence <= confidence signal)%Q.
Proof.
  unfold Risk.passes, Risk.MinConfidenceRule. cbn [Risk.validate].
  destruct (Py.Qltb (confidence signal) min_confidence) eqn:E.
  - apply Qltb_lt in E. split; [intros [w Hw]; discriminate | lra].
  - apply Qltb_ge in E. split; [done | intros _; by exists None].
Qed.

Lemma max_positions_passes_iff
    (max_positions : Z) (signal : TradeSignal) (account : AccountSnapshot)
    (positions : list PositionSnapshot) (recent : list TradeSignal)
    (now : Risk.LocalTime) :
  Risk.passes (Risk.MaxPositionsPerSymbolRule max_positions) signal account
              positions recent now <->
  Risk.open_positions (symbol signal) positions < max_positions.
Proof.
  unfold Risk.passes, Risk.MaxPositionsPerSymbolRule, Risk.open_positions.
  cbn [Risk.validate].
  destruct (_ >=? max_positions) eqn:E.
  - rewrite Z.geb_leb in E. apply Z.leb_le in E.
    split; [intros [w Hw]; discriminate | lia].
  - rewrite Z.geb_leb in E. apply Z.leb_gt in E.
    split; [done | intros _; by exists None].
Qed.

Lemma duplicate_in_window_iff
    (signal : TradeSignal) (cutoff : datetime) (recent : list TradeSignal) :
  Risk.duplicate_in_window signal cutoff recent = true <->
  Risk.has_duplicate signal cutoff recent.
Proof.
  split.
  - induction recent as [|x rest IH]; [discriminate|].
    cbn [Risk.duplicate_in_window].
    destruct (String.eqb (symbol x) (symbol signal)) eqn:Es; cbn [andb].
    2:{ intros H. destruct (IH H) as (y & Hy & Hrest).
        exists y. split; [by apply elem_of_cons; right | exact Hrest]. }
    destruct (bool_decide (side x = side signal)) eqn:Ed; cbn [andb].
    2:{ intros H. destruct (IH H) as (y & Hy & Hrest).
        exists y. split; [by apply elem_of_cons; right | exact Hrest]. }
    destruct (created_at x >? cutoff) eqn:Ec.
    2:{ intros H. destruct (IH H) as (y & Hy & Hrest).
        exists y. split; [by apply elem_of_cons; right | exact Hrest]. }
    intros _. exists x. split; [by apply elem_of_cons; left|].
    apply String.eqb_eq in Es. apply bool_decide_eq_true in Ed.
    rewrite Z.gtb_ltb in Ec. apply Z.ltb_lt in Ec. done.
  - intros (y & Hy & Hs & Hd & Hc).
    by apply (duplicate_in_window_found signal y).
Qed.

Lemma duplicate_passes_iff
    (minutes : Z) (signal : TradeSignal) (account : AccountSnapshot)
    (positions : list PositionSnapshot) (recent : list TradeSignal)
    (now : Risk.LocalTime) :
  Risk.passes (Risk.DuplicateSignalRule minutes) signal account positions
              recent now <->
  ~ Risk.has_duplicate signal (created_at signal - timedelta_minutes minutes)
                       recent.
Proof.
  unfold Risk.passes, Risk.DuplicateSignalRule. cbn [Risk.validate].
  destruct (Risk.duplicate_in_window _ _ _) eqn:E.
  - apply duplicate_in_window_iff in E.
    split; [intros [w Hw]; discriminate | contradiction].
  - split; [|intros _; by exists None].
    intros _ H. apply duplicate_in_window_iff in H. congruence.
Qed.

(** The three cases of the size rule, by the sign of the equity. *)
Lemma max_position_size_cases
    (max_position_pct : Q) (signal : TradeSignal) (account : AccountSnapshot)
    (positions : list PositionSnapshot) (recent : list TradeSignal)
    (now : Risk.LocalTime) :
  let call := Risk.validate (Risk.MaxPositionSizeRule max_position_pct)
                signal account positions recent now in
  ((equity account == 0)%Q ->
   call = Risk.Raised "[<class 'decimal.DivisionByZero'>]") /\
  ((0 < equity account)%Q ->
   (Risk.passes (Risk.MaxPositionSizeRule max_position_pct) signal account
                positions recent now <->
    (inject_Z (qty signal) * 100 <= max_position_pct * equity account)%Q)) /\
  ((equity account < 0)%Q ->
   (Risk.passes (Risk.MaxPositionSizeRule max_position_pct) signal account
                positions recent now <->
    (max_position_pct * equity account <= inject_Z (qty signal) * 100)%Q)).
Proof.
  intros call. subst call.
  unfold Risk.passes, Risk.MaxPositionSizeRule. cbn [Risk.validate].
  set (v := (inject_Z (qty signal) * inject_Z 100)%Q).
  assert (Hv : (v == inject_Z (qty signal) * 100)%Q) by reflexivity.
  split; [|split].
  - intros H0. apply Qeq_bool_iff in H0. by rewrite H0.
  - intros Hpos.
    rewrite (Qeq_bool_false_neq (equity account) 0) by lra.
    assert (Hdiv : (max_position_pct < v / equity account)%Q <->
                   (max_position_pct * equity account < v)%Q).
    { split; intros H.
      - apply (Qmult_lt_r _ _ (equity account) Hpos) in H.
        assert (Hx : (v / equity account * equity account == v)%Q)
          by (field; lra). lra.
      - apply (Qmult_lt_r _ _ (equity account) Hpos).
        assert (Hx : (v / equity account * equity account == v)%Q)
          by (field; lra). lra. }
    destruct (Py.Qltb max_position_pct (v / equity account)) eqn:E.
    + apply Qltb_lt in E. apply Hdiv in E.
      split; [intros [w Hw]; discriminate | lra].
    + apply Qltb_ge in E.
      split; [|intros _; by exists None].
      intros _. destruct (Qlt_le_dec (max_position_pct * equity account) v)
        as [Hlt|Hle]; [apply Hdiv in Hlt; lra | lra].
  - intros Hneg.
    rewrite (Qeq_bool_false_neq (equity account) 0) by lra.
    assert (Hdiv : (max_position_pct < v / equity account)%Q <->
                   (v < max_position_pct * equity account)%Q).
    { assert (Hx : (v / equity account * (- equity account) == - v)%Q)
        by (field; lra).
      assert (Hn : (0 < - equity account)%Q) by lra.
      split; intros H.
      - apply (Qmult_lt_r _ _ (- equity account) Hn) in H. lra.
      - apply (Qmult_lt_r _ _ (- equity account) Hn). lra. }
    destruct (Py.Qltb max_position_pct (v / equity account)) eqn:E.
    + apply Qltb_lt in E. apply Hdiv in E.
      split; [intros [w Hw]; discriminate | lra].
    + apply Qltb_ge in E.
      split; [|intros _; by exists None].
      intros _. destruct (Qlt_le_dec v (max_position_pct * equity account))
        as [Hlt|Hle]; [apply Hdiv in Hlt; lra | lra].
Qed.

(** X3: the acceptance condition of the default rule set.  On an active
    engine with the five default rules and an account of positive equity,
    a signal is approved exactly when: qty x $100 is at most 5% of the
    equity; fewer than 2 positions in its symbol have a non-zero quantity;
    its confidence is at least 0.6; no signal in the recent-signals buffer
    has its symbol and side and a created_at later than one minute before
    its own; and the local clock shows a weekday (Monday to Friday) and an
    hour from 9 to 15. *)
Theorem default_rules_acceptance
    (eng : Risk.RiskEngine) (env : Risk.Env) (signal : TradeSignal)
    (account : AccountSnapshot) (positions : list PositionSnapshot) :
  Risk.rules eng = Risk.rules Risk.new_RiskEngine ->
  Risk.is_active eng = true ->
  (0 < equity account)%Q ->
  Risk.approves (Risk.validate_signal eng env signal account positions) <->
  (inject_Z (qty signal) * 100 <= (5 # 100) * equity account)%Q /\
  Risk.open_positions (symbol signal) positions < 2 /\
  ((6 # 10) <= confidence signal)%Q /\
  ~ Risk.has_duplicate signal (created_at signal - timedelta_minutes 1)
                       (Risk.recent_signals eng) /\
  Risk.weekday (Risk.now env) < 5 /\
  9 <= Risk.hour (Risk.now env) < 16.
Proof.
  intros Hrules Hact Hpos.
  assert (Hiff :
    Risk.approves (Risk.validate_signal eng env signal account positions) <->
    Forall (fun rule => Risk.passes rule signal account positions
                          (Risk.recent_signals eng) (Risk.now env))
           (Risk.rules eng)).
  { pose proof (validate_signal_engine eng env signal account positions) as Hv.
    cbv zeta in Hv. unfold Risk.approves. split.
    - intros [a Ha]. rewrite Ha in Hv. apply Hv.
    - intros Hall. unfold Risk.validate_signal. rewrite Hact. cbn [negb].
      destruct (run_rules_all_pass signal account positions
                  (Risk.recent_signals eng) (Risk.now env) (Risk.rules eng)
                  Hall ∅ []) as [md ->].
      eauto. }
  rewrite Hiff, Hrules.
  change (Risk.rules Risk.new_RiskEngine) with
    [Risk.MaxPositionSizeRule (5 # 100); Risk.MaxPositionsPerSymbolRule 2;
     Risk.MinConfidenceRule (6 # 10); Risk.DuplicateSignalRule 1;
     Risk.MarketHoursRule].
  rewrite !Forall_cons, Forall_nil.
  destruct (max_position_size_cases (5 # 100) signal account positions
              (Risk.recent_signals eng) (Risk.now env)) as (_ & Hsize & _).
  rewrite (Hsize Hpos), max_positions_passes_iff, min_confidence_passes_iff,
    duplicate_passes_iff, market_hours_passes_iff.
  tauto.
Qed.

Lemma default_rules_acceptance_witness :
  Risk.approves
    (Risk.validate_signal Risk.new_RiskEngine Scenario.monday_10am
       (Scenario.signal_at "s1" 0 5) Scenario.account []).
Proof.
  apply (default_rules_acceptance Risk.new_RiskEngine Scenario.monday_10am
           (Scenario.signal_at "s1" 0 5) Scenario.account []).
  - reflexivity.
  - reflexivity.
  - vm_compute. reflexivity.
  - split; [vm_compute; discriminate|].
    split; [vm_compute; reflexivity|].
    split; [vm_compute; discriminate|].
    split.
    + intros (earlier & Hin & _). vm_compute in Hin. by apply elem_of_nil in Hin.
    + vm_compute. repeat split; discriminate.
Defined.

(** X4: the size rule at the edges of the equity.  With an equity of zero
    it raises (so the engine rejects with "Risk validation error: ..."
    whatever the quantity); with a negative equity it lets every positive
    quantity through when the limit is not negative; with a positive
    equity it passes exactly the quantities with
    qty x $100 <= max_position_pct x equity. *)
Theorem size_rule_by_equity
    (max_position_pct : Q) (signal : TradeSignal) (account : AccountSnapshot)
    (positions : list PositionSnapshot) (recent : list TradeSignal)
    (now : Risk.LocalTime) :
  ((equity account == 0)%Q ->
   Risk.validate (Risk.MaxPositionSizeRule max_position_pct) signal account
                 positions recent now
   = Risk.Raised "[<class 'decimal.DivisionByZero'>]") /\
  ((equity account < 0)%Q -> (0 <= max_position_pct)%Q -> 0 < qty signal ->
   Risk.passes (Risk.MaxPositionSizeRule max_position_pct) signal account
               positions recent now) /\
  ((0 < equity account)%Q ->
   (Risk.passes (Risk.MaxPositionSizeRule max_position_pct) signal account
                positions recent now <->
    (inject_Z (qty signal) * 100 <= max_position_pct * equity account)%Q)).
Proof.
  destruct (max_position_size_cases max_position_pct signal account positions
              recent now) as (Hzero & Hpos & Hneg).
  split; [exact Hzero|]. split; [|exact Hpos].
  intros He Hm Hq. apply (Hneg He).
  assert (Hqq : (0 < inject_Z (qty signal))%Q).
  { unfold Qlt. cbn. lia. }
  assert (H1 : (max_position_pct * equity account <= 0)%Q).
  { assert (H := Qmult_le_compat_r _ _ (- equity account) Hm ltac:(lra)). lra. }
  lra.
Qed.

Lemma size_rule_by_equity_witness :
  Risk.passes (Risk.MaxPositionSizeRule (5 # 100))
    (Scenario.signal_at "s1" 0 1000)
    {| equity := - (1 # 1); buying_power := 0; cash := 0;
       day_trades_remaining := 0; acct_timestamp := 0 |} [] []
    (Risk.now Scenario.monday_10am).
Proof.
  apply (proj1 (proj2
           (size_rule_by_equity (5 # 100) (Scenario.signal_at "s1" 0 1000)
              {| equity := - (1 # 1); buying_power := 0; cash := 0;
                 day_trades_remaining := 0; acct_timestamp := 0 |} [] []
              (Risk.now Scenario.monday_10am)))).
  - vm_compute. reflexivity.
  - vm_compute. discriminate.
  - vm_compute. reflexivity.
Defined.

(** ** Changing the rule list *)





(** ** The execution engine: one call of execute_approved_trade *)

(** X6: what [execute_approved_trade] does on an idle engine for each
    answer of the broker.  It calls [place_order] once, with the approved
    signal, and is idle again afterwards.  An order that comes back
    SUBMITTED is entered in [active_orders] under its order id (with the
    broker id and the signal's id, symbol, side and quantity), counted in
    orders_submitted, given a monitor task and stored in [order_history].
    An order that comes back with any other status (REJECTED, but also
    FILLED or PENDING) is counted in orders_rejected and stored in
    [order_history]; it is neither tracked nor monitored. *)
Theorem execute_by_broker_answer
    (self : Execution.ExecutionEngine)
    (place_order : TradeSignal -> result string OrderEvent)
    (env : Execution.Env) (approved_trade : ApprovedTrade)
    (order_event : OrderEvent) :
  Execution.status self = Execution.IDLE ->
  place_order (approved_signal approved_trade) = Ok order_event ->
  let after := Execution.execute_approved_trade self place_order env approved_trade in
  let signal := approved_signal approved_trade in
  after.2 = [signal] /\
  Execution.status after.1 = Execution.IDLE /\
  Execution.order_history after.1
    = <[ order_id order_event := order_event ]> (Execution.order_history self) /\
  (status order_event = SUBMITTED ->
   Execution.active_orders after.1 !! order_id order_event
     = Some {| Execution.ao_broker_order_id := broker_order_id order_event;
               Execution.ao_signal_id := id signal;
               Execution.ao_symbol := symbol signal;
               Execution.ao_side := side signal;
               Execution.ao_qty := qty signal;
               Execution.ao_submitted_at := timestamp order_event;
               Execution.ao_approved_trade := approved_trade |} /\
   Execution.orders_submitted (Execution.stats after.1)
     = Execution.orders_submitted (Execution.stats self) + 1 /\
   Execution.orders_rejected (Execution.stats after.1)
     = Execution.orders_rejected (Execution.stats self) /\
   Execution.monitors after.1 = Execution.monitors self ++ [order_event]) /\
  (status order_event <> SUBMITTED ->
   Execution.active_orders after.1 = Execution.active_orders self /\
   Execution.orders_rejected (Execution.stats after.1)
     = Execution.orders_rejected (Execution.stats self) + 1 /\
   Execution.orders_submitted (Execution.stats after.1)
     = Execution.orders_submitted (Execution.stats self) /\
   Execution.monitors after.1 = Execution.monitors self).
Proof.
  intros Hidle Hok after signal. subst after signal.
  unfold Execution.execute_approved_trade.
  rewrite Hidle. rewrite bool_decide_eq_true_2 by reflexivity. cbn [negb].
  rewrite Hok.
  destruct (bool_decide (status order_event = SUBMITTED)) eqn:E.
  - apply bool_decide_eq_true in E. cbn.
    split; [done|]. split; [done|]. split; [done|].
    split; [|intros H; contradiction].
    intros _. split; [apply lookup_insert_eq | done].
  - apply bool_decide_eq_false in E. cbn.
    split; [done|]. split; [done|]. split; [done|].
    split; [intros H; contradiction | done].
Qed.

Lemma execute_by_broker_answer_witness :
  let after :=
    Execution.execute_approved_trade Execution.new_ExecutionEngine
      Scenario.filling_broker Scenario.exec_clock Scenario.approved_s1 in
  Execution.active_orders after.1 = ∅ /\
  Execution.orders_rejected (Execution.stats after.1) = 1.
Proof.
  destruct (execute_by_broker_answer Execution.new_ExecutionEngine
              Scenario.filling_broker Scenario.exec_clock Scenario.approved_s1
              (Scenario.order_with "o1" FILLED) eq_refl eq_refl)
    as (_ & _ & _ & _ & H).
  destruct H as (Ha & Hr & _); [discriminate|].
  split; [exact Ha | exact Hr].
Defined.

(** An engine that is not idle ignores [execute_approved_trade]. *)
Lemma execute_when_not_idle
    (self : Execution.ExecutionEngine)
    (place_order : TradeSignal -> result string OrderEvent)
    (env : Execution.Env) (approved_trade : ApprovedTrade) :
  Execution.status self <> Execution.IDLE ->
  Execution.execute_approved_trade self place_order env approved_trade
  = (self, []).
Proof.
  intros Hbusy. unfold Execution.execute_approved_trade.
  by rewrite bool_decide_eq_false_2.
Qed.

(** X7: an engine whose [initialize] did not get a [True] from
    [broker.connect()] (it answered [False] or raised) is left in status
    ERROR and reports [False]; from then on every call of
    [execute_approved_trade] returns without calling the broker and
    without changing the engine, however many are made. *)
Theorem failed_initialize_blocks_execution
    (self : Execution.ExecutionEngine) (connect : result string bool)
    (trades : list ((TradeSignal -> result string OrderEvent)
                    * Execution.Env * ApprovedTrade)) :
  connect <> Ok true ->
  let failed := (Execution.initialize self connect).1 in
  let ops := map (fun t => Execution.OpExecute t.1.1 t.1.2 t.2) trades in
  (Execution.initialize self connect).2 = false /\
  Execution.status failed = Execution.ERROR /\
  Execution.run_ops failed ops = failed /\
  Execution.broker_calls failed ops = 0.
Proof.
  intros Hconn failed ops.
  assert (Hst : Execution.status failed = Execution.ERROR /\
                (Execution.initialize self connect).2 = false).
  { subst failed. unfold Execution.initialize.
    destruct connect as [[|]|e]; [congruence|done|done]. }
  destruct Hst as [Hst Hret]. split; [exact Hret|]. split; [exact Hst|].
  subst ops. clearbody failed.
  induction trades as [|[[po env] at_] rest IH]; [done|].
  cbn [map Execution.run_ops fold_left Execution.broker_calls Execution.apply_op].
  rewrite execute_when_not_idle by (rewrite Hst; discriminate).
  cbn [fst snd]. destruct IH as [IH1 IH2]. split.
  - exact IH1.
  - rewrite IH2. reflexivity.
Qed.

Lemma failed_initialize_blocks_execution_witness :
  let failed := (Execution.initialize Execution.new_ExecutionEngine (Ok false)).1 in
  Execution.broker_calls failed
    [Execution.OpExecute Scenario.filling_broker Scenario.exec_clock
       Scenario.approved_s1] = 0.
Proof.
  apply (failed_initialize_blocks_execution Execution.new_ExecutionEngine
           (Ok false)
           [(Scenario.filling_broker, Scenario.exec_clock, Scenario.approved_s1)]).
  discriminate.
Defined.

(** ** The execution engine: cancellations and monitors *)

Lemma find_order_id_Some
    (active : gmap string Execution.ActiveOrder) (broker_id : option string)
    (order_id : string) :
  Execution.find_order_id active broker_id = Some order_id ->
  exists info,
    active !! order_id = Some info /\
    Execution.ao_broker_order_id info = broker_id.
Proof.
  unfold Execution.find_order_id.
  destruct (List.find _ _) as [[oid info]|] eqn:E; [|discriminate].
  intros [= <-]. apply find_some in E as [Hin Hb].
  exists info. split.
  - apply elem_of_map_to_list. by apply list_elem_of_In.
  - by apply bool_decide_eq_true in Hb.
Qed.

Lemma find_order_id_None
    (active : gmap string Execution.ActiveOrder) (broker_id : option string) :
  Execution.find_order_id active broker_id = None ->
  forall order_id info,
    active !! order_id = Some info ->
    Execution.ao_broker_order_id info <> broker_id.
Proof.
  unfold Execution.find_order_id.
  destruct (List.find _ _) as [[oid info]|] eqn:E; [discriminate|].
  intros _ order_id info Hlook Heq.
  pose proof (find_none _ _ E (order_id, info)) as Hn.
  cbn in Hn. rewrite bool_decide_eq_true_2 in Hn by exact Heq.
  assert (true = false); [|discriminate].
  apply Hn. apply list_elem_of_In. by apply elem_of_map_to_list.
Qed.

(** [untrack_if_found] removes the order found, unless nothing was found
    or its key is the empty string. *)
Lemma untrack_if_found_cases
    (self : Execution.ExecutionEngine) (found : option string) :
  let after := Execution.untrack_if_found self found in
  Execution.status after = Execution.status self /\
  Execution.order_history after = Execution.order_history self /\
  Execution.monitors after = Execution.monitors self /\
  Execution.stats after = Execution.stats self /\
  ((Execution.active_orders after = Execution.active_orders self /\
    (found = None \/ found = Some "")) \/
   exists order_id,
     found = Some order_id /\ order_id <> "" /\
     Execution.active_orders after
       = delete order_id (Execution.active_orders self)).
Proof.
  unfold Execution.untrack_if_found.
  destruct found as [order_id|].
  2:{ do 4 (split; [reflexivity|]). left. split; [done | by left]. }
  destruct (String.eqb order_id "") eqn:E.
  - apply String.eqb_eq in E as ->.
    do 4 (split; [reflexivity|]). left. split; [done | by right].
  - apply String.eqb_neq in E.
    do 4 (split; [reflexivity|]). right. by exists order_id.
Qed.

Lemma untrack_if_found_subseteq
    (self : Execution.ExecutionEngine) (found : option string) :
  Execution.active_orders (Execution.untrack_if_found self found)
    ⊆ Execution.active_orders self.
Proof.
  destruct (untrack_if_found_cases self found)
    as (_ & _ & _ & _ & [[-> _]|(oid & _ & _ & ->)]).
  - done.
  - apply delete_subseteq.
Qed.

Lemma handle_order_fill_settles
    (self : Execution.ExecutionEngine) (order_event : OrderEvent) :
  Execution.settles self (Execution._handle_order_fill self order_event).
Proof.
  unfold Execution._handle_order_fill.
  destruct (bool_decide (status order_event = FILLED)).
  - pose proof (untrack_if_found_cases (Execution.incr_orders_filled self)
       (Execution.find_order_id
          (Execution.active_orders (Execution.incr_orders_filled self))
          (broker_order_id order_event))) as (H1 & H2 & H3 & H4 & _).
    pose proof (untrack_if_found_subseteq (Execution.incr_orders_filled self)
       (Execution.find_order_id
          (Execution.active_orders (Execution.incr_orders_filled self))
          (broker_order_id order_event))) as Hsub.
    unfold Execution.settles. rewrite H1, H2, H3, H4. cbn in *.
    repeat split; try done; lia.
  - unfold Execution.settles. cbn. repeat split; try done; lia.
Qed.

Lemma handle_order_cancellation_settles
    (self : Execution.ExecutionEngine) (order_event : OrderEvent) :
  Execution.settles self (Execution._handle_order_cancellation self order_event).
Proof.
  unfold Execution._handle_order_cancellation.
  pose proof (untrack_if_found_cases self
     (Execution.find_order_id (Execution.active_orders self)
        (broker_order_id order_event))) as (H1 & H2 & H3 & H4 & _).
  pose proof (untrack_if_found_subseteq self
     (Execution.find_order_id (Execution.active_orders self)
        (broker_order_id order_event))) as Hsub.
  destruct (bool_decide (status order_event = CANCELLED));
    unfold Execution.settles; cbn; rewrite ?H1, ?H2, ?H3, ?H4;
    repeat split; try done; lia.
Qed.

Lemma settles_refl (self : Execution.ExecutionEngine) :
  Execution.settles self self.
Proof. unfold Execution.settles. repeat split; try done; lia. Qed.

Lemma monitor_order_settles
    (self : Execution.ExecutionEngine)
    (get_order_status : string -> Z -> result string OrderEvent)
    (initial_order_event : OrderEvent) :
  Execution.settles self
    (Execution._monitor_order self get_order_status initial_order_event).1.
Proof.
  unfold Execution._monitor_order.
  destruct (broker_order_id initial_order_event) as [b|]; [|apply settles_refl].
  destruct (String.eqb b ""); [apply settles_refl|].
  destruct (Execution.poll_loop _ _ _); cbn [fst];
    auto using settles_refl, handle_order_fill_settles,
               handle_order_cancellation_settles.
Qed.

Lemma cancel_order_settles
    (self : Execution.ExecutionEngine)
    (broker_cancel : option string -> result string OrderEvent)
    (order_id : string) :
  Execution.settles self
    (Execution.cancel_order self broker_cancel order_id).1.1.
Proof.
  unfold Execution.cancel_order.
  destruct (Execution.active_orders self !! order_id); [|apply settles_refl].
  destruct (broker_cancel _) as [ev|e]; [|apply settles_refl].
  destruct (bool_decide _); [|apply settles_refl].
  unfold Execution.settles. cbn.
  repeat split; try done; try lia. apply delete_subseteq.
Qed.

Lemma settles_consistent
    (before after : Execution.ExecutionEngine) (calls : Z) :
  Execution.settles before after ->
  Execution.consistent before calls -> Execution.consistent after calls.
Proof.
  intros (Hs & Hh & _ & Ha & Hsub & Hf & Hc & Hr)
         (Is & Ih & Isz & Ic1 & Ic2 & If & Ica & Ir).
  unfold Execution.consistent.
  split; [congruence|]. split.
  { intros oid [info Hinfo]. rewrite Hh. apply Ih.
    exists info. by eapply lookup_weaken. }
  split.
  { apply map_subseteq_size in Ha. lia. }
  repeat split; lia.
Qed.

Lemma execute_consistent
    (self : Execution.ExecutionEngine)
    (place_order : TradeSignal -> result string OrderEvent)
    (env : Execution.Env) (approved_trade : ApprovedTrade) (calls : Z) :
  Execution.consistent self calls ->
  let after := Execution.execute_approved_trade self place_order env approved_trade in
  after.2 = [approved_signal approved_trade] /\
  Execution.consistent after.1 (calls + 1).
Proof.
  intros (Is & Ih & Isz & Ic1 & Ic2 & If & Ica & Ir) after. subst after.
  unfold Execution.execute_approved_trade.
  rewrite Is. rewrite bool_decide_eq_true_2 by reflexivity. cbn [negb].
  destruct (place_order _) as [ev|e].
  - destruct (bool_decide (status ev = SUBMITTED)); cbn.
    + split; [done|]. unfold Execution.consistent. cbn.
      split; [done|]. split.
      { intros oid Hsome.
        destruct (decide (order_id ev = oid)) as [<-|Hne].
        - rewrite lookup_insert_eq. eauto.
        - rewrite lookup_insert_ne in Hsome by done.
          rewrite lookup_insert_ne by done. by apply Ih. }
      split.
      { rewrite map_size_insert.
        destruct (Execution.active_orders self !! order_id ev); cbn; lia. }
      repeat split; lia.
    + split; [done|]. unfold Execution.consistent. cbn.
      split; [done|]. split.
      { intros oid Hsome.
        destruct (decide (order_id ev = oid)) as [<-|Hne].
        - rewrite lookup_insert_eq. eauto.
        - rewrite lookup_insert_ne by done. by apply Ih. }
      repeat split; lia.
  - cbn. split; [done|]. unfold Execution.consistent. cbn.
    repeat split; try done; lia.
Qed.

Lemma run_ops_consistent (ops : list Execution.Op) :
  forall self calls,
    Execution.consistent self calls ->
    Execution.consistent (Execution.run_ops self ops)
                         (calls + Execution.broker_calls self ops).
Proof.
  induction ops as [|op ops IH]; intros self calls Hc.
  - cbn. by rewrite Z.add_0_r.
  - cbn [Execution.run_ops fold_left Execution.broker_calls].
    fold (Execution.run_ops (Execution.apply_op self op) ops).
    rewrite Z.add_assoc. apply IH.
    destruct op as [po env at_|bc oid|gs init]; cbn [Execution.apply_op].
    + destruct (execute_consistent self po env at_ calls Hc) as [-> H].
      exact H.
    + rewrite Z.add_0_r.
      eapply settles_consistent; [apply cancel_order_settles | exact Hc].
    + rewrite Z.add_0_r.
      eapply settles_consistent; [apply monitor_order_settles | exact Hc].
Qed.

(** X8: the bookkeeping of a fresh execution engine.  After any sequence
    of [execute_approved_trade], [cancel_order] and monitor runs, whatever
    the broker answers: the engine is IDLE; every order in [active_orders]
    has an entry in [order_history]; [active_orders] holds at most
    orders_submitted orders; and the number of [place_order] calls made
    lies between orders_submitted and orders_submitted + orders_rejected.
    The counters are never negative. *)
Theorem execution_bookkeeping (ops : list Execution.Op) :
  Execution.consistent (Execution.run_ops Execution.new_ExecutionEngine ops)
                       (Execution.broker_calls Execution.new_ExecutionEngine ops).
Proof.
  apply (run_ops_consistent ops Execution.new_ExecutionEngine 0).
  unfold Execution.consistent. cbn.
  split; [done|]. split.
  { intros oid [x Hx]. by rewrite lookup_empty in Hx. }
  rewrite map_size_empty. repeat split; lia.
Qed.

Lemma execution_bookkeeping_witness :
  Execution.status Scenario.one_active_order = Execution.IDLE /\
  Z.of_nat (size (Execution.active_orders Scenario.one_active_order)) <= 1.
Proof.
  destruct (execution_bookkeeping
              [Execution.OpExecute Scenario.accepting_broker Scenario.exec_clock
                 Scenario.approved_s1]) as (Hs & _ & Hsz & _).
  split; [exact Hs | exact Hsz].
Defined.

(** X9: [cancel_order] of the execution engine.  For an order id that is
    not in [active_orders] it returns False without calling the broker.
    For a tracked order it calls the broker once, with the order's broker
    id; if the answer is a CANCELLED event the order leaves
    [active_orders], orders_cancelled goes up by one and the call returns
    True, and cancelling the same id again returns False without reaching
    the broker; if the broker raises or answers with another status the
    call returns False and the engine is unchanged. *)
Theorem cancel_order_outcomes
    (self : Execution.ExecutionEngine)
    (broker_cancel : option string -> result string OrderEvent)
    (order_id : string) :
  let r := Execution.cancel_order self broker_cancel order_id in
  (Execution.active_orders self !! order_id = None -> r = (self, false, [])) /\
  forall info,
    Execution.active_orders self !! order_id = Some info ->
    r.2 = [Execution.ao_broker_order_id info] /\
    ((exists ev, broker_cancel (Execution.ao_broker_order_id info) = Ok ev /\
                 status ev = CANCELLED) ->
     r.1.2 = true /\
     Execution.active_orders r.1.1
       = delete order_id (Execution.active_orders self) /\
     Execution.orders_cancelled (Execution.stats r.1.1)
       = Execution.orders_cancelled (Execution.stats self) + 1 /\
     Execution.order_history r.1.1 = Execution.order_history self /\
     forall again,
       Execution.cancel_order r.1.1 again order_id = (r.1.1, false, [])) /\
    (~ (exists ev, broker_cancel (Execution.ao_broker_order_id info) = Ok ev /\
                   status ev = CANCELLED) ->
     r.1 = (self, false)).
Proof.
  intros r. subst r. unfold Execution.cancel_order. split.
  { by intros ->. }
  intros info ->.
  destruct (broker_cancel (Execution.ao_broker_order_id info)) as [ev|e] eqn:Hb.
  - destruct (bool_decide (status ev = CANCELLED)) eqn:E.
    + apply bool_decide_eq_true in E. cbn.
      split; [done|]. split.
      * intros _. repeat split. intros again. by rewrite lookup_delete_eq.
      * intros Hn. exfalso. apply Hn. eauto.
    + apply bool_decide_eq_false in E. cbn.
      split; [done|]. split; [|done].
      intros (ev' & [= <-] & Hc). contradiction.
  - cbn. split; [done|]. split; [|done].
    intros (ev' & [=] & _).
Qed.

Lemma cancel_order_outcomes_witness :
  Execution.cancel_order Execution.new_ExecutionEngine
    (fun _ => Raise "unreachable") "o1"
  = (Execution.new_ExecutionEngine, false, []).
Proof.
  apply (cancel_order_outcomes Execution.new_ExecutionEngine
           (fun _ => Raise "unreachable") "o1").
  reflexivity.
Defined.

(** The loop goes on while the answers are not decisive. *)
Lemma poll_loop_step
    (polls : Z -> result string OrderEvent) (fuel : nat) (c : Z) :
  c < Execution.max_checks ->
  Execution.poll_loop polls (S fuel) c =
    if Execution.decisive (polls (c + 1))
    then Execution.exit_at (c + 1) (polls (c + 1))
    else Execution.poll_loop polls fuel (c + 1).
Proof.
  intros Hc. cbn [Execution.poll_loop].
  assert ((c <? Execution.max_checks) = true) as -> by (by apply Z.ltb_lt).
  unfold Execution.decisive, Execution.exit_at.
  destruct (polls (c + 1)) as [ev|e]; [|reflexivity].
  destruct (status ev); reflexivity.
Qed.

Lemma poll_loop_spec (polls : Z -> result string OrderEvent) (fuel : nat) :
  forall c,
    0 <= c <= Execution.max_checks ->
    (Z.to_nat (Execution.max_checks - c) < fuel)%nat ->
    (forall k,
       c < k <= Execution.max_checks ->
       (forall j, c < j < k -> Execution.decisive (polls j) = false) ->
       Execution.decisive (polls k) = true ->
       Execution.poll_loop polls fuel c = Execution.exit_at k (polls k)) /\
    ((forall j, c < j <= Execution.max_checks ->
                Execution.decisive (polls j) = false) ->
     Execution.poll_loop polls fuel c = Execution.GaveUp Execution.max_checks).
Proof.
  induction fuel as [|fuel IH]; intros c Hc Hfuel; [lia|].
  destruct (decide (c = Execution.max_checks)) as [->|Hne].
  { split; [intros k Hk; lia|]. intros _. cbn [Execution.poll_loop].
    by rewrite Z.ltb_irrefl. }
  assert (Hlt : c < Execution.max_checks) by lia.
  rewrite (poll_loop_step polls fuel c Hlt).
  destruct (IH (c + 1)) as [IHk IHnone]; [lia | lia |].
  split.
  - intros k Hk Hbefore Hdec.
    destruct (decide (k = c + 1)) as [->|Hk'].
    + by rewrite Hdec.
    + rewrite (Hbefore (c + 1)) by lia.
      apply IHk; [lia| |exact Hdec]. intros j Hj. apply Hbefore. lia.
  - intros Hnone. rewrite (Hnone (c + 1)) by lia.
    apply IHnone. intros j Hj. apply Hnone. lia.
Qed.

Lemma poll_loop_bounded (polls : Z -> result string OrderEvent) (fuel : nat) :
  forall c,
    0 <= c <= Execution.max_checks ->
    (Z.to_nat (Execution.max_checks - c) < fuel)%nat ->
    Execution.poll_loop polls fuel c <> Execution.OutOfFuel /\
    c <= Execution.polls_made (Execution.poll_loop polls fuel c)
      <= Execution.max_checks.
Proof.
  induction fuel as [|fuel IH]; intros c Hc Hfuel; [lia|].
  destruct (decide (c = Execution.max_checks)) as [->|Hne].
  { cbn [Execution.poll_loop]. rewrite Z.ltb_irrefl. cbn. split; [done | lia]. }
  assert (Hlt : c < Execution.max_checks) by lia.
  rewrite (poll_loop_step polls fuel c Hlt).
  destruct (Execution.decisive (polls (c + 1))).
  - unfold Execution.exit_at. destruct (polls (c + 1)) as [ev|e].
    + destruct (bool_decide _); cbn; split; [done | lia | done | lia].
    + cbn. split; [done | lia].
  - destruct (IH (c + 1)) as [H1 H2]; [lia | lia |]. split; [exact H1 | lia].
Qed.

(** X10: the polling loop of [_monitor_order] ends at the first poll that
    raises or reports FILLED, PARTIALLY_FILLED, CANCELLED or REJECTED, and
    whatever the broker answers it makes at most 300 polls: if none of the
    first 300 answers is decisive it gives up after exactly 300.  A status
    of SUBMITTED or PENDING keeps it polling. *)
Theorem monitor_stops_at_first_decisive_poll
    (polls : Z -> result string OrderEvent) :
  let exit := Execution.poll_loop polls (S (Z.to_nat Execution.max_checks)) 0 in
  (forall k,
     1 <= k <= 300 ->
     (forall j, 1 <= j < k -> Execution.decisive (polls j) = false) ->
     Execution.decisive (polls k) = true ->
     exit = Execution.exit_at k (polls k)) /\
  ((forall j, 1 <= j <= 300 -> Execution.decisive (polls j) = false) ->
   exit = Execution.GaveUp 300) /\
  exit <> Execution.OutOfFuel /\
  0 <= Execution.polls_made exit <= 300.
Proof.
  intros exit. subst exit.
  destruct (poll_loop_spec polls (S (Z.to_nat Execution.max_checks)) 0)
    as [Hk Hnone]; [unfold Execution.max_checks; lia | lia |].
  destruct (poll_loop_bounded polls (S (Z.to_nat Execution.max_checks)) 0)
    as [Hfuel Hb]; [unfold Execution.max_checks; lia | lia |].
  unfold Execution.max_checks in *.
  split.
  { intros k Hk1 Hbefore Hdec. apply Hk; [lia| |exact Hdec].
    intros j Hj. apply Hbefore. lia. }
  split.
  { intros H. apply Hnone. intros j Hj. apply H. lia. }
  split; [exact Hfuel | exact Hb].
Qed.

Lemma monitor_stops_at_first_decisive_poll_witness :
  Execution.poll_loop
    (fun n => Ok (Scenario.order_with "o1" (if n <? 3 then SUBMITTED else FILLED)))
    (S (Z.to_nat Execution.max_checks)) 0
  = Execution.SawFill 3 (Scenario.order_with "o1" FILLED).
Proof.
  destruct (monitor_stops_at_first_decisive_poll
              (fun n => Ok (Scenario.order_with "o1"
                              (if n <? 3 then SUBMITTED else FILLED))))
    as [H _].
  apply (H 3).
  - lia.
  - intros j Hj.
    assert ((j <? 3) = true) as Hlt by (apply Z.ltb_lt; lia).
    cbn beta. rewrite Hlt. reflexivity.
  - reflexivity.
Defined.

Lemma find_only_order
    (active : gmap string Execution.ActiveOrder) (broker_id : option string)
    (order_id : string) :
  Execution.only_order_with active broker_id order_id ->
  Execution.find_order_id active broker_id = Some order_id.
Proof.
  intros [(info & Hinfo & Hb) Huniq].
  destruct (Execution.find_order_id active broker_id) as [found|] eqn:E.
  - apply find_order_id_Some in E as (info' & Hinfo' & Hb').
    f_equal. by apply (Huniq found info').
  - exfalso. exact (find_order_id_None _ _ E _ _ Hinfo Hb).
Qed.

Lemma find_no_order
    (active : gmap string Execution.ActiveOrder) (broker_id : option string) :
  (forall order_id info,
     active !! order_id = Some info ->
     Execution.ao_broker_order_id info <> broker_id) ->
  Execution.find_order_id active broker_id = None.
Proof.
  intros Hnone.
  destruct (Execution.find_order_id active broker_id) as [found|] eqn:E;
    [|reflexivity].
  apply find_order_id_Some in E as (info & Hinfo & Hb).
  exfalso. exact (Hnone _ _ Hinfo Hb).
Qed.

(** X11: what a monitor leaves on the engine when no terminal status is
    seen.  An order event without a broker order id (None or the empty
    string) is not monitored at all.  A poll that reports
    PARTIALLY_FILLED ends the monitor: orders_filled goes up by one and
    [active_orders] is left as it was, so the order stays tracked with no
    monitor.  When the loop gives up after 300 polls, or a poll raises,
    the engine is unchanged.  The number of polls is that of the loop. *)
Theorem monitor_without_terminal_status
    (self : Execution.ExecutionEngine)
    (get_order_status : string -> Z -> result string OrderEvent)
    (initial : OrderEvent) :
  let r := Execution._monitor_order self get_order_status initial in
  (broker_order_id initial = None \/ broker_order_id initial = Some "" ->
   r = (self, 0)) /\
  forall b,
    broker_order_id initial = Some b -> b <> "" ->
    let exit := Execution.poll_loop (get_order_status b)
                  (S (Z.to_nat Execution.max_checks)) 0 in
    r.2 = Execution.polls_made exit /\
    (forall n ev,
       exit = Execution.SawFill n ev -> status ev = PARTIALLY_FILLED ->
       r.1 = Execution.incr_orders_filled self /\
       Execution.active_orders r.1 = Execution.active_orders self) /\
    (forall n, exit = Execution.GaveUp n -> r.1 = self) /\
    (forall n e, exit = Execution.PollRaised n e -> r.1 = self).
Proof.
  intros r. subst r. unfold Execution._monitor_order. split.
  { intros [->| ->]; reflexivity. }
  intros b Hinit Hb. cbv zeta. rewrite Hinit.
  apply String.eqb_neq in Hb. rewrite Hb.
  destruct (poll_loop_bounded (get_order_status b)
              (S (Z.to_nat Execution.max_checks)) 0) as [Hfuel _];
    [unfold Execution.max_checks; lia | lia |].
  destruct (Execution.poll_loop _ _ _) as [n|n e|n ev|n ev|]; cbn [fst snd];
    try (split; [reflexivity|]).
  - split; [intros ? ? [=]|]. split; [done | intros ? ? [=]].
  - split; [intros ? ? [=]|]. split; [intros ? [=] | done].
  - split.
    + intros n' ev' [= <- <-] Hp. unfold Execution._handle_order_fill.
      rewrite bool_decide_eq_false_2 by (rewrite Hp; discriminate). done.
    + split; [intros ? [=] | intros ? ? [=]].
  - split; [intros ? ? [=]|]. split; [intros ? [=] | intros ? ? [=]].
  - contradiction.
Qed.

Lemma monitor_without_terminal_status_witness :
  let r := Execution._monitor_order Scenario.one_active_order
             (Scenario.status_after_two PARTIALLY_FILLED)
             (Scenario.order_with "o1" SUBMITTED) in
  r.2 = 3 /\
  Execution.active_orders r.1 = Execution.active_orders Scenario.one_active_order.
Proof.
  destruct (monitor_without_terminal_status Scenario.one_active_order
              (Scenario.status_after_two PARTIALLY_FILLED)
              (Scenario.order_with "o1" SUBMITTED)) as [_ H].
  destruct (H "b1" eq_refl ltac:(discriminate)) as (Hn & Hp & _).
  split.
  - cbv zeta. rewrite Hn. vm_compute. reflexivity.
  - apply (Hp 3 (Scenario.order_with "poll" PARTIALLY_FILLED)).
    + vm_compute. reflexivity.
    + reflexivity.
Defined.

(** X12: what a monitor does on a terminal status.  When the deciding
    poll reports FILLED, CANCELLED or REJECTED and exactly one order in
    [active_orders] has the broker order id of the reported event (its key
    not being the empty string), that order is removed from
    [active_orders] and the matching counter goes up by one: orders_filled
    for FILLED, orders_cancelled for CANCELLED, orders_rejected for
    REJECTED.  When no tracked order has that broker id, [active_orders]
    is unchanged, and the counter still goes up. *)
Theorem monitor_on_terminal_status
    (self : Execution.ExecutionEngine)
    (get_order_status : string -> Z -> result string OrderEvent)
    (initial : OrderEvent) (b : string) (n : Z) (ev : OrderEvent) :
  broker_order_id initial = Some b -> b <> "" ->
  status ev ∈ [FILLED; CANCELLED; REJECTED] ->
  Execution.poll_loop (get_order_status b)
    (S (Z.to_nat Execution.max_checks)) 0
  = Execution.exit_at n (Ok ev) ->
  let after := (Execution._monitor_order self get_order_status initial).1 in
  (forall order_id,
     order_id <> "" ->
     Execution.only_order_with (Execution.active_orders self)
                               (broker_order_id ev) order_id ->
     Execution.active_orders after
       = delete order_id (Execution.active_orders self)) /\
  ((forall order_id info,
      Execution.active_orders self !! order_id = Some info ->
      Execution.ao_broker_order_id info <> broker_order_id ev) ->
   Execution.active_orders after = Execution.active_orders self) /\
  Execution.orders_filled (Execution.stats after)
    = Execution.orders_filled (Execution.stats self)
      + (if bool_decide (status ev = FILLED) then 1 else 0) /\
  Execution.orders_cancelled (Execution.stats after)
    = Execution.orders_cancelled (Execution.stats self)
      + (if bool_decide (status ev = CANCELLED) then 1 else 0) /\
  Execution.orders_rejected (Execution.stats after)
    = Execution.orders_rejected (Execution.stats self)
      + (if bool_decide (status ev = REJECTED) then 1 else 0) /\
  Execution.order_history after = Execution.order_history self.
Proof.
  intros Hinit Hb Hst Hexit after. subst after.
  unfold Execution._monitor_order. rewrite Hinit.
  apply String.eqb_neq in Hb. rewrite Hb, Hexit.
  assert (Hfound : forall eng order_id,
    Execution.active_orders eng = Execution.active_orders self ->
    order_id <> "" ->
    Execution.only_order_with (Execution.active_orders self)
                              (broker_order_id ev) order_id ->
    Execution.active_orders
      (Execution.untrack_if_found eng
         (Execution.find_order_id (Execution.active_orders eng)
                                  (broker_order_id ev)))
    = delete order_id (Execution.active_orders self)).
  { intros eng oid Heq Hne Honly. rewrite Heq, (find_only_order _ _ _ Honly).
    unfold Execution.untrack_if_found.
    apply String.eqb_neq in Hne. rewrite Hne. cbn. by rewrite Heq. }
  assert (Hnone : forall eng,
    Execution.active_orders eng = Execution.active_orders self ->
    (forall order_id info,
       Execution.active_orders self !! order_id = Some info ->
       Execution.ao_broker_order_id info <> broker_order_id ev) ->
    Execution.untrack_if_found eng
      (Execution.find_order_id (Execution.active_orders eng)
                               (broker_order_id ev)) = eng).
  { intros eng Heq Hno. by rewrite Heq, (find_no_order _ _ Hno). }
  assert (Hstats : forall eng found,
    Execution.stats (Execution.untrack_if_found eng found) = Execution.stats eng /\
    Execution.order_history (Execution.untrack_if_found eng found)
      = Execution.order_history eng).
  { intros eng found.
    destruct (untrack_if_found_cases eng found) as (_ & H2 & _ & H4 & _). done. }
  unfold Execution.exit_at.
  rewrite !elem_of_cons in Hst.
  destruct Hst as [Hs|[Hs|[Hs|Hs]]]; [| | |by apply elem_of_nil in Hs];
    rewrite Hs; cbn [bool_decide decide_rel fst].
  - (* FILLED *)
    rewrite bool_decide_eq_true_2 by (apply elem_of_cons; by left).
    cbn [fst]. unfold Execution._handle_order_fill.
    rewrite Hs. rewrite bool_decide_eq_true_2 by reflexivity.
    destruct (Hstats (Execution.incr_orders_filled self)
                (Execution.find_order_id
                   (Execution.active_orders (Execution.incr_orders_filled self))
                   (broker_order_id ev))) as [Hs1 Hs2].
    split; [intros oid Hne Honly; by apply Hfound|].
    split; [intros Hno; by rewrite Hnone|].
    rewrite Hs1, Hs2. cbn.
    rewrite !bool_decide_eq_false_2 by discriminate. repeat split; lia.
  - (* CANCELLED *)
    rewrite bool_decide_eq_false_2
      by (rewrite !elem_of_cons, elem_of_nil; intros [?|[?|?]]; done).
    cbn [fst]. unfold Execution._handle_order_cancellation.
    rewrite Hs. rewrite bool_decide_eq_true_2 by reflexivity.
    destruct (Hstats self
                (Execution.find_order_id (Execution.active_orders self)
                   (broker_order_id ev))) as [Hs1 Hs2].
    split; [intros oid Hne Honly; cbn; by apply Hfound|].
    split; [intros Hno; cbn; by rewrite Hnone|].
    cbn. rewrite Hs1, Hs2.
    rewrite !bool_decide_eq_false_2 by discriminate. repeat split; lia.
  - (* REJECTED *)
    rewrite bool_decide_eq_false_2
      by (rewrite !elem_of_cons, elem_of_nil; intros [?|[?|?]]; done).
    cbn [fst]. unfold Execution._handle_order_cancellation.
    rewrite Hs. rewrite bool_decide_eq_false_2 by discriminate.
    destruct (Hstats self
                (Execution.find_order_id (Execution.active_orders self)
                   (broker_order_id ev))) as [Hs1 Hs2].
    split; [intros oid Hne Honly; cbn; by apply Hfound|].
    split; [intros Hno; cbn; by rewrite Hnone|].
    cbn. rewrite Hs1, Hs2.
    rewrite !bool_decide_eq_false_2 by discriminate.
    rewrite bool_decide_eq_true_2 by reflexivity. repeat split; lia.
Qed.

Lemma monitor_on_terminal_status_witness :
  Execution.active_orders
    (Execution._monitor_order Scenario.one_active_order
       (Scenario.status_after_two FILLED)
       (Scenario.order_with "o1" SUBMITTED)).1
  = delete "o1" (Execution.active_orders Scenario.one_active_order).
Proof.
  destruct (monitor_on_terminal_status Scenario.one_active_order
              (Scenario.status_after_two FILLED)
              (Scenario.order_with "o1" SUBMITTED) "b1" 3
              (Scenario.order_with "poll" FILLED)) as [H _].
  - reflexivity.
  - discriminate.
  - by_decision.
  - vm_compute. reflexivity.
  - apply (H "o1"); [discriminate|].
    split.
    + eexists. split; [vm_compute; reflexivity | reflexivity].
    + intros other info Hlook _.
      destruct (decide (other = "o1")) as [->|Hne]; [reflexivity|].
      exfalso.
      assert (Hone : exists only,
        Execution.active_orders Scenario.one_active_order
        = <[ "o1" := only ]> ∅) by (eexists; reflexivity).
      destruct Hone as [only Hone]. rewrite Hone in Hlook.
      rewrite lookup_insert_ne, lookup_empty in Hlook by done. discriminate.
Defined.

(** ** The Alpaca adapter (adapters/brokers/alpaca.py) *)

(** What an idle engine keeps of an order the broker returned. *)
Lemma execute_returned_order
    (self : Execution.ExecutionEngine)
    (place_order : TradeSignal -> result string OrderEvent)
    (env : Execution.Env) (approved_trade : ApprovedTrade)
    (order_event : OrderEvent) :
  Execution.status self = Execution.IDLE ->
  place_order (approved_signal approved_trade) = Ok order_event ->
  let after := (Execution.execute_approved_trade self place_order env
                  approved_trade).1 in
  Execution.order_history after
    = <[ order_id order_event := order_event ]> (Execution.order_history self) /\
  (status order_event = SUBMITTED ->
   Execution.active_orders after
     = Execution.active_orders
         (Execution._track_order self order_event approved_trade)) /\
  (status order_event <> SUBMITTED ->
   Execution.active_orders after = Execution.active_orders self).
Proof.
  intros Hidle Hok after. subst after.
  unfold Execution.execute_approved_trade.
  rewrite Hidle. rewrite bool_decide_eq_true_2 by reflexivity. cbn [negb].
  rewrite Hok.
  destruct (bool_decide (status order_event = SUBMITTED)) eqn:E.
  - apply bool_decide_eq_true in E. by repeat split.
  - apply bool_decide_eq_false in E. by repeat split.
Qed.

(** X13: the Alpaca adapter behind the execution engine.  While the
    adapter is connected, [place_order] never raises: an idle engine
    stores the event it returns in [order_history] under the event's
    order id, SUBMITTED with the vendor's order id (and the order is then
    tracked) when the SDK accepted the order, REJECTED with the SDK's
    error text as rejection_reason (and nothing tracked) when the SDK
    raised.  Only when the adapter is not connected does the call raise,
    and then the engine counts a rejection and records nothing. *)
Theorem alpaca_order_recorded_when_connected
    (self : Execution.ExecutionEngine) (connected : bool)
    (submit_order : gmap string PyVal -> result string Alpaca.VendorOrder)
    (uuid4 : string) (utcnow : datetime)
    (env : Execution.Env) (approved_trade : ApprovedTrade) :
  Execution.status self = Execution.IDLE ->
  let signal := approved_signal approved_trade in
  let after :=
    Execution.execute_approved_trade self
      (Alpaca.broker_place_order connected submit_order uuid4 utcnow)
      env approved_trade in
  (connected = true ->
   exists ev,
     Execution.order_history after.1 !! uuid4 = Some ev /\
     order_id ev = uuid4 /\ signal_id ev = id signal /\
     ((exists order,
         submit_order (Alpaca.order_request signal) = Ok order /\
         status ev = SUBMITTED /\
         broker_order_id ev = Some (Alpaca.vo_id order) /\
         is_Some (Execution.active_orders after.1 !! uuid4)) \/
      (exists e,
         submit_order (Alpaca.order_request signal) = Raise e /\
         status ev = REJECTED /\
         order_rejection_reason ev = Some e /\
         Execution.active_orders after.1 = Execution.active_orders self))) /\
  (connected = false ->
   Execution.order_history after.1 = Execution.order_history self /\
   Execution.active_orders after.1 = Execution.active_orders self /\
   Execution.orders_rejected (Execution.stats after.1)
     = Execution.orders_rejected (Execution.stats self) + 1).
Proof.
  intros Hidle signal after. subst signal after. split.
  - intros ->.
    destruct (submit_order (Alpaca.order_request (approved_signal approved_trade)))
      as [order|e] eqn:Hs.
    + destruct (execute_returned_order self
                  (Alpaca.broker_place_order true submit_order uuid4 utcnow)
                  env approved_trade
                  {| order_id := uuid4;
                     signal_id := id (approved_signal approved_trade);
                     status := SUBMITTED; timestamp := utcnow;
                     broker_order_id := Some (Alpaca.vo_id order);
                     filled_qty := 0; filled_price := None;
                     order_rejection_reason := None;
                     order_metadata := {[ "alpaca_order" := Alpaca.vo_raw order ]} |}
                  Hidle) as (Hh & Ha & _).
      { unfold Alpaca.broker_place_order, Alpaca.place_order. cbn [negb].
        by rewrite Hs. }
      eexists. split; [rewrite Hh; apply lookup_insert_eq|].
      cbn [order_id signal_id status broker_order_id].
      split; [done|]. split; [done|]. left. exists order.
      repeat split. rewrite (Ha eq_refl).
      unfold Execution._track_order. cbn [Execution.active_orders order_id].
      rewrite lookup_insert_eq. eauto.
    + destruct (execute_returned_order self
                  (Alpaca.broker_place_order true submit_order uuid4 utcnow)
                  env approved_trade
                  {| order_id := uuid4;
                     signal_id := id (approved_signal approved_trade);
                     status := REJECTED; timestamp := utcnow;
                     broker_order_id := None;
                     filled_qty := 0; filled_price := None;
                     order_rejection_reason := Some e;
                     order_metadata := {[ "error" := e ]} |}
                  Hidle) as (Hh & _ & Ha).
      { unfold Alpaca.broker_place_order, Alpaca.place_order. cbn [negb].
        by rewrite Hs. }
      eexists. split; [rewrite Hh; apply lookup_insert_eq|].
      cbn [order_id signal_id status order_rejection_reason].
      split; [done|]. split; [done|]. right. exists e.
      repeat split. apply Ha. discriminate.
  - intros ->. unfold Execution.execute_approved_trade.
    rewrite Hidle. rewrite bool_decide_eq_true_2 by reflexivity. cbn [negb].
    unfold Alpaca.broker_place_order, Alpaca.place_order. cbn. by repeat split.
Qed.

Lemma alpaca_order_recorded_when_connected_witness :
  exists ev,
    Execution.order_history
      (Execution.execute_approved_trade Execution.new_ExecutionEngine
         (Alpaca.broker_place_order true Scenario.accepting_sdk "o9" 0)
         Scenario.exec_clock Scenario.approved_s1).1 !! "o9" = Some ev /\
    order_id ev = "o9".
Proof.
  destruct (alpaca_order_recorded_when_connected Execution.new_ExecutionEngine
              true Scenario.accepting_sdk "o9" 0 Scenario.exec_clock
              Scenario.approved_s1 eq_refl) as [H _].
  destruct (H eq_refl) as (ev & Hev & Hid & _).
  exists ev. split; [exact Hev | exact Hid].
Defined.

(** X14: the order request [place_order] sends.  It always carries the
    symbol, quantity, side, type and time_in_force 'day'.  A limit_price
    is attached exactly for LIMIT and STOP_LIMIT signals that have a
    non-zero price, a stop_price exactly for STOP and STOP_LIMIT signals
    that have a non-zero stop price; so a MARKET order never carries
    either, and a stop price of zero is not sent. *)
Theorem order_request_entries (signal : TradeSignal) :
  let request := Alpaca.order_request signal in
  request !! "symbol" = Some (VStr (symbol signal)) /\
  request !! "qty" = Some (VInt (qty signal)) /\
  request !! "side" = Some (VStr (side_value (side signal))) /\
  request !! "type" = Some (VStr (Alpaca._convert_order_type (order_type signal))) /\
  request !! "time_in_force" = Some (VStr "day") /\
  (forall p,
     request !! "limit_price" = Some (VFloat p) <->
     (order_type signal = LIMIT \/ order_type signal = STOP_LIMIT) /\
     price signal = Some p /\ Qeq_bool p 0 = false) /\
  (forall p,
     request !! "stop_price" = Some (VFloat p) <->
     (order_type signal = STOP \/ order_type signal = STOP_LIMIT) /\
     stop_price signal = Some p /\ Qeq_bool p 0 = false) /\
  (forall v, request !! "limit_price" = Some v -> exists p, v = VFloat p) /\
  (forall v, request !! "stop_price" = Some v -> exists p, v = VFloat p).
Proof.
  intros request. subst request. unfold Alpaca.order_request, Alpaca.truthy.
  destruct (order_type signal) eqn:Ht;
    destruct (price signal) as [p|] eqn:Hp;
    destruct (stop_price signal) as [sp|] eqn:Hsp;
    try destruct (Qeq_bool p 0) eqn:Ep;
    try destruct (Qeq_bool sp 0) eqn:Esp;
    cbn [bool_decide decide_rel negb andb default from_option];
    rewrite ?bool_decide_eq_true_2
      by (rewrite !elem_of_cons; auto);
    rewrite ?bool_decide_eq_false_2
      by (rewrite !elem_of_cons, elem_of_nil; intros [?|[?|?]]; done);
    cbn [negb andb];
    (split; [by simplify_map_eq|]);
    (split; [by simplify_map_eq|]);
    (split; [by simplify_map_eq|]);
    (split; [by simplify_map_eq|]);
    (split; [by simplify_map_eq|]);
    (split; [intros q; simplify_map_eq; split;
             [intros H; try discriminate; injection H as <-; naive_solver
             |intros ([?|?] & ? & ?); simplify_eq; congruence]|]);
    (split; [intros q; simplify_map_eq; split;
             [intros H; try discriminate; injection H as <-; naive_solver
             |intros ([?|?] & ? & ?); simplify_eq; congruence]|]);
    split; intros v; simplify_map_eq; intros H; simplify_eq; eauto.
Qed.

Lemma order_request_entries_witness :
  Alpaca.order_request Scenario.limit_signal !! "limit_price"
    = Some (VFloat (150 # 1)) /\
  Alpaca.order_request Scenario.limit_signal !! "stop_price" = None.
Proof.
  destruct (order_request_entries Scenario.limit_signal)
    as (_ & _ & _ & _ & _ & Hl & _ & _ & Hs).
  split.
  - apply Hl. split; [by right|]. split; reflexivity.
  - vm_compute. reflexivity.
Defined.

(** ** The crossover strategy: prices, confidence and size *)

(** X16: how [_extract_price] reads a payload.  The first of the keys
    'price', 'close', 'last', 'mid' that is present gives the price,
    whatever its value and whatever else the payload holds.  Without any
    of them, a payload with both 'bid' and 'ask' gives their midpoint when
    both are positive and nothing otherwise; a payload that lacks 'bid' or
    'ask' gives nothing. *)
Theorem extract_price_cases (payload : gmap string Q) :
  let found := MACrossover._extract_price payload in
  (forall v, payload !! "price" = Some v -> found = Some v) /\
  (payload !! "price" = None ->
   (forall v, payload !! "close" = Some v -> found = Some v) /\
   (payload !! "close" = None ->
    (forall v, payload !! "last" = Some v -> found = Some v) /\
    (payload !! "last" = None ->
     (forall v, payload !! "mid" = Some v -> found = Some v) /\
     (payload !! "mid" = None ->
      (forall bid ask,
         payload !! "bid" = Some bid -> payload !! "ask" = Some ask ->
         ((0 < bid)%Q /\ (0 < ask)%Q -> found = Some ((bid + ask) / 2)%Q) /\
         (~ ((0 < bid)%Q /\ (0 < ask)%Q) -> found = None)) /\
      (payload !! "bid" = None \/ payload !! "ask" = None -> found = None))))).
Proof.
  intros found. subst found.
  unfold MACrossover._extract_price. cbn [MACrossover.first_present].
  split; [by intros v ->|]. intros ->.
  split; [by intros v ->|]. intros ->.
  split; [by intros v ->|]. intros ->.
  split; [by intros v ->|]. intros ->.
  split.
  - intros bid ask -> ->. split.
    + intros [Hb Ha]. apply Qltb_lt in Hb, Ha. by rewrite Hb, Ha.
    + intros Hn. destruct (Py.Qltb 0 bid) eqn:Eb; [|done].
      destruct (Py.Qltb 0 ask) eqn:Ea; [|done].
      apply Qltb_lt in Eb, Ea. exfalso. by apply Hn.
  - intros [-> | Ha]; [done|].
    rewrite Ha. by destruct (payload !! "bid").
Qed.

Lemma extract_price_cases_witness :
  MACrossover._extract_price
    (<[ "price" := 101%Q ]> (<[ "bid" := 99%Q ]> {[ "ask" := 100%Q ]}))
  = Some 101%Q.
Proof.
  destruct (extract_price_cases
              (<[ "price" := 101%Q ]> (<[ "bid" := 99%Q ]> {[ "ask" := 100%Q ]})))
    as [H _].
  apply H. vm_compute. reflexivity.
Defined.

Lemma py_min_le_r (a b : Q) : (Py.min a b <= b)%Q.
Proof.
  unfold Py.min. destruct (Py.Qltb b a) eqn:E; [lra|].
  apply Qltb_ge in E. exact E.
Qed.

Lemma py_min_nonneg (a b : Q) : (0 <= a)%Q -> (0 <= b)%Q -> (0 <= Py.min a b)%Q.
Proof. intros Ha Hb. unfold Py.min. by destruct (Py.Qltb b a). Qed.

Lemma py_min_nonneg_ge (a b c : Q) :
  (c <= a)%Q -> (c <= b)%Q -> (c <= Py.min a b)%Q.
Proof. intros Ha Hb. unfold Py.min. by destruct (Py.Qltb b a). Qed.

Lemma Qdiv_nonneg (a b : Q) : (0 <= a)%Q -> (0 < b)%Q -> (0 <= a / b)%Q.
Proof.
  intros Ha Hb. apply Qle_shift_div_l; [exact Hb|]. lra.
Qed.

(** With a positive long average both factors are between zero and their
    caps. *)
Lemma spec_confidence_bounds (bullish : bool) (price short_ma long_ma : Q) :
  (MACrossover.spec_confidence bullish price short_ma long_ma <= 1)%Q /\
  ((0 < long_ma)%Q ->
   ((1 # 2) <= MACrossover.spec_confidence bullish price short_ma long_ma)%Q).
Proof.
  unfold MACrossover.spec_confidence. split; [apply py_min_le_r|].
  intros Hpos.
  assert (Hgap : (0 <= Py.min (Qabs (short_ma - long_ma) / long_ma * 10) (3 # 10))%Q).
  { apply py_min_nonneg; [|lra].
    pose proof (Qdiv_nonneg _ _ (Qabs_nonneg (short_ma - long_ma)) Hpos). lra. }
  assert (Hpf : (0 <= MACrossover.spec_price_factor bullish price long_ma)%Q).
  { unfold MACrossover.spec_price_factor. destruct bullish.
    - destruct (Py.Qltb long_ma price) eqn:E; [|lra].
      apply Qltb_lt in E. apply py_min_nonneg; [|lra].
      assert (H : (0 <= (price - long_ma) / long_ma)%Q)
        by (apply Qdiv_nonneg; lra). lra.
    - destruct (Py.Qltb price long_ma) eqn:E; [|lra].
      apply Qltb_lt in E. apply py_min_nonneg; [|lra].
      assert (H : (0 <= (long_ma - price) / long_ma)%Q)
        by (apply Qdiv_nonneg; lra). lra. }
  apply py_min_nonneg_ge; lra.
Qed.

(** X17: the confidence of a crossover never exceeds 1, and with a
    positive long average it is at least 0.5: the base, plus two factors
    that lie between zero and their caps 0.3 and 0.2. *)
Theorem signal_confidence_range
    (price short_ma long_ma : Q) (crossover_type : string) :
  ~ (long_ma == 0)%Q ->
  exists c,
    MACrossover._calculate_signal_confidence price short_ma long_ma
                                             crossover_type = Ok c /\
    (c <= 1)%Q /\
    ((0 < long_ma)%Q -> ((1 # 2) <= c)%Q).
Proof.
  intros Hlong. eexists.
  split; [apply (calculate_signal_confidence_eq _ _ _ _ Hlong)|].
  apply spec_confidence_bounds.
Qed.

Lemma signal_confidence_range_witness :
  exists c,
    MACrossover._calculate_signal_confidence 101 (1005 # 10) 100 "bearish" = Ok c /\
    (c <= 1)%Q.
Proof.
  destruct (signal_confidence_range 101 (1005 # 10) 100 "bearish")
    as (c & Hc & Hle & _).
  - vm_compute. discriminate.
  - exists c. split; [exact Hc | exact Hle].
Defined.

Lemma int_of_bounds (x : Q) (a b : Z) :
  0 <= a -> (inject_Z a <= x)%Q -> (x <= inject_Z b)%Q ->
  a <= MACrossover.int_of x <= b.
Proof.
  intros Ha Hlo Hhi. unfold MACrossover.int_of.
  destruct x as [n d]. unfold Qle in *. cbn in *.
  assert (Hn : 0 <= n) by nia.
  rewrite Z.quot_div_nonneg by lia.
  split.
  - apply Z.div_le_lower_bound; lia.
  - apply Z.div_le_upper_bound; lia.
Qed.

(** The size of a position for a confidence between 0 and 1. *)
Lemma position_size_range (confidence : Q) :
  (0 <= confidence)%Q -> (confidence <= 1)%Q ->
  50 <= MACrossover._calculate_position_size confidence <= 100.
Proof.
  intros H0 H1. unfold MACrossover._calculate_position_size.
  assert (H : 50 <= MACrossover.int_of
                      (inject_Z 100 * ((5 # 10) + confidence * (5 # 10)))%Q <= 100).
  { apply int_of_bounds; [lia| |].
    - change (inject_Z 50) with (50%Q). change (inject_Z 100) with (100%Q). lra.
    - change (inject_Z 100) with (100%Q). lra. }
  lia.
Qed.

(** What [emit_signal] returns when it returns a signal. *)
Lemma emit_signal_fields
    (self : MACrossover.Strategy) (env : MACrossover.Env) (symbol : string)
    (sd : Side) (price short_ma long_ma : Q) (crossover_type : string)
    (sig : TradeSignal) :
  MACrossover.emit_signal self env symbol sd price short_ma long_ma crossover_type
    = Ok (Some sig) ->
  exists c,
    MACrossover._calculate_signal_confidence price short_ma long_ma crossover_type
      = Ok c /\
    (MACrossover.min_confidence self <= c)%Q /\ (0 <= c)%Q /\ (c <= 1)%Q /\
    sig = {| id := MACrossover.uuid4 env;
             symbol := Py.upper symbol;
             side := sd;
             qty := MACrossover._calculate_position_size c;
             order_type := MARKET;
             confidence := c;
             source := STRATEGY;
             created_at := MACrossover.utcnow env;
             strategy_name := Some (MACrossover.name self);
             price := None;
             stop_price := None;
             metadata :=
               <[ "short_ma" := VFloat short_ma ]>
               (<[ "long_ma" := VFloat long_ma ]>
                (<[ "price" := VFloat price ]>
                 {[ "crossover_type" := VStr crossover_type ]})) |}.
Proof.
  unfold MACrossover.emit_signal.
  destruct (MACrossover._calculate_signal_confidence _ _ _ _) as [c|e];
    [|discriminate].
  destruct (Py.Qleb (MACrossover.min_confidence self) c) eqn:Emin; [|discriminate].
  apply Qleb_le in Emin.
  unfold create_trade_signal, new_TradeSignal.
  pose proof (post_init_raises_iff c (MACrossover._calculate_position_size c)
                None) as Hpost.
  destruct (__post_init__ _ _ _) as [[]|e] eqn:Hinit; [|discriminate].
  intros [= <-]. exists c. split; [reflexivity|]. split; [exact Emin|].
  assert (Hn : ~ Py.raises (Ok tt : result string unit)) by (intros [e He]; discriminate).
  rewrite Hpost in Hn.
  split; [|split; [|reflexivity]].
  - destruct (Qlt_le_dec c 0) as [H|H]; [|exact H]. exfalso. apply Hn. by left.
  - destruct (Qlt_le_dec 1 c) as [H|H]; [|exact H]. exfalso. apply Hn. right. by left.
Qed.

(** What [_detect_crossover] did when it returns a signal, and what it
    leaves on the strategy otherwise. *)
Lemma detect_crossover_cases
    (self : MACrossover.Strategy) (env : MACrossover.Env) (symbol : string)
    (price short_ma long_ma prev_short_ma prev_long_ma : Q)
    (timestamp : datetime) :
  let r := MACrossover._detect_crossover self env symbol price short_ma long_ma
             prev_short_ma prev_long_ma timestamp in
  ((forall sig, r.1 <> Ok (Some sig)) /\ r.2 = self) \/
  exists sig sd ct,
    r.1 = Ok (Some sig) /\
    r.2 = MACrossover.set_last_signal_time self
            (<[ symbol := timestamp ]> (MACrossover.last_signal_time self)) /\
    (forall t, MACrossover.last_signal_time self !! symbol = Some t ->
               timedelta_minutes 5 <= timestamp - t) /\
    MACrossover.emit_signal self env symbol sd price short_ma long_ma ct
      = Ok (Some sig) /\
    ((sd = BUY /\ ct = "bullish" /\ (prev_short_ma <= prev_long_ma)%Q /\
      (long_ma < short_ma)%Q) \/
     (sd = SELL /\ ct = "bearish" /\ (prev_long_ma <= prev_short_ma)%Q /\
      (short_ma < long_ma)%Q)).
Proof.
  unfold MACrossover._detect_crossover.
  destruct (MACrossover.last_signal_time self !! symbol) as [t|] eqn:Hlast.
  - destruct (timestamp - t <? timedelta_minutes 5) eqn:Ecool.
    { left. by split. }
    apply Z.ltb_ge in Ecool.
    destruct (Py.Qleb prev_short_ma prev_long_ma && Py.Qltb long_ma short_ma) eqn:Eb.
    + apply andb_true_iff in Eb as [E1 E2]. apply Qleb_le in E1. apply Qltb_lt in E2.
      destruct (MACrossover.emit_signal _ _ _ BUY _ _ _ _) as [[sig|]|e] eqn:Ee.
      * right. exists sig, BUY, "bullish". repeat split; try done.
        -- intros t' [= <-]. exact Ecool.
        -- left. by repeat split.
      * left. by split.
      * left. by split.
    + destruct (Py.Qleb prev_long_ma prev_short_ma && Py.Qltb short_ma long_ma) eqn:Es.
      * apply andb_true_iff in Es as [E1 E2]. apply Qleb_le in E1. apply Qltb_lt in E2.
        destruct (MACrossover.emit_signal _ _ _ SELL _ _ _ _) as [[sig|]|e] eqn:Ee.
        -- right. exists sig, SELL, "bearish". repeat split; try done.
           ++ intros t' [= <-]. exact Ecool.
           ++ right. by repeat split.
        -- left. by split.
        -- left. by split.
      * left. by split.
  - destruct (Py.Qleb prev_short_ma prev_long_ma && Py.Qltb long_ma short_ma) eqn:Eb.
    + apply andb_true_iff in Eb as [E1 E2]. apply Qleb_le in E1. apply Qltb_lt in E2.
      destruct (MACrossover.emit_signal _ _ _ BUY _ _ _ _) as [[sig|]|e] eqn:Ee.
      * right. exists sig, BUY, "bullish". repeat split; try done.
        left. by repeat split.
      * left. by split.
      * left. by split.
    + destruct (Py.Qleb prev_long_ma prev_short_ma && Py.Qltb short_ma long_ma) eqn:Es.
      * apply andb_true_iff in Es as [E1 E2]. apply Qleb_le in E1. apply Qltb_lt in E2.
        destruct (MACrossover.emit_signal _ _ _ SELL _ _ _ _) as [[sig|]|e] eqn:Ee.
        -- right. exists sig, SELL, "bearish". repeat split; try done.
           right. by repeat split.
        -- left. by split.
        -- left. by split.
      * left. by split.
Qed.

(** [process_market_event] either returns no signal and leaves the time of
    the last signal alone, or returns the one signal [_detect_crossover]
    found on the updated history. *)
Lemma process_market_event_cases
    (self : MACrossover.Strategy) (env : MACrossover.Env) (event : MarketEvent) :
  let r := MACrossover.process_market_event self env event in
  ((r.1 = Ok [] \/ exists e, r.1 = Raise e) /\
   MACrossover.last_signal_time r.2 = MACrossover.last_signal_time self) \/
  exists price short_ma long_ma prev_short_ma prev_long_ma sig,
    MACrossover.processed_with self event price /\
    let updated := MACrossover._update_price_history self (ev_symbol event)
                     price (ev_timestamp event) in
    MACrossover._detect_crossover updated env (ev_symbol event) price
      short_ma long_ma prev_short_ma prev_long_ma (ev_timestamp event)
    = (Ok (Some sig), r.2) /\
    r.1 = Ok [sig].
Proof.
  unfold MACrossover.process_market_event.
  destruct (MACrossover.is_active self) eqn:Ha; cbn [negb orb];
    [|left; split; [by left | done]].
  destruct (bool_decide (type event = TICK)) eqn:Ht; cbn [negb];
    [|left; split; [by left | done]].
  apply bool_decide_eq_true in Ht.
  unfold MACrossover.is_symbol_relevant.
  destruct (bool_decide (ev_symbol event ∈ MACrossover.symbols self)) eqn:Hs;
    cbn [negb]; [|left; split; [by left | done]].
  apply bool_decide_eq_true in Hs.
  destruct (MACrossover._extract_price (payload event)) as [price|] eqn:Hp;
    [|left; split; [by left | done]].
  set (st := MACrossover._update_price_history self (ev_symbol event) price
               (ev_timestamp event)).
  destruct (MACrossover._calculate_moving_averages st _)
    as [[[short_ma long_ma]|]|e];
    [|left; split; [by left | done]|left; split; [right; eauto | done]].
  destruct (MACrossover._get_previous_moving_averages st _)
    as [[[prev_short_ma prev_long_ma]|]|e];
    [|left; split; [by left | done]|left; split; [right; eauto | done]].
  pose proof (detect_crossover_cases st env (ev_symbol event) price short_ma
                long_ma prev_short_ma prev_long_ma (ev_timestamp event)) as Hd.
  cbv zeta in Hd.
  destruct (MACrossover._detect_crossover _ _ _ _ _ _ _ _ _) as [[[sig|]|e] st']
    eqn:Hdet; cbn [fst snd] in *.
  - right. exists price, short_ma, long_ma, prev_short_ma, prev_long_ma, sig.
    split; [by repeat split|]. split; [exact Hdet | reflexivity].
  - left. split; [by left|].
    destruct Hd as [[_ ->]|(sig & ? & ? & [=] & _)]. reflexivity.
  - left. split; [right; eauto|].
    destruct Hd as [[_ ->]|(sig & ? & ? & [=] & _)]. reflexivity.
Qed.

(** Appending a price changes neither the name nor the threshold. *)
Lemma update_price_history_name
    (self : MACrossover.Strategy) (symbol : string) (price : Q) (ts : datetime) :
  MACrossover.name (MACrossover._update_price_history self symbol price ts)
  = MACrossover.name self.
Proof.
  reflexivity.
Qed.

Lemma update_price_history_min_confidence
    (self : MACrossover.Strategy) (symbol : string) (price : Q) (ts : datetime) :
  MACrossover.min_confidence (MACrossover._update_price_history self symbol price ts)
  = MACrossover.min_confidence self.
Proof.
  reflexivity.
Qed.

(** The configuration of a strategy is never changed by an event. *)
Lemma process_market_event_static
    (self : MACrossover.Strategy) (env : MACrossover.Env) (event : MarketEvent) :
  let after := (MACrossover.process_market_event self env event).2 in
  MACrossover.name after = MACrossover.name self /\
  MACrossover.symbols after = MACrossover.symbols self /\
  MACrossover.is_active after = MACrossover.is_active self /\
  MACrossover.short_period after = MACrossover.short_period self /\
  MACrossover.min_confidence after = MACrossover.min_confidence self.
Proof.
  unfold MACrossover.process_market_event.
  destruct (negb (MACrossover.is_active self) || _); [done|].
  destruct (negb (MACrossover.is_symbol_relevant self _)); [done|].
  destruct (MACrossover._extract_price _) as [price|]; [|done].
  set (st := MACrossover._update_price_history self (ev_symbol event) price
               (ev_timestamp event)).
  destruct (MACrossover._calculate_moving_averages st _)
    as [[[short_ma long_ma]|]|e]; try done.
  destruct (MACrossover._get_previous_moving_averages st _)
    as [[[prev_short_ma prev_long_ma]|]|e]; try done.
  pose proof (detect_crossover_cases st env (ev_symbol event) price short_ma
                long_ma prev_short_ma prev_long_ma (ev_timestamp event)) as Hd.
  cbv zeta in Hd.
  destruct (MACrossover._detect_crossover _ _ _ _ _ _ _ _ _) as [[[sig|]|e] st'];
    cbn [fst snd] in *;
    destruct Hd as [[_ ->]|(? & ? & ? & _ & -> & _)]; done.
Qed.

(** X18: what the strategy can emit.  One call of [process_market_event]
    returns at most one signal.  A returned signal is a MARKET order from
    source STRATEGY for the upper-cased symbol of the tick, with no limit
    or stop price; it is a BUY after a bullish crossover (previous short
    average at or below the previous long one, short average now above
    the long one) and a SELL after a bearish one; its confidence lies
    between 0 and 1 and is at least the strategy's min_confidence; its
    quantity is [_calculate_position_size] of that confidence, between 50
    and 100 shares; and its metadata records the two averages, the price
    and the kind of crossover. *)
Theorem emitted_signal_shape
    (self : MACrossover.Strategy) (env : MACrossover.Env) (event : MarketEvent)
    (signals : list TradeSignal) :
  (MACrossover.process_market_event self env event).1 = Ok signals ->
  signals = [] \/
  exists sd ct price short_ma long_ma c,
    signals =
      [{| id := MACrossover.uuid4 env;
          symbol := Py.upper (ev_symbol event);
          side := sd;
          qty := MACrossover._calculate_position_size c;
          order_type := MARKET;
          confidence := c;
          source := STRATEGY;
          created_at := MACrossover.utcnow env;
          strategy_name := Some (MACrossover.name self);
          price := None;
          stop_price := None;
          metadata :=
            <[ "short_ma" := VFloat short_ma ]>
            (<[ "long_ma" := VFloat long_ma ]>
             (<[ "price" := VFloat price ]>
              {[ "crossover_type" := VStr ct ]})) |}] /\
    MACrossover._extract_price (payload event) = Some price /\
    ((sd = BUY /\ ct = "bullish" /\ (long_ma < short_ma)%Q) \/
     (sd = SELL /\ ct = "bearish" /\ (short_ma < long_ma)%Q)) /\
    (0 <= c)%Q /\ (c <= 1)%Q /\ (MACrossover.min_confidence self <= c)%Q /\
    50 <= MACrossover._calculate_position_size c <= 100.
Proof.
  intros Hr.
  destruct (process_market_event_cases self env event)
    as [[[H|[e H]] _]|(price & s & l & ps & pl & sig & Hproc & Hdet & Hout)];
    cbv zeta in *.
  - left. congruence.
  - congruence.
  - right.
    pose proof (detect_crossover_cases
                  (MACrossover._update_price_history self (ev_symbol event) price
                     (ev_timestamp event))
                  env (ev_symbol event) price s l ps pl (ev_timestamp event)) as Hd.
    cbv zeta in Hd. rewrite Hdet in Hd. cbn [fst snd] in Hd.
    destruct Hd as [[Hno _]|(sig' & sd & ct & [= <-] & _ & _ & Hemit & Hdir)].
    { exfalso. by apply (Hno sig). }
    apply emit_signal_fields in Hemit as (c & _ & Hmin & H0 & H1 & ->).
    rewrite update_price_history_name in Hout.
    rewrite update_price_history_min_confidence in Hmin.
    exists sd, ct, price, s, l, c.
    split; [congruence|].
    split; [apply Hproc|].
    split; [destruct Hdir as [(-> & -> & _ & ?)|(-> & -> & _ & ?)]; [left|right]; done|].
    split; [exact H0|]. split; [exact H1|]. split; [exact Hmin|].
    by apply position_size_range.
Qed.

Lemma emitted_signal_shape_witness :
  exists sig,
    Scenario.bullish_signals = [sig] /\ 50 <= qty sig <= 100.
Proof.
  destruct (emitted_signal_shape Scenario.after_falling
              Scenario.bullish_tick.1 Scenario.bullish_tick.2
              Scenario.bullish_signals)
    as [Hnone|(sd & ct & price & short_ma & long_ma & c & Heq & _ & _ & _ & _ & _ & Hq)].
  - vm_compute. reflexivity.
  - vm_compute in Hnone. discriminate.
  - eexists. split; [exact Heq | exact Hq].
Defined.

(** X19: the cooldown between two signals of a symbol.  While less than
    five minutes separate a tick from the last signal emitted for its
    symbol, [process_market_event] returns no signal.  A call that returns
    a signal records the tick's timestamp as the time of the last signal
    of the symbol, and at least five minutes lie between that timestamp
    and the time recorded before; a call that returns none leaves the
    recorded times as they were. *)
Theorem cooldown_between_signals
    (self : MACrossover.Strategy) (env : MACrossover.Env) (event : MarketEvent) :
  let r := MACrossover.process_market_event self env event in
  (forall t,
     MACrossover.last_signal_time self !! ev_symbol event = Some t ->
     ev_timestamp event - t < timedelta_minutes 5 ->
     forall sig rest, r.1 <> Ok (sig :: rest)) /\
  (forall sig rest,
     r.1 = Ok (sig :: rest) ->
     MACrossover.last_signal_time r.2
       = <[ ev_symbol event := ev_timestamp event ]>
           (MACrossover.last_signal_time self) /\
     forall t,
       MACrossover.last_signal_time self !! ev_symbol event = Some t ->
       timedelta_minutes 5 <= ev_timestamp event - t) /\
  ((forall sig rest, r.1 <> Ok (sig :: rest)) ->
   MACrossover.last_signal_time r.2 = MACrossover.last_signal_time self).
Proof.
  intros r. subst r.
  assert (Hemit : forall sig rest,
    (MACrossover.process_market_event self env event).1 = Ok (sig :: rest) ->
    MACrossover.last_signal_time
      (MACrossover.process_market_event self env event).2
      = <[ ev_symbol event := ev_timestamp event ]>
          (MACrossover.last_signal_time self) /\
    forall t,
      MACrossover.last_signal_time self !! ev_symbol event = Some t ->
      timedelta_minutes 5 <= ev_timestamp event - t).
  { intros sig rest Hr.
    destruct (process_market_event_cases self env event)
      as [[[H|[e H]] _]|(price & s & l & ps & pl & sig' & Hproc & Hdet & Hout)];
      cbv zeta in *; [congruence|congruence|].
    pose proof (detect_crossover_cases
                  (MACrossover._update_price_history self (ev_symbol event) price
                     (ev_timestamp event))
                  env (ev_symbol event) price s l ps pl (ev_timestamp event)) as Hd.
    cbv zeta in Hd. rewrite Hdet in Hd. cbn [fst snd] in Hd.
    destruct Hd as [[Hno _]|(sig2 & sd & ct & _ & -> & Hcool & _)].
    { exfalso. by apply (Hno sig'). }
    split; [reflexivity | exact Hcool]. }
  split; [|split].
  - intros t Hlast Hlt sig rest Hr.
    destruct (Hemit sig rest Hr) as [_ Hcool]. specialize (Hcool t Hlast). lia.
  - exact Hemit.
  - intros Hno.
    destruct (process_market_event_cases self env event)
      as [[_ H]|(price & s & l & ps & pl & sig' & _ & _ & Hout)];
      cbv zeta in *; [exact H|].
    exfalso. exact (Hno sig' [] Hout).
Qed.

Lemma cooldown_between_signals_witness :
  ~ exists sig rest,
      (MACrossover.process_market_event Scenario.after_bullish
         (Scenario.spy_tick 5 1).1 (Scenario.spy_tick 5 1).2).1
      = Ok (sig :: rest).
Proof.
  intros (sig & rest & H).
  destruct (cooldown_between_signals Scenario.after_bullish
              (Scenario.spy_tick 5 1).1 (Scenario.spy_tick 5 1).2) as [Hcool _].
  apply (Hcool (timedelta_seconds 4)) in H; [exact H | |].
  - vm_compute. reflexivity.
  - vm_compute. reflexivity.
Defined.

(** X20: a tick touches only its own symbol: the price history and the
    time of the last signal of every other symbol are what they were, and
    the strategy's name, symbols, periods, threshold and activity never
    change. *)
Theorem other_symbols_untouched
    (self : MACrossover.Strategy) (env : MACrossover.Env) (event : MarketEvent)
    (other : string) :
  other <> ev_symbol event ->
  let after := (MACrossover.process_market_event self env event).2 in
  MACrossover.price_history after !! other
    = MACrossover.price_history self !! other /\
  MACrossover.last_signal_time after !! other
    = MACrossover.last_signal_time self !! other /\
  MACrossover.name after = MACrossover.name self /\
  MACrossover.symbols after = MACrossover.symbols self /\
  MACrossover.is_active after = MACrossover.is_active self /\
  MACrossover.short_period after = MACrossover.short_period self /\
  MACrossover.long_period after = MACrossover.long_period self /\
  MACrossover.min_confidence after = MACrossover.min_confidence self.
Proof.
  intros Hne after. subst after.
  destruct (process_market_event_static self env event) as (Hn & Hsy & Ha & Hsp & Hmc).
  destruct (process_market_event_history self env event) as [Hl Hh].
  split.
  { destruct Hh as [[_ ->]|(price & _ & ->)]; [done|].
    by apply update_price_history_other. }
  split.
  { destruct (process_market_event_cases self env event)
      as [[_ ->]|(price & s & l & ps & pl & sig' & _ & Hdet & Hout)];
      cbv zeta in *; [done|].
    pose proof (detect_crossover_cases
                  (MACrossover._update_price_history self (ev_symbol event) price
                     (ev_timestamp event))
                  env (ev_symbol event) price s l ps pl (ev_timestamp event)) as Hd.
    cbv zeta in Hd. rewrite Hdet in Hd. cbn [fst snd] in Hd.
    destruct Hd as [[_ ->]|(sig2 & sd & ct & _ & -> & _)]; [done|].
    cbn. by rewrite lookup_insert_ne. }
  by repeat split.
Qed.

Lemma other_symbols_untouched_witness :
  MACrossover.price_history Scenario.after_bullish !! "AAPL"
  = MACrossover.price_history Scenario.after_falling !! "AAPL".
Proof.
  destruct (other_symbols_untouched Scenario.after_falling
              Scenario.bullish_tick.1 Scenario.bullish_tick.2 "AAPL")
    as [H _].
  - discriminate.
  - exact H.
Defined.

(** While the history of a symbol is shorter than [long_period], a new
    price is appended and nothing is dropped. *)
Lemma update_price_history_short
    (self : MACrossover.Strategy) (symbol : string) (price : Q)
    (timestamp : datetime) :
  MACrossover.history_len self symbol < MACrossover.long_period self ->
  MACrossover.price_history
    (MACrossover._update_price_history self symbol price timestamp) !! symbol
  = Some (default [] (MACrossover.price_history self !! symbol)
          ++ [{| MACrossover.pd_price := price;
                 MACrossover.pd_timestamp := timestamp |}]).
Proof.
  intros Hlen. unfold MACrossover.history_len, Py.len in Hlen.
  rewrite update_price_history_lookup by lia. cbv zeta. f_equal.
  rewrite length_app. cbn [length].
  replace (_ - _)%nat with 0%nat by lia. reflexivity.
Qed.

(** X21: the warm-up of the strategy.  A tick that finds fewer than
    [long_period] prices in the history of its symbol never gives a
    signal: with a short period other than zero the call returns the empty
    list.  With a short period of zero the call still returns the empty
    list while the new price leaves the history below [long_period], but
    the tick whose price completes the first [long_period] entries raises
    ZeroDivisionError. *)
Theorem warm_up_gives_no_signal
    (self : MACrossover.Strategy) (env : MACrossover.Env) (event : MarketEvent) :
  MACrossover.history_len self (ev_symbol event) < MACrossover.long_period self ->
  let r := (MACrossover.process_market_event self env event).1 in
  (MACrossover.short_period self <> 0 -> r = Ok []) /\
  (MACrossover.history_len self (ev_symbol event) + 1
     < MACrossover.long_period self -> r = Ok []) /\
  (MACrossover.short_period self = 0 ->
   MACrossover.history_len self (ev_symbol event) + 1
     = MACrossover.long_period self ->
   forall price, MACrossover.processed_with self event price ->
   r = Raise "float division by zero").
Proof.
  intros Hlen r. subst r.
  assert (Hbody : forall price,
    MACrossover._extract_price (payload event) = Some price ->
    let st := MACrossover._update_price_history self (ev_symbol event) price
                (ev_timestamp event) in
    (MACrossover.history_len self (ev_symbol event) + 1
       < MACrossover.long_period self ->
     MACrossover._calculate_moving_averages st (ev_symbol event) = Ok None) /\
    (MACrossover.history_len self (ev_symbol event) + 1
       = MACrossover.long_period self ->
     (MACrossover.short_period self = 0 ->
      MACrossover._calculate_moving_averages st (ev_symbol event)
      = Raise "float division by zero") /\
     (MACrossover.short_period self <> 0 ->
      exists mas,
        MACrossover._calculate_moving_averages st (ev_symbol event)
        = Ok (Some mas))) /\
    MACrossover._get_previous_moving_averages st (ev_symbol event) = Ok None).
  { intros price _ st. subst st.
    unfold MACrossover._calculate_moving_averages,
      MACrossover._get_previous_moving_averages.
    rewrite (update_price_history_short self (ev_symbol event) price
               (ev_timestamp event) Hlen).
    cbv zeta.
    change (MACrossover.long_period (MACrossover._update_price_history _ _ _ _))
      with (MACrossover.long_period self).
    set (prices := map MACrossover.pd_price _).
    assert (Hp : Py.len prices
                 = MACrossover.history_len self (ev_symbol event) + 1).
    { subst prices. unfold Py.len, MACrossover.history_len.
      rewrite length_map, length_app. cbn [length]. unfold Py.len. lia. }
    split; [|split].
    - intros Hlt. destruct (Z.ltb_spec (Py.len prices)
                              (MACrossover.long_period self)); [done|lia].
    - intros Heq.
      destruct (Z.ltb_spec (Py.len prices) (MACrossover.long_period self));
        [lia|].
      unfold MACrossover.averages, MACrossover.mean_over.
      change (MACrossover.short_period (MACrossover._update_price_history _ _ _ _))
        with (MACrossover.short_period self).
      change (MACrossover.long_period (MACrossover._update_price_history _ _ _ _))
        with (MACrossover.long_period self).
      split.
      + intros ->. reflexivity.
      + intros Hs.
        destruct (Z.eqb_spec (MACrossover.short_period self) 0); [done|].
        destruct (Z.eqb_spec (MACrossover.long_period self) 0);
          [unfold MACrossover.history_len, Py.len in *; lia|].
        eauto.
    - destruct (Z.ltb_spec (Py.len prices) (MACrossover.long_period self + 1));
        [done|lia]. }
  unfold MACrossover.process_market_event, MACrossover.processed_with.
  destruct (negb (MACrossover.is_active self) || _) eqn:Hskip.
  { split; [done|]. split; [done|].
    intros _ _ price (Ha & Ht & _). exfalso.
    rewrite Ha in Hskip. cbn in Hskip.
    by rewrite bool_decide_eq_true_2 in Hskip. }
  unfold MACrossover.is_symbol_relevant.
  destruct (bool_decide (ev_symbol event ∈ MACrossover.symbols self)) eqn:Hs;
    cbn [negb].
  2:{ split; [done|]. split; [done|].
      intros _ _ price (_ & _ & Hin & _).
      apply bool_decide_eq_false in Hs. contradiction. }
  destruct (MACrossover._extract_price (payload event)) as [price|] eqn:Hp.
  2:{ split; [done|]. split; [done|]. by intros _ _ price (_ & _ & _ & ?). }
  destruct (Hbody price eq_refl) as (Hbelow & Hat & Hprev). cbv zeta in *.
  split; [|split].
  - intros Hsp.
    destruct (Z.lt_ge_cases
                (MACrossover.history_len self (ev_symbol event) + 1)
                (MACrossover.long_period self)) as [Hlt|Hge].
    + by rewrite (Hbelow Hlt).
    + destruct Hat as [_ Hav]; [lia|].
      destruct (Hav Hsp) as [[short_ma long_ma] ->]. by rewrite Hprev.
  - intros Hlt. by rewrite (Hbelow Hlt).
  - intros Hsp Heq price' _.
    destruct (Hat Heq) as [Hraise _]. by rewrite (Hraise Hsp).
Qed.

Lemma warm_up_gives_no_signal_witness :
  (MACrossover.process_market_event Scenario.short_strategy
     (Scenario.spy_tick 0 10).1 (Scenario.spy_tick 0 10).2).1 = Ok [].
Proof.
  destruct (warm_up_gives_no_signal Scenario.short_strategy
              (Scenario.spy_tick 0 10).1 (Scenario.spy_tick 0 10).2)
    as [H _].
  - vm_compute. reflexivity.
  - apply H. discriminate.
Defined.

(** What every signal the strategy returns has: the tick was a TICK for
    one of the strategy's symbols, and the signal is for 50 to 100 shares
    of the upper-cased symbol in the strategy's name.  At most one signal
    comes back. *)
Lemma emitted_signals_facts
    (self : MACrossover.Strategy) (env : MACrossover.Env) (event : MarketEvent)
    (signals : list TradeSignal) :
  (MACrossover.process_market_event self env event).1 = Ok signals ->
  (length signals <= 1)%nat /\
  Forall (fun sig =>
            50 <= qty sig <= 100 /\
            symbol sig = Py.upper (ev_symbol event) /\
            strategy_name sig = Some (MACrossover.name self) /\
            type event = TICK)
         signals.
Proof.
  intros Hr.
  destruct (process_market_event_cases self env event)
    as [[[H|[e H]] _]|(price & s & l & ps & pl & sig & Hproc & Hdet & Hout)];
    cbv zeta in *.
  - rewrite H in Hr. injection Hr as <-. split; [cbn; lia | constructor].
  - congruence.
  - rewrite Hout in Hr. injection Hr as <-.
    pose proof (detect_crossover_cases
                  (MACrossover._update_price_history self (ev_symbol event) price
                     (ev_timestamp event))
                  env (ev_symbol event) price s l ps pl (ev_timestamp event)) as Hd.
    cbv zeta in Hd. rewrite Hdet in Hd. cbn [fst snd] in Hd.
    destruct Hd as [[Hno _]|(sig' & sd & ct & [= <-] & _ & _ & Hemit & _)].
    { exfalso. by apply (Hno sig). }
    apply emit_signal_fields in Hemit as (c & _ & _ & H0 & H1 & ->).
    split; [cbn; lia|].
    constructor; [|constructor]. cbn [qty symbol strategy_name].
    split; [by apply position_size_range|].
    split; [reflexivity|]. split; [reflexivity|]. apply Hproc.
Qed.

(** X22: the strategy and the default risk rules together.  The size rule
    values every share at $100 and allows 5% of the equity, and the
    strategy never asks for fewer than 50 shares; so on an account whose
    equity is positive but below $100,000 an active engine with the
    default rules rejects every signal the strategy emits, at its first
    rule, with a reason that begins "max_position_size: Position size". *)
Theorem strategy_signal_rejected_below_100k
    (self : MACrossover.Strategy) (senv : MACrossover.Env) (event : MarketEvent)
    (signals : list TradeSignal) (sig : TradeSignal)
    (eng : Risk.RiskEngine) (env : Risk.Env)
    (account : AccountSnapshot) (positions : list PositionSnapshot) :
  (MACrossover.process_market_event self senv event).1 = Ok signals ->
  sig ∈ signals ->
  Risk.rules eng = Risk.rules Risk.new_RiskEngine ->
  Risk.is_active eng = true ->
  (0 < equity account)%Q -> (equity account < 100000)%Q ->
  let o := Risk.validate_signal eng env sig account positions in
  ~ Risk.approves o /\
  Risk.evaluated_rules o = ["max_position_size"] /\
  exists text,
    Risk.rejection_reason_of o
    = Some ("max_position_size: Position size " +:+ text).
Proof.
  intros Hr Hin Hrules Hact Hpos Hsmall.
  apply emitted_signals_facts in Hr as [_ Hr]. rewrite Forall_forall in Hr.
  destruct (Hr sig Hin) as [[Hq _] _].
  assert (Hqq : (50 <= inject_Z (qty sig))%Q).
  { change 50%Q with (inject_Z 50). by rewrite <- Zle_Qle. }
  assert (Hfail : exists text,
    Risk.validate (Risk.MaxPositionSizeRule (5 # 100)) sig account positions
                  (Risk.recent_signals eng) (Risk.now env)
    = Risk.Returned false (Some ("Position size " +:+ text))).
  { unfold Risk.MaxPositionSizeRule. cbn [Risk.validate].
    rewrite (Qeq_bool_false_neq (equity account) 0) by lra.
    assert (Hlt : ((5 # 100)
                   < inject_Z (qty sig) * inject_Z 100 / equity account)%Q).
    { apply Qlt_shift_div_l; [exact Hpos|].
      change (inject_Z 100) with 100%Q. lra. }
    apply Qltb_lt in Hlt. rewrite Hlt. eexists. reflexivity. }
  destruct Hfail as [text Hfail].
  destruct (rejection_after_passing_prefix eng env sig account positions []
              [Risk.MaxPositionsPerSymbolRule 2; Risk.MinConfidenceRule (6 # 10);
               Risk.DuplicateSignalRule 1; Risk.MarketHoursRule]
              (Risk.MaxPositionSizeRule (5 # 100)) _ Hact Hrules
              (Forall_nil_2 _) Hfail) as [Hev Hreason].
  intros o. subst o.
  split; [|split].
  - intros [a Ha]. unfold Risk.rejection_reason_of in Hreason.
    rewrite Ha in Hreason. discriminate.
  - exact Hev.
  - exists text. rewrite Hreason. reflexivity.
Qed.

Lemma strategy_signal_rejected_below_100k_witness :
  exists sig,
    Scenario.bullish_signals = [sig] /\
    Risk.evaluated_rules
      (Risk.validate_signal Risk.new_RiskEngine Scenario.monday_10am sig
         Scenario.account [])
    = ["max_position_size"].
Proof.
  assert (H : exists sig, Scenario.bullish_signals = [sig])
    by (eexists; vm_compute; reflexivity).
  destruct H as [sig Hsig]. exists sig. split; [exact Hsig|].
  destruct (strategy_signal_rejected_below_100k Scenario.after_falling
              Scenario.bullish_tick.1 Scenario.bullish_tick.2
              Scenario.bullish_signals sig Risk.new_RiskEngine
              Scenario.monday_10am Scenario.account [])
    as (_ & H & _).
  - vm_compute. reflexivity.
  - rewrite Hsig. by apply list_elem_of_singleton.
  - reflexivity.
  - reflexivity.
  - vm_compute. reflexivity.
  - vm_compute. reflexivity.
  - exact H.
Defined.

(** ** The strategy engine (engines/strategy/base.py) *)

Lemma contains_iff (d : list (string * MACrossover.Strategy)) (name : string) :
  StrategyEngine.contains d name = true <-> name ∈ d.*1.
Proof.
  unfold StrategyEngine.contains. induction d as [|item rest IH]; cbn.
  - split; [discriminate | intros H; by apply elem_of_nil in H].
  - rewrite orb_true_iff, IH, elem_of_cons.
    destruct (String.eqb_spec item.1 name); split; intros [H|H];
      auto; try discriminate; congruence.
Qed.

Lemma get_app_new
    (d : list (string * MACrossover.Strategy)) (name : string)
    (strategy : MACrossover.Strategy) (other : string) :
  (name ∉ d.*1) ->
  StrategyEngine.get (d ++ [(name, strategy)]) other
  = if String.eqb name other then Some strategy else StrategyEngine.get d other.
Proof.
  intros Hnew. induction d as [|item rest IH]; cbn.
  - reflexivity.
  - cbn in Hnew. apply not_elem_of_cons in Hnew as [Hne Hrest].
    destruct (String.eqb_spec item.1 other) as [<-|_].
    + destruct (String.eqb_spec name item.1); [congruence | reflexivity].
    + by apply IH.
Qed.

Lemma del_app_new
    (d : list (string * MACrossover.Strategy)) (name : string)
    (strategy : MACrossover.Strategy) :
  (name ∉ d.*1) ->
  StrategyEngine.del (d ++ [(name, strategy)]) name = d.
Proof.
  intros Hnew. induction d as [|item rest IH]; cbn.
  - by rewrite String.eqb_refl.
  - cbn in Hnew. apply not_elem_of_cons in Hnew as [Hne Hrest].
    destruct (String.eqb_spec item.1 name); [congruence|].
    by rewrite IH.
Qed.

(** X23: registering and unregistering strategies.  A name that is
    already in the registry makes [register_strategy] raise ValueError
    ("Strategy <name> already registered").  A new name is appended to
    the listed names, [get_strategy] then finds the strategy under it and
    every other name as before, unregistering it again gives back the
    engine as it was, and a registry whose keys are distinct and are the
    names of their strategies stays so.  Unregistering a name that is not registered changes
    nothing. *)
Theorem register_and_unregister
    (self : StrategyEngine.StrategyEngine) (strategy : MACrossover.Strategy) :
  let name := MACrossover.name strategy in
  (name ∈ StrategyEngine.list_strategies self ->
   StrategyEngine.register_strategy self strategy
   = Raise ("Strategy " +:+ name +:+ " already registered")) /\
  ((name ∉ StrategyEngine.list_strategies self) ->
   exists self',
     StrategyEngine.register_strategy self strategy = Ok self' /\
     StrategyEngine.list_strategies self'
       = StrategyEngine.list_strategies self ++ [name] /\
     StrategyEngine.get_strategy self' name = Some strategy /\
     (forall other, other <> name ->
        StrategyEngine.get_strategy self' other
        = StrategyEngine.get_strategy self other) /\
     StrategyEngine.unregister_strategy self' name = self /\
     (StrategyEngine.well_formed self -> StrategyEngine.well_formed self')) /\
  (forall unknown,
     (unknown ∉ StrategyEngine.list_strategies self) ->
     StrategyEngine.unregister_strategy self unknown = self).
Proof.
  intros name. subst name. unfold StrategyEngine.list_strategies.
  split; [|split].
  - intros Hin. apply contains_iff in Hin.
    unfold StrategyEngine.register_strategy. by rewrite Hin.
  - intros Hnew.
    assert (Hc : StrategyEngine.contains (StrategyEngine.strategies self)
                   (MACrossover.name strategy) = false).
    { destruct (StrategyEngine.contains _ _) eqn:E; [|reflexivity].
      apply contains_iff in E. contradiction. }
    unfold StrategyEngine.register_strategy. rewrite Hc.
    eexists. split; [reflexivity|].
    cbn [StrategyEngine.strategies StrategyEngine.is_running].
    split; [by rewrite fmap_app|].
    unfold StrategyEngine.get_strategy, StrategyEngine.unregister_strategy.
    cbn [StrategyEngine.strategies StrategyEngine.is_running].
    split; [|split].
    + rewrite get_app_new by exact Hnew. by rewrite String.eqb_refl.
    + intros other Hne. rewrite get_app_new by exact Hnew.
      destruct (String.eqb_spec (MACrossover.name strategy) other);
        [congruence | reflexivity].
    + assert (Hin : StrategyEngine.contains
                      (StrategyEngine.strategies self
                       ++ [(MACrossover.name strategy, strategy)])
                      (MACrossover.name strategy) = true).
      { apply contains_iff. rewrite fmap_app. apply elem_of_app. right.
        cbn. by apply list_elem_of_singleton. }
      rewrite Hin, del_app_new by exact Hnew.
      split; [by destruct self|].
      intros [Hnd Hnames]. split; cbn [StrategyEngine.strategies].
      * rewrite fmap_app. apply NoDup_app. split; [exact Hnd|].
        split; [|apply NoDup_singleton].
        intros x Hx Hx'. cbn in Hx'. apply list_elem_of_singleton in Hx'.
        congruence.
      * apply Forall_app. split; [exact Hnames|]. by constructor.
  - intros unknown Hnew. unfold StrategyEngine.unregister_strategy.
    destruct (StrategyEngine.contains _ _) eqn:E; [|reflexivity].
    apply contains_iff in E. contradiction.
Qed.

Lemma register_and_unregister_witness :
  exists self',
    StrategyEngine.register_strategy StrategyEngine.new_StrategyEngine
      Scenario.spy_strategy = Ok self' /\
    StrategyEngine.unregister_strategy self' "MA_Crossover"
    = StrategyEngine.new_StrategyEngine.
Proof.
  destruct (register_and_unregister StrategyEngine.new_StrategyEngine
              Scenario.spy_strategy) as (_ & H & _).
  destruct H as (self' & Hreg & _ & _ & _ & Hun & _).
  - intros Hin. vm_compute in Hin. by apply elem_of_nil in Hin.
  - exists self'. split; [exact Hreg | exact Hun].
Defined.

(** One turn of the loop keeps the registration and publishes at most one
    event, which is a SIGNAL_GENERATED event of this strategy for the
    tick's symbol. *)
Lemma process_one_spec
    (env : string -> StrategyEngine.Env) (event : MarketEvent)
    (item : string * MACrossover.Strategy) :
  let r := StrategyEngine.process_one env event item in
  StrategyEngine.same_registration item r.1 /\
  (length r.2 <= 1)%nat /\
  Forall (StrategyEngine.published_by event item) r.2.
Proof.
  unfold StrategyEngine.process_one. cbv zeta.
  assert (Hskip : StrategyEngine.same_registration item item /\
                  (length (@nil DomainEvent) <= 1)%nat /\
                  Forall (StrategyEngine.published_by event item) []).
  { split; [by repeat split|]. split; [cbn; lia | constructor]. }
  destruct (MACrossover.is_active item.2) eqn:Ha; cbn [negb];
    [|exact Hskip].
  unfold MACrossover.is_symbol_relevant.
  destruct (bool_decide (ev_symbol event ∈ MACrossover.symbols item.2)) eqn:Hs;
    cbn [negb]; [|exact Hskip].
  apply bool_decide_eq_true in Hs.
  pose proof (process_market_event_static item.2
                (StrategyEngine.strategy_env (env item.1)) event) as Hst.
  pose proof (emitted_signals_facts item.2
                (StrategyEngine.strategy_env (env item.1)) event) as Hsig.
  cbv zeta in Hst.
  destruct (MACrossover.process_market_event _ _ _) as [[signals|e] strategy'];
    cbn [fst snd] in *.
  - destruct Hst as (Hn & Hsy & Hact & _).
    destruct (Hsig signals eq_refl) as [Hlen Hall].
    split; [by repeat split|].
    split; [by rewrite length_map|].
    apply Forall_fmap. eapply Forall_impl; [exact Hall|].
    intros sig ((Hq1 & Hq2) & Hsym & Hname & Htick).
    repeat split; try done. exists sig. by repeat split.
  - destruct Hst as (Hn & Hsy & Hact & _).
    split; [by repeat split|]. split; [cbn; lia | constructor].
Qed.

Lemma process_each_spec
    (env : string -> StrategyEngine.Env) (event : MarketEvent)
    (todo : list (string * MACrossover.Strategy)) :
  let r := StrategyEngine.process_each env event todo in
  Forall2 StrategyEngine.same_registration todo r.1 /\
  (length r.2 <= length todo)%nat /\
  Forall (fun ev => exists item, item ∈ todo /\ StrategyEngine.published_by event item ev) r.2.
Proof.
  induction todo as [|item rest IH]; cbn [StrategyEngine.process_each].
  - cbn. split; [constructor|]. split; [lia | constructor].
  - pose proof (process_one_spec env event item) as H1. cbv zeta in *.
    destruct (StrategyEngine.process_one env event item) as [item' published].
    destruct (StrategyEngine.process_each env event rest) as [rest' published_rest].
    cbn [fst snd] in *.
    destruct H1 as (Hsame & Hlen & Hpub). destruct IH as (Hsames & Hlens & Hpubs).
    split; [by constructor|].
    split; [rewrite length_app; cbn [length]; lia|].
    apply Forall_app. split.
    + eapply Forall_impl; [exact Hpub|]. intros ev Hev.
      exists item. split; [by apply elem_of_cons; left | exact Hev].
    + eapply Forall_impl; [exact Hpubs|]. intros ev (it & Hin & Hev).
      exists it. split; [by apply elem_of_cons; right | exact Hev].
Qed.

Lemma required_symbols_same_registration
    (before after : list (string * MACrossover.Strategy)) :
  Forall2 StrategyEngine.same_registration before after ->
  forall acc,
    foldl (fun symbols item =>
             if MACrossover.is_active item.2
             then symbols ∪ MACrossover.symbols item.2 else symbols) acc after
    = foldl (fun symbols item =>
               if MACrossover.is_active item.2
               then symbols ∪ MACrossover.symbols item.2 else symbols) acc before.
Proof.
  induction 1 as [|a b before after (_ & _ & Ha & Hs) _ IH]; intros acc; cbn.
  - reflexivity.
  - rewrite <- Ha, <- Hs. apply IH.
Qed.

(** X24: what the strategy engine does with a market event.  A stopped
    engine publishes nothing and keeps its state.  A running engine keeps
    its registry of names, its running flag and the symbols it requires,
    and its keys stay distinct and equal to the names of their strategies;
    it publishes at most one event per registered strategy, and every
    published event is a SIGNAL_GENERATED event for a TICK, carrying a
    signal of 50 to 100 shares of the upper-cased tick symbol and the name
    of a registered, active strategy that lists the tick's symbol. *)
Theorem engine_publishes_strategy_signals
    (self : StrategyEngine.StrategyEngine) (env : string -> StrategyEngine.Env)
    (event : MarketEvent) :
  let r := StrategyEngine.process_market_event self env event in
  (StrategyEngine.is_running self = false -> r = (self, [])) /\
  StrategyEngine.list_strategies r.1 = StrategyEngine.list_strategies self /\
  StrategyEngine.is_running r.1 = StrategyEngine.is_running self /\
  StrategyEngine.get_required_symbols r.1
    = StrategyEngine.get_required_symbols self /\
  (StrategyEngine.well_formed self -> StrategyEngine.well_formed r.1) /\
  (length r.2 <= length (StrategyEngine.strategies self))%nat /\
  Forall (fun ev =>
            exists item,
              item ∈ StrategyEngine.strategies self /\
              StrategyEngine.published_by event item ev)
         r.2.
Proof.
  intros r. subst r. unfold StrategyEngine.process_market_event.
  destruct (StrategyEngine.is_running self) eqn:Hrun; cbn [negb].
  2:{ cbn [fst snd]. split; [done|]. split; [done|]. split; [exact Hrun|].
      split; [done|]. split; [done|].
      split; [cbn [length]; lia | constructor]. }
  pose proof (process_each_spec env event (StrategyEngine.strategies self)) as H.
  cbv zeta in H.
  destruct (StrategyEngine.process_each _ _ _) as [strategies' published].
  cbn [fst snd] in *. destruct H as (Hsame & Hlen & Hpub).
  split; [discriminate|].
  split.
  { unfold StrategyEngine.list_strategies. cbn [StrategyEngine.strategies].
    clear -Hsame. induction Hsame as [|a b ? ? (Hk & _) _ IH]; cbn; [done|].
    by rewrite IH, Hk. }
  split; [reflexivity|].
  split.
  { unfold StrategyEngine.get_required_symbols. cbn [StrategyEngine.strategies].
    by apply required_symbols_same_registration. }
  split; [|split; [exact Hlen | exact Hpub]].
  intros [Hnd Hnames]. split; cbn [StrategyEngine.strategies].
  - replace (strategies'.*1) with ((StrategyEngine.strategies self).*1);
      [exact Hnd|].
    clear -Hsame. induction Hsame as [|a b ? ? (Hk & _) _ IH]; cbn; [done|].
    by rewrite IH, Hk.
  - clear -Hsame Hnames.
    induction Hsame as [|a b ? ? (Hk & Hn & _) _ IH]; [constructor|].
    apply Forall_cons in Hnames as [Ha Hrest].
    constructor; [congruence | by apply IH].
Qed.

Lemma engine_publishes_strategy_signals_witness :
  StrategyEngine.process_market_event StrategyEngine.new_StrategyEngine
    (Scenario.engine_env 0) (Scenario.spy_tick 0 10).2
  = (StrategyEngine.new_StrategyEngine, []).
Proof.
  destruct (engine_publishes_strategy_signals StrategyEngine.new_StrategyEngine
              (Scenario.engine_env 0) (Scenario.spy_tick 0 10).2) as [H _].
  apply H. reflexivity.
Defined.

(** ** The previous averages *)

(** [l[:-1]] of a list that ends in [x] is the list without it. *)
Lemma slice_to_minus_one_snoc {A : Type} (l : list A) (x : A) :
  Py.slice_to (-1) (l ++ [x]) = l.
Proof.
  unfold Py.slice_to. cbn [Z.ltb Z.compare].
  rewrite length_app. cbn [length].
  replace (Z.to_nat _) with (length l) by lia.
  by rewrite take_app_length.
Qed.

(** The newest [k] entries are the same before and after the oldest [d]
    entries are dropped, as long as [k] entries remain. *)
Lemma slice_from_neg_after_drop {A : Type} (k : Z) (d : nat) (l : list A) :
  0 < k ->
  (d = 0 \/ Z.to_nat k + d <= length l)%nat ->
  Py.slice_from (- k) (drop d l) = Py.slice_from (- k) l.
Proof.
  intros Hk [->|Hd]; [reflexivity|].
  rewrite !slice_from_neg_drop by exact Hk.
  rewrite length_drop, drop_drop. f_equal. lia.
Qed.

(** X25: the "previous" averages are the averages of the tick before.
    With a positive long period and a short period from 0 to
    [long_period + 9], what [_get_previous_moving_averages] computes right
    after a price has been appended is what [_calculate_moving_averages]
    gave on the history before it: the 10 spare entries of the buffer keep
    every price the previous averages need. *)
Theorem previous_averages_are_those_before_the_tick
    (self : MACrossover.Strategy) (symbol : string) (price : Q)
    (timestamp : datetime) :
  0 < MACrossover.long_period self ->
  0 <= MACrossover.short_period self <= MACrossover.long_period self + 9 ->
  MACrossover._get_previous_moving_averages
    (MACrossover._update_price_history self symbol price timestamp) symbol
  = MACrossover._calculate_moving_averages self symbol.
Proof.
  intros Hlong Hshort.
  unfold MACrossover._get_previous_moving_averages,
    MACrossover._calculate_moving_averages.
  rewrite update_price_history_lookup by lia. cbv zeta.
  change (MACrossover.long_period (MACrossover._update_price_history _ _ _ _))
    with (MACrossover.long_period self).
  set (pd := {| MACrossover.pd_price := price;
                MACrossover.pd_timestamp := timestamp |}).
  set (old := default [] (MACrossover.price_history self !! symbol)).
  set (d := (length (old ++ [pd])
             - Z.to_nat (MACrossover.long_period self + 10))%nat).
  assert (Hlen : length (old ++ [pd]) = S (length old))
    by (rewrite length_app; cbn; lia).
  assert (Hd : (d <= length old)%nat) by lia.
  assert (Hdrop : drop d (old ++ [pd]) = drop d old ++ [pd]).
  { rewrite drop_app. replace (d - length old)%nat with 0%nat by lia.
    reflexivity. }
  rewrite Hdrop, map_app. cbn [map].
  change (MACrossover.pd_price pd) with price.
  rewrite slice_to_minus_one_snoc.
  assert (Hcur : (Py.len (map MACrossover.pd_price (drop d old) ++ [price])
                  <? MACrossover.long_period self + 1)
                 = (Py.len (map MACrossover.pd_price old)
                    <? MACrossover.long_period self)).
  { unfold Py.len. rewrite length_app, !length_map, length_drop. cbn [length].
    destruct (Z.ltb_spec (Z.of_nat (length old)) (MACrossover.long_period self));
      destruct (Z.ltb_spec (Z.of_nat (length old - d + 1))
                  (MACrossover.long_period self + 1)); try reflexivity; lia. }
  rewrite Hcur.
  assert (Hold : MACrossover.price_history self !! symbol = None /\ old = []
                 \/ MACrossover.price_history self !! symbol = Some old).
  { subst old. destruct (MACrossover.price_history self !! symbol);
      [right | left]; done. }
  destruct Hold as [[-> Hnil] | ->].
  { rewrite Hnil. cbn [map length].
    destruct (Z.ltb_spec (Py.len (@nil Q)) (MACrossover.long_period self));
      [reflexivity | unfold Py.len in *; cbn in *; lia]. }
  destruct (Z.ltb_spec (Py.len (map MACrossover.pd_price old))
              (MACrossover.long_period self)) as [|Hge]; [reflexivity|].
  unfold Py.len in Hge. rewrite length_map in Hge.
  destruct (Z.ltb_spec (Py.len (map MACrossover.pd_price (drop d old)))
              (MACrossover.long_period self)) as [Hlt|_].
  { unfold Py.len in Hlt. rewrite length_map, length_drop in Hlt. lia. }
  unfold MACrossover.averages, MACrossover.mean_over.
  change (MACrossover.short_period (MACrossover._update_price_history _ _ _ _))
    with (MACrossover.short_period self).
  change (MACrossover.long_period (MACrossover._update_price_history _ _ _ _))
    with (MACrossover.long_period self).
  destruct (Z.eqb_spec (MACrossover.short_period self) 0) as [|Hs0];
    [reflexivity|].
  rewrite <- !skipn_map.
  rewrite (slice_from_neg_after_drop (MACrossover.short_period self) d)
    by (rewrite ?length_map; lia).
  rewrite (slice_from_neg_after_drop (MACrossover.long_period self) d)
    by (rewrite ?length_map; lia).
  reflexivity.
Qed.

Lemma previous_averages_are_those_before_the_tick_witness :
  MACrossover._get_previous_moving_averages
    (MACrossover._update_price_history Scenario.after_falling "SPY" 12 4000000)
    "SPY"
  = MACrossover._calculate_moving_averages Scenario.after_falling "SPY".
Proof.
  apply (previous_averages_are_those_before_the_tick Scenario.after_falling
           "SPY" 12 4000000).
  - vm_compute. reflexivity.
  - vm_compute. split; discriminate.
Defined.

(** ** Cancelling through the Alpaca adapter *)

(** X26: the engine's [cancel_order] over the Alpaca adapter.  For a
    tracked order with a broker order id, the call returns True exactly
    when the adapter is connected and the SDK's cancel_order returns; the
    order then leaves [active_orders] and orders_cancelled goes up by one.
    Otherwise the adapter raises ("Not connected to Alpaca", or "Failed to
    cancel order: <error>" for an SDK error), the engine returns False and
    is unchanged, and the order stays tracked. *)
Theorem cancel_through_alpaca
    (self : Execution.ExecutionEngine)
    (connected : bool) (sdk_cancel : string -> result string unit)
    (uuid4 : string) (utcnow : datetime)
    (broker_cancel : option string -> result string OrderEvent)
    (order_id : string) (info : Execution.ActiveOrder) (b : string) :
  Execution.active_orders self !! order_id = Some info ->
  Execution.ao_broker_order_id info = Some b ->
  broker_cancel (Some b)
    = Alpaca.broker_cancel_order connected sdk_cancel uuid4 utcnow b ->
  let r := Execution.cancel_order self broker_cancel order_id in
  (r.1.2 = true <-> connected = true /\ exists u, sdk_cancel b = Ok u) /\
  (r.1.2 = true ->
   Execution.active_orders r.1.1 = delete order_id (Execution.active_orders self) /\
   Execution.orders_cancelled (Execution.stats r.1.1)
     = Execution.orders_cancelled (Execution.stats self) + 1) /\
  (r.1.2 = false -> r.1.1 = self) /\
  (connected = false ->
   broker_cancel (Some b) = Raise "Not connected to Alpaca") /\
  (connected = true -> forall e,
   sdk_cancel b = Raise e ->
   broker_cancel (Some b) = Raise ("Failed to cancel order: " +:+ e)).
Proof.
  intros Hlook Hid Hbroker r. subst r.
  unfold Execution.cancel_order. rewrite Hlook, Hid, Hbroker.
  unfold Alpaca.broker_cancel_order, Alpaca.cancel_order.
  destruct connected; cbn [negb].
  - destruct (sdk_cancel b) as [u|e] eqn:Hsdk.
    + cbn [status]. rewrite bool_decide_eq_true_2 by reflexivity.
      cbn [fst snd].
      split; [split; [intros _; split; [reflexivity | by exists u] | reflexivity]|].
      split; [intros _; split; reflexivity|].
      split; [discriminate|]. split; [discriminate|].
      intros _ e [=].
    + cbn [fst snd Alpaca.error_text].
      split; [split; [discriminate | intros (_ & u & [=])]|].
      split; [discriminate|]. split; [reflexivity|].
      split; [discriminate|].
      by intros _ e' [= <-].
  - cbn [fst snd Alpaca.error_text].
    split; [split; [discriminate | intros ([=] & _)]|].
    split; [discriminate|]. split; [reflexivity|].
    split; [reflexivity | discriminate].
Qed.

Lemma cancel_through_alpaca_witness :
  (Execution.cancel_order Scenario.one_active_order
     (fun bid => Alpaca.broker_cancel_order true (fun _ => Ok tt) "c1" 0
                   (default "" bid))
     "o1").1.2 = true.
Proof.
  assert (H : exists info,
    Execution.active_orders Scenario.one_active_order !! "o1" = Some info /\
    Execution.ao_broker_order_id info = Some "b1")
    by (eexists; split; vm_compute; reflexivity).
  destruct H as (info & Hlook & Hid).
  destruct (cancel_through_alpaca Scenario.one_active_order true
              (fun _ => Ok tt) "c1" 0
              (fun bid => Alpaca.broker_cancel_order true (fun _ => Ok tt) "c1" 0
                            (default "" bid))
              "o1" info "b1" Hlook Hid eq_refl) as [H _].
  apply H. split; [reflexivity | by exists tt].
Defined.
